(** * Ice-crystal morphometry CSV summary: a model of
      [ice_morphometry_csv_summary.py] and the properties of its
      aggregation pipeline.

    The development follows the Python module function by function:
    [test_disk_write_speed], [plot_lines_with_options],
    [reindex_and_analyze] and [run_with_gui].  pandas tables are lists of rows, a row being a
    finite map from column names to cells; the output folder is a finite map
    from file names to file contents; exceptions are values of [exn] threaded
    through a small state-and-error monad that also carries the console.

    Floating-point cells are modelled without rounding: a finite float read
    from a file is a rational, the two infinite floats are [Inf], NaN is
    [Null], and the square roots taken by [std] and [sem] are kept symbolic
    ([Root q] stands for the square root of [q]).  Rounding and overflow of
    finite values are outside the model; properties that depend on the
    range of the doubles or of the 64-bit integers carry it as a
    hypothesis. *)

From Stdlib Require Import QArith Qabs Qminmax Qpower Reals Lqa.
From stdpp Require Import gmap strings list sorting.

Local Open Scope string_scope.
Local Open Scope list_scope.
Local Open Scope Z_scope.

(** ** Cells and tables *)

Inductive cell : Type :=
| Null                (* NaN, an empty field *)
| Int (z : Z)         (* an integer *)
| Num (q : Q)         (* a finite float *)
| Inf (negative : bool)  (* the float [inf] or [-inf] *)
| Root (q : Q)        (* the float [sqrt q]; only [std] and [sem] make one *)
| Str (s : string).   (* text *)

Abbreviation row := (gmap string cell).

Record DataFrame : Type := mkDataFrame {
  columns : list string;
  rows : list row
}.

(** [df[c]] at one row: a column the row does not carry reads as NaN. *)
Definition get (c : string) (r : row) : cell := default Null (r !! c).

(** [df[c] = v]: overwrite the column in place, or append it as the last
    column. *)
Definition set_column (c : string) (v : cell) (df : DataFrame) : DataFrame :=
  {| columns := if decide (c ∈ columns df) then columns df
                else columns df ++ [c];
     rows := (fun r => <[c := v]> r) <$> rows df |}.

(** Column labels in order of first appearance, as [pd.concat] unions them. *)
Definition union_columns (cols : list string) : list string :=
  foldl (fun acc c => if decide (c ∈ acc) then acc else acc ++ [c]) [] cols.

(** [pd.concat(frames, ignore_index=True)]. *)
Definition concat (frames : list DataFrame) : DataFrame :=
  {| columns := union_columns (mjoin (columns <$> frames));
     rows := mjoin (rows <$> frames) |}.

(** One line of a written CSV file is the list of its fields. *)
Definition header_line (df : DataFrame) : list cell := Str <$> columns df.
Definition data_lines (df : DataFrame) : list (list cell) :=
  (fun r => (fun c => get c r) <$> columns df) <$> rows df.

(** [df.to_csv(f, index=False, header=...)]. *)
Definition to_csv (header : bool) (df : DataFrame) : list (list cell) :=
  (if header then [header_line df] else []) ++ data_lines df.

(** ** Exceptions, the output folder and the console *)

Inductive exn : Type :=
| FileNotFoundError (msg : string)
| OSError
| ZeroDivisionError
| KeyError (names : list string)
| TypeError (column : string)
| ValueError (msg : string) (names : list string)
| LinAlgError.

Inductive figure_item : Type :=
| Line (label : string) (xs ys : list cell)
| ErrorBars (label : string) (xs ys yerr : list cell)
| PolyFit (label : string) (deg : nat) (xs ys : list cell).

Record figure : Type := mkFigure {
  fig_interval : Z;
  fig_items : list figure_item
}.

Inductive file : Type :=
| Scratch (chunks : nat)
| Csv (lines : list (list cell))
| Png (fig : figure).

Abbreviation folder := (gmap string file).

Inductive message : Type :=
| MsgFound (n : nat)
| MsgDiskSpeed (speed : Q)
| MsgColumnsSelected (n : nat)
| MsgSlowDisk (speed : Q)
| MsgFewColumns (n : nat)
| MsgAdequate (speed : Q) (n : nat)
| MsgFinalDecision (parallel : bool)
| MsgWorkers (workers cpus : nat)
| MsgSingleProcess
| MsgMerged (nrows ncols : nat)
| MsgCoercionWarning (column : string)
| MsgNumericFormatting (n : nat)
| MsgWritingRaw (name : string)
| MsgWritingSummary (name : string)
| MsgCpuLoad (load : Q)
| MsgEta (eta : Q)
| MsgPlots (cols : list string)
| MsgDone (raw summary : string).

Record world : Type := mkWorld {
  out_dir : folder;
  console : list message
}.

Inductive outcome (A : Type) : Type :=
| Returned (a : A)
| Raised (e : exn).
Arguments Returned {A} a.
Arguments Raised {A} e.

(** A computation reads and updates the world and either returns or raises;
    the world reached when it raises is kept. *)
Definition M (A : Type) : Type := world -> world * outcome A.

Definition ret {A} (a : A) : M A := fun w => (w, Returned a).
Definition raise {A} (e : exn) : M A := fun w => (w, Raised e).
Definition bind {A B} (m : M A) (k : A -> M B) : M B :=
  fun w => match m w with
           | (w', Returned a) => k a w'
           | (w', Raised e) => (w', Raised e)
           end.
Definition lift {A} (o : outcome A) : M A := fun w => (w, o).

#[global] Instance M_ret : MRet M := @ret.
#[global] Instance M_bind : MBind M := fun A B k m => bind m k.

Definition print (m : message) : M unit :=
  fun w => ({| out_dir := out_dir w; console := console w ++ [m] |},
            Returned tt).

(** [open(name, "w")]: create the file or truncate it. *)
Definition create (name : string) (f : file) : M unit :=
  fun w => ({| out_dir := <[name := f]> (out_dir w); console := console w |},
            Returned tt).

(** Append lines to an open CSV file. *)
Definition append_lines (name : string) (ls : list (list cell)) : M unit :=
  fun w =>
    let old := match out_dir w !! name with
               | Some (Csv l) => l
               | _ => []
               end in
    ({| out_dir := <[name := Csv (old ++ ls)]> (out_dir w);
        console := console w |}, Returned tt).

(** [os.remove(name)]. *)
Definition remove (name : string) : M unit :=
  fun w => ({| out_dir := delete name (out_dir w); console := console w |},
            Returned tt).

(** ** The environment of a run

    What the run observes and does not control: the clock readings around
    the timed write, the chunk (if any) at which the disk refuses a write,
    the number of CPUs and the CPU load. *)

Record env : Type := mkEnv {
  t_start : Q;
  t_end : Q;
  write_fault : option nat;
  cpu_count : nat;
  cpu_percent : Q
}.

(** ** [test_disk_write_speed] *)

(** The loop [for _ in range(n): f.write(data)], at chunk [i]: the write at
    the faulty chunk raises and leaves on disk what was written before it. *)
Fixpoint write_chunks (fault : option nat) (name : string) (i n : nat)
  : M unit :=
  match n with
  | O => ret tt
  | S n' =>
      if decide (fault = Some i) then raise OSError
      else create name (Scratch (S i));;
           write_chunks fault name (S i) n'
  end.

Definition test_disk_write_speed (e : env) (test_path : string) : M Q :=
  let start := t_start e in
  create test_path (Scratch 0);;
  write_chunks (write_fault e) test_path 0 100;;
  let end_ := t_end e in
  remove test_path;;
  if Qeq_bool (end_ - start) 0 then raise ZeroDivisionError
  else ret (100 / (end_ - start))%Q.

(** ** The execution plan (the decision block of [reindex_and_analyze]) *)

Record plan : Type := mkPlan {
  use_parallel_determined : bool;
  num_workers : option nat
}.

Definition Qltb (x y : Q) : bool := negb (Qle_bool y x).

Definition decide_parallel (disk_speed : Q) (ncols : nat)
    (use_parallel : bool) : bool :=
  if Qltb disk_speed 50 then false
  else if (ncols <=? 2)%nat then false
  else use_parallel.

Definition choose_plan (disk_speed : Q) (ncols cpus : nat)
    (use_parallel : bool) : plan :=
  let p := decide_parallel disk_speed ncols use_parallel in
  {| use_parallel_determined := p;
     num_workers := if p then Some (Nat.min cpus 8) else None |}.

Definition print_plan (disk_speed : Q) (ncols cpus : nat)
    (use_parallel : bool) : M plan :=
  print (MsgDiskSpeed disk_speed);;
  print (MsgColumnsSelected ncols);;
  (if Qltb disk_speed 50 then print (MsgSlowDisk disk_speed)
   else if (ncols <=? 2)%nat then print (MsgFewColumns ncols)
   else print (MsgAdequate disk_speed ncols));;
  let p := choose_plan disk_speed ncols cpus use_parallel in
  print (MsgFinalDecision (use_parallel_determined p));;
  match num_workers p with
  | Some n => print (MsgWorkers n cpus)
  | None => print MsgSingleProcess
  end;;
  ret p.

(** ** Pure computations that may raise *)

#[global] Instance outcome_ret : MRet outcome := @Returned.
#[global] Instance outcome_bind : MBind outcome := fun A B k o =>
  match o with
  | Returned a => k a
  | Raised e => Raised e
  end.

(** ** Discovering and ordering the input files *)

(** An entry of the input folder: [path.name] and what [pd.read_csv] makes of
    the file.  The entries are taken to be files that can be read: [f.stat()]
    and [pd.read_csv] succeed on them. *)
Record csv_file : Type := mkCsvFile {
  file_name : string;
  file_table : DataFrame
}.

Definition ends_with (suffix s : string) : bool :=
  let n := String.length s in
  let k := String.length suffix in
  (k <=? n)%nat && bool_decide (String.substring (n - k) k s = suffix).

(** [in_path.glob("*_morphometry_results.csv")]. *)
Definition glob (listing : list csv_file) : list csv_file :=
  filter (fun f => ends_with "_morphometry_results.csv" (file_name f)) listing.

(** Paths of one folder compare as their names do. *)
Definition path_le (f g : csv_file) : Prop :=
  String.le (file_name f) (file_name g).

#[global] Instance path_le_dec : RelDecision path_le.
Proof. intros f g. unfold path_le. apply _. Defined.

(** [sorted(paths)]. *)
Definition sorted (paths : list csv_file) : list csv_file :=
  merge_sort path_le paths.

(** ** Frame assignment and the merge *)

(** [enumerate(l, start=start)]. *)
Fixpoint enumerate {A} (start : Z) (l : list A) : list (Z * A) :=
  match l with
  | [] => []
  | x :: l' => (start, x) :: enumerate (start + 1) l'
  end.

(** The body of the reading loop for the file at position [i].  The quotient
    [time_sec / 60] is kept exact: Python rounds it to a double, and raises
    OverflowError once it leaves their range, which takes a time beyond every
    64-bit integer (see [times_fit]). *)
Definition read_frame (time_interval : Z) (i : Z) (csv : csv_file)
  : DataFrame :=
  let frame_num := i in
  let time_sec := (i - 1) * time_interval in
  let df := file_table csv in
  let df := set_column "Frame" (Int frame_num) df in
  let df := set_column "TimeSec" (Int time_sec) df in
  let df := set_column "TimeMin" (Num (inject_Z time_sec / 60)) df in
  set_column "SourceFile" (Str (file_name csv)) df.

Definition read_all (time_interval : Z) (csv_files : list csv_file)
  : list DataFrame :=
  (fun p => read_frame time_interval p.1 p.2) <$> enumerate 1 csv_files.

(** ** Numeric coercion *)

Definition is_text (c : cell) : bool :=
  match c with Str _ => true | _ => false end.

(** [pd.to_numeric] accepts a column when none of its cells is text. *)
Definition is_number_column (df : DataFrame) (c : string) : bool :=
  forallb (fun r => negb (is_text (get c r))) (rows df).

(** [select_dtypes(include=['number'])] keeps a column when it has a number
    dtype: the table has rows and none of the column's cells is text.  The
    columns of a table without rows have the dtype [object]. *)
Definition number_dtype (df : DataFrame) (c : string) : bool :=
  match rows df with
  | [] => false
  | _ => is_number_column df c
  end.

Definition add_numeric (df : DataFrame) (numeric_columns : list string)
    (col : string) : list string :=
  if decide (col ∈ columns df ∧ col ∉ numeric_columns)
  then numeric_columns ++ [col] else numeric_columns.

Definition numeric_columns (df : DataFrame) (selected_columns : list string)
  : list string :=
  let numeric := filter (fun c => number_dtype df c) (columns df) in
  let numeric := foldl (add_numeric df) numeric ["Frame"; "TimeSec"; "TimeMin"] in
  foldl (add_numeric df) numeric selected_columns.

(** [pd.to_numeric] leaves a number column as it is and fails on a column
    that holds text; the failure is caught and reported, the column kept. *)
Fixpoint coerce_columns (df : DataFrame) (cols : list string) : M unit :=
  match cols with
  | [] => ret tt
  | col :: cols' =>
      (if is_number_column df col then ret tt
       else print (MsgCoercionWarning col));;
      coerce_columns df cols'
  end.

(** ** Group-by and the reductions *)

Definition frame_key (r : row) : option Z :=
  match get "Frame" r with
  | Int z => Some z
  | _ => None
  end.

(** The group keys, ascending. *)
Definition group_keys (df : DataFrame) : list Z :=
  merge_sort Z.le (remove_dups (omap frame_key (rows df))).

Definition group_rows (df : DataFrame) (k : Z) : list row :=
  filter (fun r => frame_key r = Some k) (rows df).

(** [c not in df.columns], for each selected column. *)
Definition missing_columns (df : DataFrame) (selected_columns : list string)
  : list string :=
  filter (fun c => c ∉ columns df) selected_columns.

(** [df.groupby("Frame")[selected_columns]]: pandas refuses a selection that
    names an absent column. *)
Definition select_columns (df : DataFrame) (selected_columns : list string)
  : outcome unit :=
  match missing_columns df selected_columns with
  | [] => Returned tt
  | names => Raised (KeyError names)
  end.

(** A number as a reduction sees it: finite, or one of the two infinite
    floats. *)
Inductive number : Type :=
| Finite (q : Q)
| Infinite (negative : bool).

(** The numbers of a column that a reduction sees: NaN is skipped, text is
    refused. *)
Fixpoint values (col : string) (rs : list row) : outcome (list number) :=
  match rs with
  | [] => Returned []
  | r :: rs' =>
      match get col r with
      | Null => values col rs'
      | Int z => xs ← values col rs'; mret (Finite (inject_Z z) :: xs)
      | Num q => xs ← values col rs'; mret (Finite q :: xs)
      | Inf negative => xs ← values col rs'; mret (Infinite negative :: xs)
      | Root _ | Str _ => Raised (TypeError col)
      end
  end.

(** The values as rationals, when all of them are finite. *)
Fixpoint finite (xs : list number) : option (list Q) :=
  match xs with
  | [] => Some []
  | Finite q :: xs' => qs ← finite xs'; Some (q :: qs)
  | Infinite _ :: _ => None
  end.

Definition has_infinite (negative : bool) (xs : list number) : bool :=
  existsb (fun x => match x with
                    | Infinite n => Bool.eqb n negative
                    | Finite _ => false
                    end) xs.

Definition Qsum (xs : list Q) : Q := foldr Qplus 0%Q xs.
Definition Qlen (xs : list Q) : Q := inject_Z (Z.of_nat (length xs)).

Definition mean_of (xs : list Q) : Q := (Qsum xs / Qlen xs)%Q.

(** Sample variance, [ddof=1]. *)
Definition var_of (xs : list Q) : Q :=
  (Qsum ((fun x => (x - mean_of xs) * (x - mean_of xs)) <$> xs)
   / (Qlen xs - 1))%Q.

(** The mean is the sum over the count: a sum that meets both infinities is
    NaN, a sum that meets one of them is that infinity. *)
Definition mean (xs : list number) : cell :=
  match xs with
  | [] => Null
  | _ =>
      match finite xs with
      | Some qs => Num (mean_of qs)
      | None =>
          if has_infinite false xs && has_infinite true xs then Null
          else Inf (has_infinite true xs)
      end
  end.

(** The variance takes the differences to the mean: with an infinite value
    among them it is NaN, as [inf - inf] is. *)
Definition std (xs : list number) : cell :=
  if (length xs <? 2)%nat then Null
  else match finite xs with
       | Some qs => Root (var_of qs)
       | None => Null
       end.

Definition sem (xs : list number) : cell :=
  if (length xs <? 2)%nat then Null
  else match finite xs with
       | Some qs => Root (var_of qs / Qlen qs)
       | None => Null
       end.

Definition count (xs : list number) : cell := Int (Z.of_nat (length xs)).

(** The result of a grouped reduction: column labels of type [K] and one
    entry per group, indexed by its Frame. *)
Record Grouped (K : Type) : Type := mkGrouped {
  g_columns : list K;
  g_index : list (Z * list (K * cell))
}.
Arguments mkGrouped {K} _ _.
Arguments g_columns {K} _.
Arguments g_index {K} _.

Fixpoint for_each {A B} (f : A -> outcome B) (l : list A)
  : outcome (list B) :=
  match l with
  | [] => Returned []
  | x :: l' => y ← f x; ys ← for_each f l'; mret (y :: ys)
  end.

(** One reduction pass over [df.groupby("Frame")[selected_columns]]:
    [reduce col xs] gives the labelled cells computed from the numbers [xs]
    of column [col] in one group. *)
Definition reduce_groups {K} (reduce : string -> list number -> list (K * cell))
    (df : DataFrame) (selected_columns : list string)
  : outcome (Grouped K) :=
  select_columns df selected_columns;;
  index ← for_each (fun k =>
      cells ← for_each (fun col =>
          xs ← values col (group_rows df k); mret (reduce col xs))
        selected_columns;
      mret (k, mjoin (cells : list (list (K * cell))))) (group_keys df);
  mret {| g_columns := mjoin ((fun col => (reduce col []).*1) <$> selected_columns);
          g_index := index |}.

(** [.mean()]. *)
Definition groupby_mean : DataFrame -> list string -> outcome (Grouped string) :=
  reduce_groups (fun col xs => [(col, mean xs)]).

(** [.agg(["mean", "std", "sem", "count"])]: two-level column labels. *)
Definition agg_functions : list (string * (list number -> cell)) :=
  [("mean", mean); ("std", std); ("sem", sem); ("count", count)].

Definition groupby_agg (df : DataFrame) (selected_columns : list string)
  : outcome (Grouped (string * string)) :=
  grouped ← reduce_groups
    (fun col xs => (fun sf => ((col, sf.1), sf.2 xs)) <$> agg_functions)
    df selected_columns;
  match selected_columns with
  | [] => Raised (ValueError "No objects to concatenate" [])
  | _ => Returned grouped
  end.

(** [f"{col}_{stat}"]. *)
Definition flat_name (label : string * string) : string :=
  label.1 +:+ "_" +:+ label.2.

(** [grouped_stats.columns = [f"{col}_{stat}" for col, stat in ...]]. *)
Definition flatten (g : Grouped (string * string)) : Grouped string :=
  {| g_columns := flat_name <$> g_columns g;
     g_index :=
       (fun kr : Z * list (string * string * cell) =>
          (kr.1, (fun lc => (flat_name lc.1, lc.2)) <$> kr.2))
       <$> g_index g |}.

(** [.reset_index()]: the Frame index becomes the first column; pandas
    refuses to insert it over a column of the same name. *)
Definition reset_index (g : Grouped string) : outcome DataFrame :=
  if decide ("Frame" ∈ g_columns g)
  then Raised (ValueError "cannot insert Frame, already exists" ["Frame"])
  else Returned {| columns := "Frame" :: g_columns g;
                   rows :=
                     (fun kr : Z * list (string * cell) =>
                        <["Frame" := Int kr.1]> (list_to_map kr.2))
                     <$> g_index g |}.

(** ** [plot_lines_with_options] *)

(** [df[col].values]. *)
Definition column_values (df : DataFrame) (col : string) : outcome (list cell) :=
  if decide (col ∈ columns df) then Returned ((fun r => get col r) <$> rows df)
  else Raised (KeyError [col]).

(** [df_all.groupby("Frame")[col].std().values]. *)
Definition groupby_std (df_all : DataFrame) (col : string)
  : outcome (list cell) :=
  g ← reduce_groups (fun c xs => [(c, std xs)]) df_all [col];
  mret ((fun kr : Z * list (string * cell) => default Null (kr.2.*2 !! 0%nat))
        <$> g_index g).

(** [plt.errorbar(x_vals, y_vals, yerr=std_dev, ...)] refuses error bars
    that are not as many as the points. *)
Definition errorbar (col : string) (x_vals y_vals std_dev : list cell)
  : outcome (list figure_item) :=
  if decide (length std_dev = length y_vals)
  then Returned [ErrorBars col x_vals y_vals std_dev]
  else Raised (ValueError "'yerr' must match the shape of 'y'" [col]).

Definition is_finite (c : cell) : bool :=
  match c with Int _ | Num _ => true | _ => false end.

(** [np.polyfit(x_vals, y_vals, deg)]: the fitted polynomial is kept as the
    request.  The fit refuses values that are no numbers, and its least
    squares do not converge on NaN or an infinity; [except np.RankWarning]
    catches neither. *)
Definition polyfit (col : string) (poly_degree : nat) (x_vals y_vals : list cell)
  : outcome (list figure_item) :=
  if existsb (fun c => match c with Str _ | Root _ => true | _ => false end)
       (x_vals ++ y_vals)
  then Raised (TypeError col)
  else if forallb is_finite (x_vals ++ y_vals)
  then Returned [PolyFit col poly_degree x_vals y_vals]
  else Raised LinAlgError.

(** What one selected column adds to the chart. *)
Definition plot_column (df df_all : DataFrame) (show_error_bars : bool)
    (poly_degree : nat) (col : string) : outcome (list figure_item) :=
  x_vals ← column_values df "Frame";
  y_vals ← column_values df col;
  bars ← (if show_error_bars
          then std_dev ← groupby_std df_all col;
               errorbar col x_vals y_vals std_dev
          else mret []);
  fit ← (if ((0 <? poly_degree)%nat && (poly_degree <? length x_vals)%nat)%bool
         then polyfit col poly_degree x_vals y_vals
         else mret []);
  mret (Line col x_vals y_vals :: bars ++ fit).

Definition plot_lines_with_options (df df_all : DataFrame) (prefix : string)
    (selected_columns : list string) (time_interval : Z)
    (show_error_bars : bool) (poly_degree : nat) : M unit :=
  items ← lift (for_each (plot_column df df_all show_error_bars poly_degree)
                  selected_columns);
  let out_file := prefix +:+ "_metrics_vs_frame.png" in
  create out_file (Png {| fig_interval := time_interval;
                          fig_items := mjoin (items : list (list figure_item)) |}).

(** ** [reindex_and_analyze] *)

(** The two folders as the run finds them: whether each is a directory, the
    base name of the input folder and its entries.  The output folder takes
    every write but the timed write of the benchmark, which fails when the
    environment says so. *)
Record folders : Type := mkFolders {
  in_is_dir : bool;
  in_name : string;
  in_listing : list csv_file;
  out_is_dir : bool
}.

(** The row of ['NaN'] strings written between the two tables. *)
Definition separator (df_all : DataFrame) : DataFrame :=
  {| columns := columns df_all;
     rows := [list_to_map ((fun c => (c, Str "NaN")) <$> columns df_all)] |}.

Definition raw_data_name (prefix timestamp : string) : string :=
  prefix +:+ "_raw_data_" +:+ timestamp +:+ ".csv".

Definition summary_name (prefix timestamp : string) : string :=
  prefix +:+ "_summary_stats_" +:+ timestamp +:+ ".csv".

(** [df_all.groupby('Frame')[selected_columns].mean().reset_index()]. *)
Definition average_table (df_all : DataFrame) (selected_columns : list string)
  : outcome DataFrame :=
  g ← groupby_mean df_all selected_columns; reset_index g.

(** The flattened statistics table written to the summary file. *)
Definition stats_table (df_all : DataFrame) (selected_columns : list string)
  : outcome DataFrame :=
  grouped_stats ← groupby_agg df_all selected_columns;
  reset_index (flatten grouped_stats).

Definition plot_eta (ncols : nat) (cpu_load disk_speed : Q) : Q :=
  (inject_Z (Z.of_nat ncols) * (4 # 10) * (1 + cpu_load / 100)
   * (1 + 100 / Qmax disk_speed 10))%Q.

Definition reindex_and_analyze (e : env) (dirs : folders)
    (selected_columns : list string) (time_interval : Z)
    (use_parallel : bool) (timestamp : string) : M unit :=
  let prefix := in_name dirs in
  if negb (in_is_dir dirs)
  then raise (FileNotFoundError "Input folder not found") else
  if negb (out_is_dir dirs)
  then raise (FileNotFoundError "Output folder not found") else
  let csv_files := sorted (glob (in_listing dirs)) in
  if decide (csv_files = [])
  then raise (FileNotFoundError "No CSV files matching '*_morphometry_results.csv' in input folder.")
  else
  print (MsgFound (length csv_files));;
  disk_speed ← test_disk_write_speed e "disk_test.tmp";
  print (MsgDiskSpeed disk_speed);;
  print_plan disk_speed (length selected_columns) (cpu_count e) use_parallel;;
  let all_data := read_all time_interval csv_files in
  let df_all := concat all_data in
  print (MsgMerged (length (rows df_all)) (length (columns df_all)));;
  let numeric := numeric_columns df_all selected_columns in
  coerce_columns df_all numeric;;
  print (MsgNumericFormatting (length numeric));;
  let raw_data_file := raw_data_name prefix timestamp in
  create raw_data_file (Csv []);;
  append_lines raw_data_file (to_csv true df_all);;
  append_lines raw_data_file (to_csv false (separator df_all));;
  average_data ← lift (average_table df_all selected_columns);
  append_lines raw_data_file (to_csv true average_data);;
  print (MsgWritingRaw raw_data_file);;
  let missing_cols := missing_columns df_all selected_columns in
  if negb (bool_decide (missing_cols = []))
  then raise (ValueError "Some selected columns not found" missing_cols) else
  grouped_stats ← lift (groupby_agg df_all selected_columns);
  let summary_file := summary_name prefix timestamp in
  stats ← lift (reset_index (flatten grouped_stats));
  create summary_file (Csv (to_csv true stats));;
  print (MsgWritingSummary summary_file);;
  lift (groupby_agg df_all selected_columns);;
  let cpu_load := cpu_percent e in
  print (MsgCpuLoad cpu_load);;
  print (MsgEta (plot_eta (length selected_columns) cpu_load disk_speed));;
  print (MsgPlots selected_columns);;
  average_data ← lift (average_table df_all selected_columns);
  plot_lines_with_options average_data df_all prefix selected_columns
    time_interval false 0;;
  print (MsgDone raw_data_file summary_file).

(** ** [run_with_gui] *)

(** The message boxes of the front end. *)
Inductive dialog : Type :=
| ErrorNoInputFolder
| ErrorNoCsvFiles
| ErrorNoOutputFolder
| ErrorNoNumericColumns
| ErrorNoColumnsSelected
| ErrorAnalysisFailed (ex : exn)
| InfoAnalysisComplete.

(** [try: body / except Exception as ex: handler(ex)]: every exception of
    [exn] is an [Exception]. *)
Definition try_except {A} (body : M A) (handler : exn -> M A) : M A :=
  fun w => match body w with
           | (w', Returned a) => (w', Returned a)
           | (w', Raised ex) => handler ex w'
           end.

(** [run_analysis], the callback of the Run Analysis button:
    [column_vars] are the items of the dictionary of check boxes, [now] the
    formatted time of the click.  It returns the message box it shows; the
    selection window is destroyed unless that box is "No columns selected". *)
Definition run_analysis (e : env) (dirs : folders)
    (column_vars : list (string * bool)) (now : string) : M dialog :=
  let chosen_cols := (filter (fun cv => cv.2 = true) column_vars).*1 in
  if decide (chosen_cols = []) then ret ErrorNoColumnsSelected
  else
    try_except
      (let timestamp := now in
       reindex_and_analyze e dirs chosen_cols 5 false timestamp;;
       ret InfoAnalysisComplete)
      (fun ex => ret (ErrorAnalysisFailed ex)).

(** What the user answers to the two folder prompts: nothing, or a folder.
    Of the input folder the run sees its base name and its entries (none
    when the path is no directory), of the output folder whether it is a
    directory. *)
Record answers : Type := mkAnswers {
  input_folder : option (string * list csv_file);
  output_folder : option bool
}.

(** [run_with_gui] up to the selection window: an error box, or the folders
    and the numeric columns of the first file, one check box each. *)
Definition select_columns_window (a : answers)
  : dialog + (folders * list string) :=
  match input_folder a with
  | None => inl ErrorNoInputFolder
  | Some (name, listing) =>
      let test_csvs := sorted (glob listing) in
      match test_csvs with
      | [] => inl ErrorNoCsvFiles
      | first :: _ =>
          match output_folder a with
          | None => inl ErrorNoOutputFolder
          | Some out_ok =>
              let temp_df := file_table first in
              let numeric_cols :=
                filter (fun c => number_dtype temp_df c) (columns temp_df) in
              if decide (numeric_cols = []) then inl ErrorNoNumericColumns
              else inr ({| in_is_dir := true; in_name := name;
                           in_listing := listing; out_is_dir := out_ok |},
                        numeric_cols)
          end
      end
  end.

(** The dictionary [column_vars] filled by the loop over [numeric_cols]: one
    entry per name, in order of first appearance; [ticked] reads the check
    boxes. *)
Definition column_vars_of (numeric_cols : list string)
    (ticked : string -> bool) : list (string * bool) :=
  (fun c => (c, ticked c)) <$> union_columns numeric_cols.

(** The clicks on Run Analysis while the selection window is open: a click
    without a ticked column shows an error and leaves the window open, the
    first click with one closes the window and runs the analysis. *)
Fixpoint clicks (e : env) (dirs : folders) (numeric_cols : list string)
    (now : string) (presses : list (string -> bool)) : M (list dialog) :=
  match presses with
  | [] => ret []
  | ticked :: presses' =>
      d ← run_analysis e dirs (column_vars_of numeric_cols ticked) now;
      match d with
      | ErrorNoColumnsSelected =>
          ds ← clicks e dirs numeric_cols now presses';
          ret (d :: ds)
      | _ => ret [d]
      end
  end.

Definition run_with_gui (e : env) (a : answers) (now : string)
    (presses : list (string -> bool)) : M (list dialog) :=
  match select_columns_window a with
  | inl d => ret [d]
  | inr (dirs, numeric_cols) => clicks e dirs numeric_cols now presses
  end.

(** ** Vocabulary of the properties *)

Definition is_nan (c : cell) : bool :=
  match c with Null => true | _ => false end.

(** The real number a cell stands for ([0] where it stands for none). *)
Definition cell_value (c : cell) : R :=
  match c with
  | Int z => IZR z
  | Num q => Q2R q
  | Root q => sqrt (Q2R q)
  | Null | Inf _ | Str _ => 0%R
  end.

(** The rows of Frame [k] that contribute a value to column [col]. *)
Definition contributing (df : DataFrame) (k : Z) (col : string) : nat :=
  length (filter (fun r => negb (is_nan (get col r))) (group_rows df k)).

(** Two results are related when their output folders are related by [F]
    and they either both return, with values related by [V], or both raise
    the same exception.  The console is not compared. *)
Definition outcome_rel {A B} (V : A -> B -> Prop)
    (o1 : outcome A) (o2 : outcome B) : Prop :=
  match o1, o2 with
  | Returned a, Returned b => V a b
  | Raised e1, Raised e2 => e1 = e2
  | _, _ => False
  end.

Definition related {A B} (F : folder -> folder -> Prop) (V : A -> B -> Prop)
    (r1 : world * outcome A) (r2 : world * outcome B) : Prop :=
  F (out_dir r1.1) (out_dir r2.1) /\ outcome_rel V r1.2 r2.2.

Definition any {A B} : A -> B -> Prop := fun _ _ => True.

(** A computation that only prints, and returns [a]. *)
Definition prints_only {A} (m : M A) (a : A) : Prop :=
  forall w, exists c,
    m w = ({| out_dir := out_dir w; console := c |}, Returned a).

(** What a reduction can tell of a cell: that it is missing, a number, or
    neither. *)
Inductive kind : Type := Missing | Number | Other.

Definition cell_kind (c : cell) : kind :=
  match c with
  | Null => Missing
  | Int _ | Num _ | Inf _ => Number
  | Root _ | Str _ => Other
  end.

(** Two rows that belong to the same Frame and hold cells of the same kinds;
    two tables with the same columns and such rows. *)
Definition row_alike (r1 r2 : row) : Prop :=
  frame_key r1 = frame_key r2 /\
  forall c, cell_kind (get c r1) = cell_kind (get c r2).

Definition same_shape (df1 df2 : DataFrame) : Prop :=
  columns df1 = columns df2 /\ Forall2 row_alike (rows df1) (rows df2).

(** The labelled cells of one group: for every selected column, the numbers
    of the column in the group, reduced. *)
Definition group_cells {K} (reduce : string -> list number -> list (K * cell))
    (df : DataFrame) (selected_columns : list string) (k : Z)
    (cells : list (K * cell)) : Prop :=
  exists per_column,
    Forall2 (fun col cs => exists xs,
               values col (group_rows df k) = Returned xs /\
               cs = reduce col xs) selected_columns per_column /\
    cells = mjoin per_column.

(** The exceptions that the pandas calls of the run can raise: a refused
    column selection, a reduction over text, an aggregation over no column,
    a refused [reset_index]. *)
Definition pandas_error (e : exn) : Prop :=
  match e with
  | KeyError _ | TypeError _ => True
  | ValueError msg _ =>
      msg = "cannot insert Frame, already exists" \/
      msg = "No objects to concatenate"
  | _ => False
  end.

Definition raises_only {A} (P : exn -> Prop) (o : outcome A) : Prop :=
  forall e, o = Raised e -> P e.

(** The benchmark measures a throughput: every chunk is written and the
    two clock readings differ. *)
Definition benchmark_ok (e : env) : Prop :=
  (forall k, write_fault e = Some k -> (100 <= k)%nat) /\
  Qeq_bool (t_end e - t_start e) 0 = false.

(** The three sections of the raw-data file. *)
Definition raw_sections (df_all average_data : DataFrame)
  : list (list cell) :=
  to_csv true df_all ++ to_csv false (separator df_all)
  ++ to_csv true average_data.

(** No grouped row holds text in a selected column. *)
Definition text_free (df : DataFrame) (selected_columns : list string)
  : Prop :=
  forall r c, r ∈ rows df -> is_Some (frame_key r) ->
    c ∈ selected_columns -> cell_kind (get c r) <> Other.

(** The same, as a test that can be evaluated. *)
Definition text_free_b (df : DataFrame) (selected_columns : list string)
  : bool :=
  forallb (fun r =>
             forallb (fun c => match cell_kind (get c r) with
                               | Other => false
                               | _ => true
                               end) selected_columns)
          (rows df).

(** A row of Frame [k] holds an infinity in column [col]. *)
Definition infinite_in (df : DataFrame) (k : Z) (col : string) : bool :=
  existsb (fun r => match get col r with Inf _ => true | _ => false end)
          (group_rows df k).

(** Every value that the rows of Frame [k] hold in column [col] is finite
    and of magnitude at most 2^400: sums of squares of differences of such
    values stay within the range of the doubles. *)
Definition moderate (df : DataFrame) (k : Z) (col : string) : Prop :=
  forall r, r ∈ group_rows df k ->
    match get col r with
    | Int z => Z.abs z <= 2 ^ 400
    | Num q => (Qabs q <= 2 ^ 400)%Q
    | Inf _ => False
    | _ => True
    end.

(** The same, as a test that can be evaluated. *)
Definition moderate_b (df : DataFrame) (k : Z) (col : string) : bool :=
  forallb (fun r => match get col r with
                    | Int z => Z.abs z <=? 2 ^ 400
                    | Num q => Qle_bool (Qabs q) (2 ^ 400)
                    | Inf _ => false
                    | _ => true
                    end)
          (group_rows df k).

(** The times that a run stamps on the matched files fit a signed 64-bit
    integer, the type of the TimeSec column; their quotients by 60 are then
    well within the range of the doubles. *)
Definition times_fit (dirs : folders) (time_interval : Z) : Prop :=
  forall i : nat,
    (i < length (glob (in_listing dirs)))%nat ->
    - 2 ^ 63 <= Z.of_nat i * time_interval < 2 ^ 63.

(** The run passes its three checks of the folders. *)
Definition folders_ok (dirs : folders) : Prop :=
  in_is_dir dirs = true /\ out_is_dir dirs = true /\
  glob (in_listing dirs) <> [].

(** A computation leaves the file [name] of the output folder as it is,
    present or absent, however it ends. *)
Definition untouched {A} (name : string) (m : M A) : Prop :=
  forall w, out_dir (m w).1 !! name = out_dir w !! name.

(** The merged dataset of a run. *)
Definition merged (dirs : folders) (time_interval : Z) : DataFrame :=
  concat (read_all time_interval (sorted (glob (in_listing dirs)))).

(** The four columns that the reading loop stamps on every row. *)
Definition derived_columns : list string :=
  ["Frame"; "TimeSec"; "TimeMin"; "SourceFile"].

(** The legend of a chart, by kind of item: the labels of its lines, of its
    error bars and of its fitted polynomials, in drawing order. *)
Definition line_labels (items : list figure_item) : list string :=
  omap (fun it => match it with Line l _ _ => Some l | _ => None end) items.

Definition error_bar_labels (items : list figure_item) : list string :=
  omap (fun it => match it with ErrorBars l _ _ _ => Some l | _ => None end)
       items.

Definition fit_labels (items : list figure_item) : list string :=
  omap (fun it => match it with PolyFit l _ _ _ => Some l | _ => None end)
       items.

(** The columns among [cols] that [pd.to_numeric] refuses. *)
Definition refused (df : DataFrame) (cols : list string) : list string :=
  filter (fun c => is_number_column df c = false) cols.

(** ** A sample run

    Two measurement files and a stray file in the input folder, used to
    evaluate the definitions in the examples below. *)

Definition table (cols : list string) (data : list (list cell)) : DataFrame :=
  {| columns := cols;
     rows := (fun l : list cell => list_to_map (zip cols l)) <$> data |}.

Definition sample_a : csv_file :=
  {| file_name := "a_morphometry_results.csv";
     file_table := table ["Diameter"; "Perimeter"]
                     [[Num 5; Num 7]; [Int 3; Num 4]; [Num 1; Num 1]] |}.

Definition sample_b : csv_file :=
  {| file_name := "b_morphometry_results.csv";
     file_table := table ["Diameter"; "Perimeter"]
                     [[Num 1; Num 2]; [Num 3; Null]] |}.

Definition sample_notes : csv_file :=
  {| file_name := "notes.txt"; file_table := table [] [] |}.

Definition sample_listing : list csv_file :=
  [sample_b; sample_notes; sample_a].

Definition sample_folders : folders :=
  {| in_is_dir := true; in_name := "R2"; in_listing := sample_listing;
     out_is_dir := true |}.

Definition sample_env : env :=
  {| t_start := 0; t_end := 2; write_fault := None;
     cpu_count := 4; cpu_percent := 10 |}.

Definition empty_world : world := {| out_dir := ∅; console := [] |}.

Definition sample_selected : list string := ["Diameter"; "Perimeter"].

Definition sample_df_all : DataFrame :=
  concat (read_all 5 (sorted (glob sample_listing))).

(** A file whose two rows hold [inf] and 1.0. *)
Definition sample_inf : csv_file :=
  {| file_name := "c_morphometry_results.csv";
     file_table := table ["Diameter"] [[Inf false]; [Num 1]] |}.

Definition sample_inf_df : DataFrame := concat (read_all 5 [sample_inf]).

(** * Properties *)

(** ** Running a computation *)

Lemma run_bind {A B} (m : M A) (k : A -> M B) (w : world) :
  (m ≫= k) w = match m w with
               | (w', Returned a) => k a w'
               | (w', Raised e) => (w', Raised e)
               end.
Proof. reflexivity. Qed.

Lemma Qltb_lt (x y : Q) : Qltb x y = true <-> (x < y)%Q.
Proof.
  unfold Qltb. rewrite negb_true_iff. split.
  - intros H. apply Qnot_le_lt. intros Hle. apply Qle_bool_iff in Hle. congruence.
  - intros H. destruct (Qle_bool y x) eqn:E; [|done].
    apply Qle_bool_iff in E. exfalso. eapply Qlt_not_le; eauto.
Qed.

Lemma print_plan_returns (disk_speed : Q) (ncols cpus : nat)
    (use_parallel : bool) (w : world) :
  (print_plan disk_speed ncols cpus use_parallel w).2
  = Returned (choose_plan disk_speed ncols cpus use_parallel).
Proof.
  unfold print_plan, choose_plan, decide_parallel.
  destruct (Qltb disk_speed 50); [reflexivity|].
  destruct (ncols <=? 2)%nat; [reflexivity|].
  destruct use_parallel; reflexivity.
Qed.

(** C3: the plan as a function of throughput, selected-column count, CPU
    count and the caller's flag.  Below 50 MB/s it is sequential whatever the
    flag; otherwise with at most two columns it is sequential; otherwise it
    is parallel exactly when the caller asked for it, with
    min(cpu count, 8) workers.  A caller that disabled parallelism never gets
    a parallel plan.  This is the plan the decision block computes. *)
Theorem plan_policy (disk_speed : Q) (ncols cpus : nat) (use_parallel : bool) :
  let p := choose_plan disk_speed ncols cpus use_parallel in
  ((disk_speed < 50)%Q -> use_parallel_determined p = false) /\
  (~ (disk_speed < 50)%Q -> (ncols <= 2)%nat ->
     use_parallel_determined p = false) /\
  (~ (disk_speed < 50)%Q -> (2 < ncols)%nat ->
     use_parallel_determined p = use_parallel /\
     (use_parallel = true -> num_workers p = Some (Nat.min cpus 8))) /\
  (use_parallel = false -> use_parallel_determined p = false) /\
  (forall w, (print_plan disk_speed ncols cpus use_parallel w).2 = Returned p).
Proof.
  intros p. subst p.
  split_and!; try (intros; apply print_plan_returns);
    unfold choose_plan, decide_parallel; cbn.
  - intros Hs%Qltb_lt. by rewrite Hs.
  - intros _ Hn%Nat.leb_le. rewrite Hn. by destruct (Qltb _ _).
  - intros Hs Hn.
    destruct (Qltb disk_speed 50) eqn:E; [by apply Qltb_lt in E|].
    destruct (Nat.leb_spec ncols 2); [lia|].
    split; [done|]. by intros ->.
  - intros ->. by repeat case_match.
Qed.

Lemma plan_policy_witness :
  use_parallel_determined (choose_plan 120 5 16 true) = true /\
  num_workers (choose_plan 120 5 16 true) = Some 8%nat.
Proof.
  destruct (plan_policy 120 5 16 true) as (_ & _ & H & _).
  destruct H as [H1 H2].
  - intros H. vm_compute in H. discriminate H.
  - lia.
  - split; [exact H1 | exact (H2 eq_refl)].
Defined.

(** ** The disk benchmark *)

Lemma write_chunks_ok (fault : option nat) (name : string) (n i : nat)
    (w : world) :
  (forall k, fault = Some k -> ~ (i <= k < i + n)%nat) ->
  write_chunks fault name i n w
  = (match n with
     | O => w
     | S _ => {| out_dir := <[name := Scratch (i + n)]> (out_dir w);
                  console := console w |}
     end, Returned tt).
Proof.
  revert i w. induction n as [|n IH]; intros i w Hfree; [done|].
  cbn [write_chunks]. rewrite decide_False by (intros H; apply (Hfree i H); lia).
  rewrite run_bind. cbn [create].
  rewrite IH by (intros k Hk ?; apply (Hfree k Hk); lia).
  destruct n as [|n].
  - cbn. by replace (i + 1)%nat with (S i) by lia.
  - cbn. rewrite insert_insert_eq.
    by replace (i + S (S n))%nat with (S i + S n)%nat by lia.
Qed.

Lemma write_chunks_fault (name : string) (k n i : nat) (w : world) :
  (i <= k < i + n)%nat ->
  write_chunks (Some k) name i n w
  = ((if decide (k = i) then w
      else {| out_dir := <[name := Scratch k]> (out_dir w);
              console := console w |}), Raised OSError).
Proof.
  revert i w. induction n as [|n IH]; intros i w Hk; [lia|].
  cbn [write_chunks]. destruct (decide (k = i)) as [->|Hne].
  - by rewrite decide_True.
  - rewrite decide_False by congruence.
    rewrite run_bind. cbn [create]. rewrite IH by lia.
    destruct (decide (k = S i)) as [->|]; [done|].
    cbn. by rewrite insert_insert_eq.
Qed.

Lemma test_disk_write_speed_completes (e : env) (test_path : string)
    (w : world) :
  (forall k, write_fault e = Some k -> (100 <= k)%nat) ->
  test_disk_write_speed e test_path w
  = ({| out_dir := delete test_path (out_dir w); console := console w |},
     if Qeq_bool (t_end e - t_start e) 0 then Raised ZeroDivisionError
     else Returned (100 / (t_end e - t_start e))%Q).
Proof.
  intros Hfree. unfold test_disk_write_speed.
  rewrite run_bind. cbn [create].
  rewrite run_bind, write_chunks_ok
    by (intros k Hk; specialize (Hfree k Hk); lia).
  rewrite run_bind. cbn [remove out_dir console].
  rewrite insert_insert_eq, delete_insert_eq.
  by destruct (Qeq_bool _ _).
Qed.

Lemma test_disk_write_speed_fault (e : env) (test_path : string)
    (w : world) (k : nat) :
  write_fault e = Some k -> (k < 100)%nat ->
  test_disk_write_speed e test_path w
  = ({| out_dir := <[test_path := Scratch k]> (out_dir w);
        console := console w |}, Raised OSError).
Proof.
  intros Hk Hlt. unfold test_disk_write_speed.
  rewrite run_bind. cbn [create].
  rewrite run_bind, Hk, write_chunks_fault by lia.
  case_decide; subst; cbn; [done|]. by rewrite insert_insert_eq.
Qed.

(** C4, as the code has it: the scratch file is removed whenever the timed
    write runs to its end, whether the benchmark then returns the throughput
    or raises on a zero elapsed time; when a write raises, the error
    propagates and the scratch file stays in the output folder with the
    chunks written so far. *)
Theorem scratch_file_cleanup (e : env) (test_path : string) (w : world) :
  let r := test_disk_write_speed e test_path w in
  ((forall k, write_fault e = Some k -> (100 <= k)%nat) ->
     out_dir r.1 !! test_path = None /\
     (r.2 = Raised ZeroDivisionError \/
      r.2 = Returned (100 / (t_end e - t_start e))%Q)) /\
  (forall k, write_fault e = Some k -> (k < 100)%nat ->
     r.2 = Raised OSError /\
     out_dir r.1 !! test_path = Some (Scratch k)).
Proof.
  cbn zeta. split.
  - intros Hfree. rewrite test_disk_write_speed_completes by done.
    cbn. rewrite lookup_delete_eq. destruct (Qeq_bool _ _); auto.
  - intros k Hk Hlt. rewrite (test_disk_write_speed_fault _ _ _ k) by done.
    cbn. by rewrite lookup_insert_eq.
Qed.

Lemma scratch_file_cleanup_witness :
  let e := {| t_start := 0; t_end := 2; write_fault := None;
              cpu_count := 4; cpu_percent := 10 |} in
  out_dir (test_disk_write_speed e "disk_test.tmp"
             {| out_dir := ∅; console := [] |}).1 !! "disk_test.tmp" = None.
Proof.
  intros e.
  apply (scratch_file_cleanup e "disk_test.tmp" {| out_dir := ∅; console := [] |}).
  intros k Hk. discriminate Hk.
Defined.

(** C4, as stated, fails: a write that raises at the fourth chunk leaves the
    scratch file behind while the error propagates. *)
Lemma scratch_file_left_behind :
  let e := {| t_start := 0; t_end := 2; write_fault := Some 3%nat;
              cpu_count := 4; cpu_percent := 10 |} in
  let r := test_disk_write_speed e "disk_test.tmp"
             {| out_dir := ∅; console := [] |} in
  r.2 = Raised OSError /\ out_dir r.1 !! "disk_test.tmp" = Some (Scratch 3).
Proof. vm_compute. done. Qed.

(** ** File order and frame assignment *)

#[global] Instance path_le_total : Total path_le.
Proof. intros f g. unfold path_le. apply (total String.le). Qed.

Lemma enumerate_lookup {A} (l : list A) (start : Z) (i : nat) :
  enumerate start l !! i = (fun x => (start + Z.of_nat i, x)) <$> l !! i.
Proof.
  revert start i. induction l as [|x l IH]; intros start [|i]; cbn; try done.
  - by rewrite Z.add_0_r.
  - rewrite IH. destruct (l !! i); cbn; [|done].
    do 2 f_equal. lia.
Qed.


Lemma read_all_lookup (time_interval : Z) (csv_files : list csv_file)
    (i : nat) :
  read_all time_interval csv_files !! i
  = read_frame time_interval (Z.of_nat (S i)) <$> csv_files !! i.
Proof.
  unfold read_all. rewrite list_lookup_fmap, enumerate_lookup.
  destruct (csv_files !! i); cbn; [|done].
  do 2 f_equal. lia.
Qed.

Lemma read_frame_rows (time_interval i : Z) (csv : csv_file) (r : row) :
  r ∈ rows (read_frame time_interval i csv) ->
  get "Frame" r = Int i /\
  get "TimeSec" r = Int ((i - 1) * time_interval) /\
  get "TimeMin" r = Num (inject_Z ((i - 1) * time_interval) / 60) /\
  get "SourceFile" r = Str (file_name csv).
Proof.
  unfold read_frame. cbn. rewrite <- !list_fmap_compose.
  intros (r0 & -> & _)%list_elem_of_fmap. unfold get. cbn.
  by simplify_map_eq.
Qed.



(** ** Flattened column names *)

Lemma append_nil (s : string) : "" +:+ s = s.
Proof. reflexivity. Qed.

Lemma append_cons (a : Ascii.ascii) (s t : string) :
  String a s +:+ t = String a (s +:+ t).
Proof. reflexivity. Qed.

Lemma append_nil_r (s : string) : s +:+ "" = s.
Proof. induction s as [|a s IH]; [done|]. by rewrite append_cons, IH. Qed.

(** Two ways of splitting one string: one tail is a suffix of the other. *)
Lemma append_eq_suffix (a b s t : string) :
  a +:+ s = b +:+ t ->
  exists u, (s = u +:+ t /\ b = a +:+ u) \/ (t = u +:+ s /\ a = b +:+ u).
Proof.
  revert b. induction a as [|x a IH]; intros b H.
  - exists b. left. by rewrite !append_nil in *.
  - destruct b as [|y b].
    + exists (String x a). right. by rewrite !append_nil in *.
    + rewrite !append_cons in H. injection H as -> H.
      destruct (IH b H) as [u [[-> ->]|[-> ->]]]; exists u; auto.
Qed.

Ltac peel u :=
  do 8 (try (destruct u as [|? u];
             rewrite ?append_nil, ?append_cons in *; simplify_eq)).

Lemma flat_name_inj (c1 c2 s1 s2 : string) :
  s1 ∈ agg_functions.*1 -> s2 ∈ agg_functions.*1 ->
  flat_name (c1, s1) = flat_name (c2, s2) -> c1 = c2 /\ s1 = s2.
Proof.
  unfold flat_name. cbn [fst snd agg_functions fmap list_fmap].
  rewrite !elem_of_cons, !elem_of_nil.
  intros Hs1 Hs2 H.
  destruct_or!; try done; subst s1 s2;
    apply append_eq_suffix in H as [u [[H ->]|[H ->]]];
    rewrite ?append_cons, ?append_nil in H; peel u; by rewrite ?append_nil_r.
Qed.

Lemma flat_name_not_Frame (c s : string) :
  s ∈ agg_functions.*1 -> flat_name (c, s) <> "Frame".
Proof.
  unfold flat_name. cbn [fst snd agg_functions fmap list_fmap].
  rewrite !elem_of_cons, !elem_of_nil. intros Hs H.
  destruct_or!; try done; subst s; peel c.
Qed.

(** ** Grouped reductions *)

Lemma for_each_Returned {A B} (f : A -> outcome B) (l : list A)
    (ys : list B) :
  for_each f l = Returned ys -> Forall2 (fun x y => f x = Returned y) l ys.
Proof.
  revert ys. induction l as [|x l IH]; intros ys; cbn.
  - intros [= <-]. constructor.
  - destruct (f x) as [y|] eqn:Hx; cbn; [|done].
    destruct (for_each f l) as [ys'|]; cbn; [|done].
    intros [= <-]. constructor; auto.
Qed.

Lemma reduce_groups_Returned {K}
    (reduce : string -> list number -> list (K * cell)) (df : DataFrame)
    (selected_columns : list string) (g : Grouped K) :
  reduce_groups reduce df selected_columns = Returned g ->
  missing_columns df selected_columns = [] /\
  g_columns g = mjoin ((fun col => (reduce col []).*1) <$> selected_columns) /\
  Forall2 (fun k kr => kr.1 = k /\
                       group_cells reduce df selected_columns k kr.2)
          (group_keys df) (g_index g).
Proof.
  unfold reduce_groups, select_columns.
  destruct (missing_columns df selected_columns); cbn; [|done].
  destruct (for_each _ (group_keys df)) as [index|] eqn:Hindex; cbn; [|done].
  intros [= <-]. cbn. split_and!; try done.
  apply for_each_Returned in Hindex.
  eapply Forall2_impl; [exact Hindex|]. cbn. intros k kr Hk.
  destruct (for_each _ selected_columns) as [cells|] eqn:Hcells;
    cbn in Hk; [|done].
  injection Hk as <-. split; [done|]. exists cells. split; [|done].
  apply for_each_Returned in Hcells.
  eapply Forall2_impl; [exact Hcells|]. cbn. intros col cs Hcs.
  destruct (values col (group_rows df k)) as [xs|]; cbn in Hcs; [|done].
  injection Hcs as <-. by exists xs.
Qed.

(** Reading one labelled cell back from the row built for a group, when
    labels tell columns apart. *)
Lemma group_cells_lookup {K L} `{Countable L}
    (reduce : string -> list number -> list (K * cell)) (relabel : K -> L)
    (df : DataFrame) (selected_columns : list string) (k : Z)
    (cells : list (K * cell)) (col : string) :
  group_cells reduce df selected_columns k cells ->
  col ∈ selected_columns ->
  (forall c1 c2 xs1 xs2 l1 l2 v1 v2,
     (l1, v1) ∈ reduce c1 xs1 -> (l2, v2) ∈ reduce c2 xs2 ->
     relabel l1 = relabel l2 -> c1 = c2 /\ (xs1 = xs2 -> v1 = v2)) ->
  exists xs,
    values col (group_rows df k) = Returned xs /\
    forall l v, (l, v) ∈ reduce col xs ->
      (list_to_map ((fun lc : K * cell => (relabel lc.1, lc.2)) <$> cells)
         : gmap L cell) !! relabel l = Some v.
Proof.
  intros (per_column & Hall & ->) Hcol Hinj.
  assert (Hsound : forall l v, (l, v) ∈ mjoin per_column ->
            exists c xs, values c (group_rows df k) = Returned xs /\
                         (l, v) ∈ reduce c xs).
  { intros l v (cs & Hin & Hcs)%list_elem_of_join.
    apply list_elem_of_lookup in Hcs as [i Hi].
    destruct (Forall2_lookup_r _ _ _ _ _ Hall Hi) as (c & _ & xs & Hxs & ->).
    eauto. }
  apply list_elem_of_lookup in Hcol as [i Hi].
  destruct (Forall2_lookup_l _ _ _ _ _ Hall Hi) as (cs & Hcs & xs & Hxs & ->).
  exists xs. split; [done|]. intros l v Hlv.
  apply elem_of_list_to_map_1'.
  - intros v' ((l' & v'') & [= Hl ->] & Hin')%list_elem_of_fmap. cbn in *.
    destruct (Hsound _ _ Hin') as (c' & xs' & Hxs' & Hin'').
    destruct (Hinj _ _ _ _ _ _ _ _ Hlv Hin'' Hl) as [<- Hv].
    apply Hv. congruence.
  - apply list_elem_of_fmap. exists (l, v). split; [done|].
    apply list_elem_of_join. exists (reduce col xs). split; [done|].
    by eapply list_elem_of_lookup_2.
Qed.

Lemma join_singletons {A} (l : list A) : mjoin ((fun x => [x]) <$> l) = l.
Proof. induction l as [|x l IH]; [done|]. cbn. f_equal. exact IH. Qed.

Lemma agg_functions_functional (s : string) (f1 f2 : list number -> cell) :
  (s, f1) ∈ agg_functions -> (s, f2) ∈ agg_functions -> f1 = f2.
Proof.
  unfold agg_functions. rewrite !elem_of_cons, !elem_of_nil.
  intros H1 H2. destruct_or!; simplify_eq; done.
Qed.

(** What the mean-only table holds. *)
Lemma average_table_Returned (df : DataFrame)
    (selected_columns : list string) (avg : DataFrame) :
  average_table df selected_columns = Returned avg ->
  missing_columns df selected_columns = [] /\
  ("Frame" ∉ selected_columns) /\
  columns avg = "Frame" :: selected_columns /\
  Forall2 (fun k r =>
             get "Frame" r = Int k /\
             forall col, col ∈ selected_columns ->
               exists xs, values col (group_rows df k) = Returned xs /\
                          get col r = mean xs)
          (group_keys df) (rows avg).
Proof.
  unfold average_table, groupby_mean.
  destruct (reduce_groups _ df selected_columns) as [g|] eqn:Hg; cbn; [|done].
  apply reduce_groups_Returned in Hg as (Hmiss & Hcols & Hindex).
  cbn in Hcols. rewrite join_singletons in Hcols.
  unfold reset_index. rewrite Hcols. case_decide as HFrame; [done|].
  intros [= <-]. cbn. split_and!; try done.
  apply Forall2_fmap_r. eapply Forall2_impl; [exact Hindex|].
  intros k [k' cells] [Hk Hcells]. cbn [fst snd] in *. subst k'. split.
  - unfold get. by rewrite lookup_insert_eq.
  - intros col Hcol.
    destruct (group_cells_lookup (L:=string) _ Datatypes.id _ _ _ _ col Hcells Hcol)
      as (xs & Hxs & Hget).
    { intros c1 c2 xs1 xs2 l1 l2 v1 v2
        [= -> ->]%list_elem_of_singleton [= -> ->]%list_elem_of_singleton.
      cbn. intros ->. split; congruence. }
    exists xs. split; [done|]. unfold get.
    rewrite lookup_insert_ne by (intros <-; done).
    specialize (Hget col (mean xs)).
    erewrite (list_fmap_ext _ Datatypes.id) in Hget by (by intros ? [] ?).
    rewrite list_fmap_id in Hget. cbn in Hget. cbn [fst snd].
    rewrite Hget; [done|].
    by apply list_elem_of_singleton.
Qed.

Lemma groupby_agg_Returned (df : DataFrame) (selected_columns : list string)
    (grouped : Grouped (string * string)) :
  groupby_agg df selected_columns = Returned grouped ->
  selected_columns <> [] /\
  reduce_groups
    (fun col xs => (fun sf : string * (list number -> cell) =>
                      ((col, sf.1), sf.2 xs)) <$> agg_functions)
    df selected_columns = Returned grouped.
Proof.
  unfold groupby_agg.
  destruct (reduce_groups _ df selected_columns) as [g|]; cbn; [|done].
  destruct selected_columns; [done|]. by intros [= <-].
Qed.

(** What the flattened statistics table holds. *)
Lemma stats_table_Returned (df : DataFrame)
    (selected_columns : list string) (stats : DataFrame) :
  stats_table df selected_columns = Returned stats ->
  missing_columns df selected_columns = [] /\
  Forall2 (fun k r =>
             get "Frame" r = Int k /\
             forall col, col ∈ selected_columns ->
               exists xs, values col (group_rows df k) = Returned xs /\
                 forall s f, (s, f) ∈ agg_functions ->
                   get (flat_name (col, s)) r = f xs)
          (group_keys df) (rows stats).
Proof.
  unfold stats_table.
  destruct (groupby_agg df selected_columns) as [g|] eqn:Hg; cbn; [|done].
  apply groupby_agg_Returned in Hg as [_ Hg].
  apply reduce_groups_Returned in Hg as (Hmiss & Hcols & Hindex).
  unfold reset_index. case_decide as HFrame; [done|].
  intros [= <-]. cbn. split; [done|].
  rewrite <- list_fmap_compose.
  apply Forall2_fmap_r. eapply Forall2_impl; [exact Hindex|].
  intros k [k' cells] [Hk Hcells]. unfold compose. cbn [fst snd] in *.
  subst k'. split.
  - unfold get. by rewrite lookup_insert_eq.
  - intros col Hcol.
    destruct (group_cells_lookup (L:=string) _ flat_name _ _ _ _ col Hcells Hcol)
      as (xs & Hxs & Hget).
    { intros c1 c2 xs1 xs2 l1 l2 v1 v2
        ([s1 f1] & [= -> ->] & H1)%list_elem_of_fmap
        ([s2 f2] & [= -> ->] & H2)%list_elem_of_fmap Heq.
      cbn in Heq.
      apply flat_name_inj in Heq as [-> ->];
        [|apply list_elem_of_fmap; by eexists (_, _)..].
      split; [done|]. intros ->.
      by rewrite (agg_functions_functional _ _ _ H1 H2). }
    exists xs. split; [done|]. intros s f Hsf. unfold get. cbn [fst snd].
    rewrite lookup_insert_ne.
    2:{ intros Heq. symmetry in Heq. revert Heq. apply flat_name_not_Frame.
        apply list_elem_of_fmap. by exists (s, f). }
    rewrite (Hget (col, s) (f xs)); [done|].
    apply list_elem_of_fmap. by exists (s, f).
Qed.

(** C2: the mean-only table and the flattened statistics table have one row
    per Frame, for the same Frames in the same order, and on every Frame the
    mean-only value of every selected field equals the [{field}_mean] value
    of the statistics table. *)
Theorem mean_views_agree (df_all : DataFrame)
    (selected_columns : list string) (avg stats : DataFrame) :
  average_table df_all selected_columns = Returned avg ->
  stats_table df_all selected_columns = Returned stats ->
  (fun r => get "Frame" r) <$> rows avg = Int <$> group_keys df_all /\
  (fun r => get "Frame" r) <$> rows stats = Int <$> group_keys df_all /\
  Forall2 (fun ra rs =>
             get "Frame" ra = get "Frame" rs /\
             forall col, col ∈ selected_columns ->
               get col ra = get (col +:+ "_mean") rs)
          (rows avg) (rows stats).
Proof.
  intros (_ & _ & _ & Havg)%average_table_Returned
         (_ & Hstats)%stats_table_Returned.
  split_and!.
  - apply list_eq_Forall2, Forall2_fmap, Forall2_flip.
    eapply Forall2_impl; [exact Havg|]. by intros k r [-> _].
  - apply list_eq_Forall2, Forall2_fmap, Forall2_flip.
    eapply Forall2_impl; [exact Hstats|]. by intros k r [-> _].
  - apply Forall2_flip in Havg.
    eapply Forall2_trans; [|exact Havg|exact Hstats].
    cbn. intros ra k rs [HFa Ha] [HFs Hs]. split; [congruence|].
    intros col Hcol.
    destruct (Ha col Hcol) as (xs & Hxs & ->).
    destruct (Hs col Hcol) as (xs' & Hxs' & Hget).
    change (col +:+ "_mean") with (flat_name (col, "mean")).
    rewrite (Hget "mean" mean) by (unfold agg_functions; set_solver).
    congruence.
Qed.

Lemma mean_views_agree_witness :
  exists avg stats,
    average_table sample_df_all sample_selected = Returned avg /\
    stats_table sample_df_all sample_selected = Returned stats /\
    Forall2 (fun ra rs =>
               get "Frame" ra = get "Frame" rs /\
               forall col, col ∈ sample_selected ->
                 get col ra = get (col +:+ "_mean") rs)
            (rows avg) (rows stats).
Proof.
  destruct (average_table sample_df_all sample_selected) as [avg|] eqn:Ha;
    [|vm_compute in Ha; discriminate Ha].
  destruct (stats_table sample_df_all sample_selected) as [stats|] eqn:Hs;
    [|vm_compute in Hs; discriminate Hs].
  exists avg, stats. split; [reflexivity|]. split; [reflexivity|].
  apply (mean_views_agree _ _ _ _ Ha Hs).
Defined.

(** ** Standard deviation and standard error *)

Lemma values_length (col : string) (rs : list row) (xs : list number) :
  values col rs = Returned xs ->
  length xs = length (filter (fun r => negb (is_nan (get col r))) rs).
Proof.
  revert xs. induction rs as [|r rs IH]; intros xs; cbn [values].
  - by intros [= <-].
  - rewrite filter_cons.
    destruct (get col r) eqn:Hr; cbn [is_nan negb]; try done.
    + rewrite decide_False by (cbn; tauto). apply IH.
    + destruct (values col rs) as [xs'|]; cbn; [|done].
      intros [= <-]. rewrite decide_True by done. cbn. f_equal. by apply IH.
    + destruct (values col rs) as [xs'|]; cbn; [|done].
      intros [= <-]. rewrite decide_True by done. cbn. f_equal. by apply IH.
    + destruct (values col rs) as [xs'|]; cbn; [|done].
      intros [= <-]. rewrite decide_True by done. cbn. f_equal. by apply IH.
Qed.

Lemma finite_length (xs : list number) (qs : list Q) :
  finite xs = Some qs -> length qs = length xs.
Proof.
  revert qs. induction xs as [|[q|n] xs IH]; intros qs; cbn [finite].
  - by intros [= <-].
  - destruct (finite xs) as [qs'|]; cbn; [|done].
    intros [= <-]. cbn. f_equal. by apply IH.
  - done.
Qed.

(** The values of a group are all finite exactly when no row of the group
    holds an infinity in the column. *)
Lemma values_finite (col : string) (rs : list row) (xs : list number) :
  values col rs = Returned xs ->
  finite xs = None
  <-> existsb (fun r => match get col r with Inf _ => true | _ => false end)
        rs = true.
Proof.
  revert xs. induction rs as [|r rs IH]; intros xs; cbn [values existsb].
  - by intros [= <-].
  - destruct (get col r) eqn:Hr; try done; cbn [orb].
    + apply IH.
    + destruct (values col rs) as [xs'|]; cbn; [|done].
      intros [= <-]. cbn [finite]. specialize (IH _ eq_refl).
      destruct (finite xs'); cbn; [|tauto]. split; [done|].
      intros H. by apply IH in H.
    + destruct (values col rs) as [xs'|]; cbn; [|done].
      intros [= <-]. cbn [finite]. specialize (IH _ eq_refl).
      destruct (finite xs'); cbn; [|tauto]. split; [done|].
      intros H. by apply IH in H.
    + destruct (values col rs) as [xs'|]; cbn; [|done].
      by intros [= <-].
Qed.

Lemma Qsum_squares_nonneg (m : Q) (xs : list Q) :
  (0 <= Qsum ((fun x => (x - m) * (x - m)) <$> xs))%Q.
Proof.
  induction xs as [|x xs IH]; [done|].
  change (0 <= (x - m) * (x - m)
               + Qsum ((fun x => (x - m) * (x - m)) <$> xs))%Q.
  pose proof (Qsqr_nonneg (x - m)) as Hsq.
  change ((x - m) ^ 2)%Q with ((x - m) * (x - m))%Q in Hsq. lra.
Qed.

Lemma Qlen_gt_1 (xs : list Q) : (2 <= length xs)%nat -> (0 < Qlen xs - 1)%Q.
Proof.
  intros Hlen. unfold Qlen.
  assert (inject_Z 2 <= inject_Z (Z.of_nat (length xs)))%Q
    by (rewrite <- Zle_Qle; lia).
  change (inject_Z 2) with 2%Q in *. lra.
Qed.

Lemma var_of_nonneg (xs : list Q) :
  (2 <= length xs)%nat -> (0 <= var_of xs)%Q.
Proof.
  intros Hlen. unfold var_of. apply Qle_shift_div_l.
  - by apply Qlen_gt_1.
  - rewrite Qmult_0_l. apply Qsum_squares_nonneg.
Qed.

Lemma sem_radicand_nonneg (xs : list Q) :
  (2 <= length xs)%nat -> (0 <= var_of xs / Qlen xs)%Q.
Proof.
  intros Hlen. apply Qle_shift_div_l.
  - pose proof (Qlen_gt_1 xs Hlen). lra.
  - rewrite Qmult_0_l. by apply var_of_nonneg.
Qed.

Lemma std_cases (xs : list number) :
  ((length xs < 2)%nat /\ std xs = Null /\ sem xs = Null) \/
  ((2 <= length xs)%nat /\ finite xs = None /\
   std xs = Null /\ sem xs = Null) \/
  ((2 <= length xs)%nat /\
   exists qs, finite xs = Some qs /\ (2 <= length qs)%nat /\
     std xs = Root (var_of qs) /\ sem xs = Root (var_of qs / Qlen qs)).
Proof.
  unfold std, sem. destruct (Nat.ltb_spec (length xs) 2); [by left|].
  right. destruct (finite xs) as [qs|] eqn:Hqs; [|by left].
  right. split; [done|]. exists qs.
  apply finite_length in Hqs. split_and!; try done. lia.
Qed.

Lemma moderate_not_infinite (df : DataFrame) (k : Z) (col : string) :
  moderate df k col -> infinite_in df k col = false.
Proof.
  intros Hmod. unfold infinite_in. apply not_true_is_false.
  intros (r & Hr%list_elem_of_In & Hinf)%existsb_exists.
  specialize (Hmod r Hr). by destruct (get col r).
Qed.

(** C6, as the code has it: in the statistics table, on the row of each
    Frame and for each selected field, the count is the number of rows of
    the Frame that contribute a value; the standard deviation and the
    standard error are NaN when fewer than two rows contribute, and also
    when a contributing value is infinite, whatever the count.  When every
    contributing value is finite and of magnitude at most 2^400, so that
    the arithmetic of the doubles over the group stays in range, they are NaN
    exactly when fewer than two rows contribute, and otherwise square roots
    of non-negative numbers, so defined and non-negative. *)
Theorem std_sem_nan_cases (df_all : DataFrame)
    (selected_columns : list string) (stats : DataFrame) :
  stats_table df_all selected_columns = Returned stats ->
  Forall2 (fun k r =>
     get "Frame" r = Int k /\
     forall col, col ∈ selected_columns ->
       let n := contributing df_all k col in
       let sd := get (col +:+ "_std") r in
       let se := get (col +:+ "_sem") r in
       get (col +:+ "_count") r = Int (Z.of_nat n) /\
       ((n < 2)%nat -> is_nan sd = true /\ is_nan se = true) /\
       (infinite_in df_all k col = true ->
          is_nan sd = true /\ is_nan se = true) /\
       (moderate df_all k col ->
          (is_nan sd = true <-> (n < 2)%nat) /\
          (is_nan se = true <-> (n < 2)%nat) /\
          ((2 <= n)%nat ->
             (exists v, sd = Root v /\ (0 <= v)%Q) /\
             (exists v, se = Root v /\ (0 <= v)%Q) /\
             (0 <= cell_value sd)%R /\ (0 <= cell_value se)%R)))
    (group_keys df_all) (rows stats).
Proof.
  intros (_ & Hstats)%stats_table_Returned.
  eapply Forall2_impl; [exact Hstats|]. cbn beta.
  intros k r [HFrame Hcols]. split; [done|]. intros col Hcol.
  destruct (Hcols col Hcol) as (xs & Hxs & Hget).
  cbn zeta.
  change (col +:+ "_std") with (flat_name (col, "std")).
  change (col +:+ "_sem") with (flat_name (col, "sem")).
  change (col +:+ "_count") with (flat_name (col, "count")).
  rewrite (Hget "std" std), (Hget "sem" sem), (Hget "count" count)
    by (unfold agg_functions; rewrite !elem_of_cons; tauto).
  clear Hget.
  pose proof (values_finite _ _ _ Hxs) as Hfin.
  fold (infinite_in df_all k col) in Hfin.
  apply values_length in Hxs. fold (contributing df_all k col) in Hxs.
  rewrite <- Hxs. split; [done|].
  destruct (std_cases xs)
    as [(Hlt & -> & ->)|[(Hge & Hnone & -> & ->)|
                          (Hge & qs & Hqs & Hlen & -> & ->)]]; cbn [is_nan].
  - split_and!; try done. intros _. split_and!; try done. lia.
  - split_and!; try done.
    intros Hmod%moderate_not_infinite. apply Hfin in Hnone. congruence.
  - split_and!.
    + lia.
    + intros Hinf. apply Hfin in Hinf. congruence.
    + intros _. split_and!; try (split; [done|lia]).
      intros _. split_and!.
      * eexists. split; [done|]. by apply var_of_nonneg.
      * eexists. split; [done|]. by apply sem_radicand_nonneg.
      * apply sqrt_pos.
      * apply sqrt_pos.
Qed.

Lemma moderate_b_sound (df : DataFrame) (k : Z) (col : string) :
  moderate_b df k col = true -> moderate df k col.
Proof.
  unfold moderate_b, moderate. rewrite forallb_forall.
  intros H r Hr%list_elem_of_In. apply H in Hr.
  destruct (get col r); try done.
  - by apply Z.leb_le.
  - by apply Qle_bool_iff.
Qed.

Lemma std_sem_nan_cases_witness :
  exists stats,
    stats_table sample_df_all sample_selected = Returned stats /\
    Forall2 (fun k r =>
       get "Frame" r = Int k /\
       forall col, col ∈ sample_selected ->
         let n := contributing sample_df_all k col in
         let sd := get (col +:+ "_std") r in
         let se := get (col +:+ "_sem") r in
         get (col +:+ "_count") r = Int (Z.of_nat n) /\
         ((n < 2)%nat -> is_nan sd = true /\ is_nan se = true) /\
         (infinite_in sample_df_all k col = true ->
            is_nan sd = true /\ is_nan se = true) /\
         (moderate sample_df_all k col ->
            (is_nan sd = true <-> (n < 2)%nat) /\
            (is_nan se = true <-> (n < 2)%nat) /\
            ((2 <= n)%nat ->
               (exists v, sd = Root v /\ (0 <= v)%Q) /\
               (exists v, se = Root v /\ (0 <= v)%Q) /\
               (0 <= cell_value sd)%R /\ (0 <= cell_value se)%R)))
      (group_keys sample_df_all) (rows stats).
Proof.
  destruct (stats_table sample_df_all sample_selected) as [stats|] eqn:Hs;
    [|vm_compute in Hs; discriminate Hs].
  exists stats. split; [reflexivity|].
  apply (std_sem_nan_cases _ _ _ Hs).
Defined.

(** The values of the sample are moderate: Frame 1 and its Diameter. *)
Example sample_moderate : moderate sample_df_all 1 "Diameter".
Proof. apply moderate_b_sound. vm_compute. reflexivity. Qed.

(** C6, as stated, fails: the two rows of the one Frame both contribute a
    value to Diameter, [inf] and 1.0, so the count is 2, and yet the
    standard deviation and the standard error are NaN. *)
Lemma std_nan_with_two_values :
  contributing sample_inf_df 1 "Diameter" = 2%nat /\
  (fun r => (get "Frame" r, get "Diameter_count" r,
             get "Diameter_std" r, get "Diameter_sem" r))
    <$> match stats_table sample_inf_df ["Diameter"] with
        | Returned stats => rows stats
        | Raised _ => []
        end
  = [(Int 1, Int 2, Null, Null)].
Proof. vm_compute. done. Qed.

(** On the sample, Frame 2 has a single Perimeter value: its standard
    deviation is NaN, while Frame 1 has three. *)
Example sample_std :
  (fun r => (get "Perimeter_std" r, get "Perimeter_count" r))
    <$> match stats_table sample_df_all sample_selected with
        | Returned stats => rows stats
        | Raised _ => []
        end
  = [(Root (13122 # 1458), Int 3); (Null, Int 1)].
Proof. vm_compute. reflexivity. Qed.

(** On the sample, an empty selection: the mean table is built with its
    Frame column alone, and the aggregation over no column raises. *)
Example empty_selection :
  (match average_table sample_df_all [] with
   | Returned average_data => Some (columns average_data)
   | Raised _ => None
   end,
   stats_table sample_df_all [])
  = (Some ["Frame"], Raised (ValueError "No objects to concatenate" [])).
Proof. vm_compute. reflexivity. Qed.

(** ** Relating two runs *)

Section Related.
Context (F : folder -> folder -> Prop).

Lemma related_bind {A1 A2 B1 B2} (V : A1 -> A2 -> Prop)
    (V' : B1 -> B2 -> Prop) (m1 : M A1) (m2 : M A2)
    (k1 : A1 -> M B1) (k2 : A2 -> M B2) (w1 w2 : world) :
  related F V (m1 w1) (m2 w2) ->
  (forall a1 a2 w1' w2',
     V a1 a2 -> F (out_dir w1') (out_dir w2') ->
     related F V' (k1 a1 w1') (k2 a2 w2')) ->
  related F V' ((m1 ≫= k1) w1) ((m2 ≫= k2) w2).
Proof.
  intros [HF HV] Hk. rewrite !run_bind.
  destruct (m1 w1) as [w1' [a1|e1]], (m2 w2) as [w2' [a2|e2]];
    cbn in *; try done.
  by apply Hk.
Qed.

Lemma related_prints_only {A1 A2} (V : A1 -> A2 -> Prop)
    (m1 : M A1) (m2 : M A2) (a1 : A1) (a2 : A2) (w1 w2 : world) :
  prints_only m1 a1 -> prints_only m2 a2 ->
  F (out_dir w1) (out_dir w2) -> V a1 a2 ->
  related F V (m1 w1) (m2 w2).
Proof.
  intros H1 H2 HF HV. destruct (H1 w1) as [c1 ->], (H2 w2) as [c2 ->].
  by split.
Qed.

Lemma related_lift {A1 A2} (V : A1 -> A2 -> Prop)
    (o1 : outcome A1) (o2 : outcome A2) (w1 w2 : world) :
  outcome_rel V o1 o2 -> F (out_dir w1) (out_dir w2) ->
  related F V (lift o1 w1) (lift o2 w2).
Proof. by split. Qed.

Lemma related_raise {A1 A2} (V : A1 -> A2 -> Prop) (e : exn)
    (w1 w2 : world) :
  F (out_dir w1) (out_dir w2) ->
  related F V (raise e w1) (raise e w2).
Proof. by split. Qed.

Lemma related_create (n1 n2 : string) (f1 f2 : file) (w1 w2 : world) :
  F (<[n1 := f1]> (out_dir w1)) (<[n2 := f2]> (out_dir w2)) ->
  related F (@any unit unit) (create n1 f1 w1) (create n2 f2 w2).
Proof. by split. Qed.

Lemma related_append_lines (n1 n2 : string) (l1 l2 : list (list cell))
    (w1 w2 : world) :
  F (out_dir (append_lines n1 l1 w1).1) (out_dir (append_lines n2 l2 w2).1) ->
  related F (@any unit unit) (append_lines n1 l1 w1) (append_lines n2 l2 w2).
Proof. by split. Qed.

Lemma related_remove (n1 n2 : string) (w1 w2 : world) :
  F (delete n1 (out_dir w1)) (delete n2 (out_dir w2)) ->
  related F (@any unit unit) (remove n1 w1) (remove n2 w2).
Proof. by split. Qed.

Lemma related_ret {A1 A2} (V : A1 -> A2 -> Prop) (a1 : A1) (a2 : A2)
    (w1 w2 : world) :
  V a1 a2 -> F (out_dir w1) (out_dir w2) ->
  related F V (ret a1 w1) (ret a2 w2).
Proof. by split. Qed.
End Related.

Lemma outcome_rel_eq {A} (o : outcome A) : outcome_rel eq o o.
Proof. by destruct o. Qed.

Lemma prints_only_print (m : message) : prints_only (print m) tt.
Proof. intros w. by eexists. Qed.

Lemma prints_only_bind {A B} (m : M A) (k : A -> M B) (a : A) (b : B) :
  prints_only m a -> prints_only (k a) b -> prints_only (m ≫= k) b.
Proof.
  intros Hm Hk w. rewrite run_bind. destruct (Hm w) as [c ->].
  destruct (Hk {| out_dir := out_dir w; console := c |}) as [c' ->].
  by eexists.
Qed.

Lemma prints_only_ret {A} (a : A) : prints_only (ret a) a.
Proof. intros [d c]. by eexists. Qed.

Lemma prints_only_print_plan (disk_speed : Q) (ncols cpus : nat)
    (use_parallel : bool) :
  prints_only (print_plan disk_speed ncols cpus use_parallel)
              (choose_plan disk_speed ncols cpus use_parallel).
Proof.
  unfold print_plan.
  repeat (first [ apply prints_only_print | apply prints_only_ret
                | eapply prints_only_bind | case_match ]).
Qed.

Lemma prints_only_coerce_columns (df : DataFrame) (cols : list string) :
  prints_only (coerce_columns df cols) tt.
Proof.
  induction cols as [|col cols IH]; cbn [coerce_columns].
  - apply prints_only_ret.
  - eapply prints_only_bind; [|exact IH].
    case_match; [apply prints_only_ret | apply prints_only_print].
Qed.

Create HintDb prints.

#[local] Hint Resolve prints_only_print prints_only_ret
  prints_only_print_plan prints_only_coerce_columns : prints.

(** Rewrite with the equality of the two output folders and conclude. *)
Ltac same_dir :=
  cbn;
  repeat match goal with
         | H : out_dir _ = out_dir _ |- _ => rewrite H; clear H
         end;
  done.

(** One statement of two runs executed side by side; [tac] proves that the
    output folders stay related. *)
Ltac rel_prim_with tac :=
  first
    [ apply related_raise; tac
    | apply related_create; tac
    | apply related_append_lines; tac
    | apply related_remove; tac
    | apply related_lift; [apply outcome_rel_eq | tac]
    | eapply (related_prints_only _ any);
      [ solve [eauto with prints] | solve [eauto with prints] | tac | done ] ].

Ltac rel_step_with tac :=
  eapply related_bind;
  [rel_prim_with tac | cbn beta; intros ? ? ? ? ? ?; subst].

Ltac rel_prim := rel_prim_with same_dir.
Ltac rel_step := rel_step_with same_dir.

Lemma write_chunks_same_dir (fault : option nat) (name : string)
    (n i : nat) (w1 w2 : world) :
  out_dir w1 = out_dir w2 ->
  related eq (@any unit unit) (write_chunks fault name i n w1)
    (write_chunks fault name i n w2).
Proof.
  revert i w1 w2. induction n as [|n IH]; intros i w1 w2 Hd; cbn [write_chunks].
  - by apply related_ret.
  - case_decide; [rel_prim|]. rel_step. by apply IH.
Qed.

Lemma test_disk_write_speed_same_dir (e : env) (path : string)
    (w1 w2 : world) :
  out_dir w1 = out_dir w2 ->
  related eq eq (test_disk_write_speed e path w1)
    (test_disk_write_speed e path w2).
Proof.
  intros Hd. unfold test_disk_write_speed.
  rel_step. eapply related_bind; [by apply write_chunks_same_dir|].
  cbn beta. intros _ _ u1 u2 _ Hu. rel_step.
  case_match; [rel_prim|]. by apply related_ret.
Qed.

Lemma plot_lines_with_options_same_dir (df df_all : DataFrame)
    (prefix : string) (selected_columns : list string) (time_interval : Z)
    (show_error_bars : bool) (poly_degree : nat) (w1 w2 : world) :
  out_dir w1 = out_dir w2 ->
  related eq (@any unit unit)
    (plot_lines_with_options df df_all prefix selected_columns time_interval
       show_error_bars poly_degree w1)
    (plot_lines_with_options df df_all prefix selected_columns time_interval
       show_error_bars poly_degree w2).
Proof. intros Hd. unfold plot_lines_with_options. rel_step. rel_prim. Qed.

Lemma related_eq_any_unit (r1 r2 : world * outcome unit) :
  related eq (@any unit unit) r1 r2 -> out_dir r1.1 = out_dir r2.1 /\ r1.2 = r2.2.
Proof.
  intros [Hd Ho]. split; [done|].
  destruct r1 as [? [[]|?]], r2 as [? [[]|?]]; cbn in *; first [done|congruence].
Qed.

(** C10: with the caller's parallel flag set or cleared, a run leaves the
    same output folder (raw file, summary file and chart included) and ends
    the same way; the flag reaches the console only.  The files are read in
    sorted order by the one sequential loop in both cases. *)
Theorem parallel_flag_does_not_change_files (e : env) (dirs : folders)
    (selected_columns : list string) (time_interval : Z) (timestamp : string)
    (w : world) :
  let r1 := reindex_and_analyze e dirs selected_columns time_interval true
              timestamp w in
  let r2 := reindex_and_analyze e dirs selected_columns time_interval false
              timestamp w in
  out_dir r1.1 = out_dir r2.1 /\ r1.2 = r2.2.
Proof.
  cbn zeta. apply related_eq_any_unit. unfold reindex_and_analyze.
  destruct (in_is_dir dirs); cbn [negb]; [|by rel_prim].
  destruct (out_is_dir dirs); cbn [negb]; [|by rel_prim].
  case_decide; [by rel_prim|].
  rel_step.
  eapply related_bind; [by apply test_disk_write_speed_same_dir|].
  cbn beta. intros disk_speed ? u1 u2 <- Hu.
  do 11 rel_step.
  case_match; [by rel_prim|].
  do 9 rel_step.
  eapply related_bind; [by apply plot_lines_with_options_same_dir|].
  cbn beta. intros. by rel_prim.
Qed.

(** On the sample, with three selected columns and an adequate disk, the flag
    does show on the console. *)
Example parallel_flag_shows_on_console :
  let sel := ["Diameter"; "Perimeter"; "TimeSec"] in
  let r1 := reindex_and_analyze sample_env sample_folders sel 5 true "ts"
              empty_world in
  let r2 := reindex_and_analyze sample_env sample_folders sel 5 false "ts"
              empty_world in
  r1.2 = Returned tt /\ r2.2 = Returned tt /\
  MsgFinalDecision true ∈ console r1.1 /\
  MsgFinalDecision false ∈ console r2.1.
Proof. vm_compute. split_and!; try done; set_solver. Qed.

(** ** What a completed run has written *)

Lemma bind_Returned {A B} (m : M A) (k : A -> M B) (w w' : world) (b : B) :
  (m ≫= k) w = (w', Returned b) ->
  exists a w1, m w = (w1, Returned a) /\ k a w1 = (w', Returned b).
Proof.
  rewrite run_bind. destruct (m w) as [w1 [a|e]]; [|done]. eauto.
Qed.

Lemma prints_only_Returned {A} (m : M A) (a : A) (w w1 : world) (a' : A) :
  prints_only m a -> m w = (w1, Returned a') ->
  exists c, w1 = {| out_dir := out_dir w; console := c |} /\ a' = a.
Proof.
  intros Hm Hw. destruct (Hm w) as [c Hc]. rewrite Hw in Hc.
  exists c. by injection Hc as -> ->.
Qed.

Lemma raw_data_name_not_summary (prefix timestamp : string) :
  raw_data_name prefix timestamp <> summary_name prefix timestamp.
Proof.
  unfold raw_data_name, summary_name. intros H.
  apply (inj (String.app prefix)) in H. by rewrite !append_cons in H.
Qed.

Lemma png_name_not_csv (prefix timestamp : string) :
  prefix +:+ "_metrics_vs_frame.png" <> raw_data_name prefix timestamp /\
  prefix +:+ "_metrics_vs_frame.png" <> summary_name prefix timestamp.
Proof.
  unfold raw_data_name, summary_name.
  split; intros H; apply (inj (String.app prefix)) in H;
    by rewrite !append_cons in H.
Qed.

Ltac inv_bind H :=
  let Hm := fresh "Hm" in
  apply bind_Returned in H as (? & ? & Hm & H);
  lazymatch type of Hm with
  | lift _ _ = _ => cbv [lift] in Hm; injection Hm as <- Hm
  | create _ _ _ = _ => cbv [create] in Hm; injection Hm as <- <-
  | remove _ _ = _ => cbv [remove] in Hm; injection Hm as <- <-
  | append_lines _ _ _ = _ =>
      cbv [append_lines] in Hm; cbn [out_dir console] in Hm;
      rewrite ?lookup_insert_eq in Hm; rewrite ?insert_insert_eq in Hm;
      cbn [app] in Hm; injection Hm as <- <-
  | ?m _ = _ =>
      let Hp := fresh "Hp" in
      assert (exists a, prints_only m a) as [? Hp]
        by (eexists; solve [eauto with prints]);
      destruct (prints_only_Returned _ _ _ _ _ Hp Hm) as (? & -> & ->);
      clear Hp Hm
  end;
  cbn [out_dir console] in H.

(** Two evaluations of one computation returned the same value. *)
Ltac same_value :=
  repeat match goal with
         | H1 : ?o = Returned ?x, H2 : ?o = Returned ?y |- _ =>
             rewrite H1 in H2; injection H2 as <-
         end.

Lemma run_returned (e : env) (dirs : folders) (selected_columns : list string)
    (time_interval : Z) (use_parallel : bool) (timestamp : string)
    (w w' : world) :
  reindex_and_analyze e dirs selected_columns time_interval use_parallel
    timestamp w = (w', Returned tt) ->
  let df_all :=
    concat (read_all time_interval (sorted (glob (in_listing dirs)))) in
  exists average_data stats fig,
    average_table df_all selected_columns = Returned average_data /\
    stats_table df_all selected_columns = Returned stats /\
    out_dir w' !! raw_data_name (in_name dirs) timestamp
      = Some (Csv (raw_sections df_all average_data)) /\
    out_dir w' !! summary_name (in_name dirs) timestamp
      = Some (Csv (to_csv true stats)) /\
    out_dir w' !! (in_name dirs +:+ "_metrics_vs_frame.png") = Some (Png fig).
Proof.
  unfold reindex_and_analyze.
  destruct (in_is_dir dirs); cbn [negb]; [|done].
  destruct (out_is_dir dirs); cbn [negb]; [|done].
  case_decide; [done|]. intros H0.
  inv_bind H0.
  apply bind_Returned in H0 as (disk_speed & w1 & _ & H0).
  do 11 inv_bind H0.
  case_bool_decide as Hmissing; cbn [negb] in H0; [|done].
  do 9 inv_bind H0.
  apply bind_Returned in H0 as (? & wp & Hplot & H0).
  unfold plot_lines_with_options in Hplot. inv_bind Hplot.
  cbv [create] in Hplot. injection Hplot as <- <-.
  cbv [print] in H0. injection H0 as <-.
  same_value.
  destruct (png_name_not_csv (in_name dirs) timestamp) as [Hpr Hps].
  pose proof (raw_data_name_not_summary (in_name dirs) timestamp) as Hrs.
  eexists _, _, _. split_and!; [eassumption| |cbn [out_dir]..].
  - unfold stats_table.
    match goal with H : groupby_agg _ _ = _ |- _ => rewrite H end.
    cbn. eassumption.
  - rewrite lookup_insert_ne, lookup_insert_ne, lookup_insert_eq by done.
    unfold raw_sections. by rewrite <- !(assoc_L (++)).
  - by rewrite lookup_insert_ne, lookup_insert_eq.
  - by rewrite lookup_insert_eq.
Qed.

Lemma separator_lines (df_all : DataFrame) :
  to_csv false (separator df_all)
  = [replicate (length (columns df_all)) (Str "NaN")].
Proof.
  unfold to_csv, data_lines, separator. cbn. f_equal.
  apply list_eq_Forall2, Forall2_fmap_l, Forall2_replicate_r; [done|].
  apply Forall_forall. intros c Hc. unfold flip, compose, get.
  erewrite elem_of_list_to_map_1'; [done| |].
  - by intros y (c' & [= _ ->] & _)%list_elem_of_fmap.
  - apply list_elem_of_fmap. by exists c.
Qed.

(** C8: when a run completes, the raw-data file holds exactly three sections
    in order: the merged dataset under its header, one separator row with the
    text NaN in every field, and the mean-only per-Frame table under its own
    header (Frame, then the selected columns). *)
Theorem raw_file_three_sections (e : env) (dirs : folders)
    (selected_columns : list string) (time_interval : Z)
    (use_parallel : bool) (timestamp : string) (w w' : world) :
  reindex_and_analyze e dirs selected_columns time_interval use_parallel
    timestamp w = (w', Returned tt) ->
  let df_all :=
    concat (read_all time_interval (sorted (glob (in_listing dirs)))) in
  exists average_data,
    average_table df_all selected_columns = Returned average_data /\
    out_dir w' !! raw_data_name (in_name dirs) timestamp
    = Some (Csv ((header_line df_all :: data_lines df_all)
                 ++ [replicate (length (columns df_all)) (Str "NaN")]
                 ++ ((Str <$> "Frame" :: selected_columns)
                     :: data_lines average_data))).
Proof.
  intros Hrun df_all.
  destruct (run_returned _ _ _ _ _ _ _ _ Hrun)
    as (average_data & stats & fig & Havg & _ & Hraw & _).
  exists average_data. split; [done|]. fold df_all in Hraw. rewrite Hraw.
  unfold raw_sections. rewrite separator_lines.
  apply average_table_Returned in Havg as (_ & _ & Hcols & _).
  unfold to_csv, header_line. by rewrite Hcols.
Qed.

Lemma raw_file_three_sections_witness :
  exists w' average_data,
    average_table sample_df_all sample_selected = Returned average_data /\
    out_dir w' !! "R2_raw_data_ts.csv"
    = Some (Csv ((header_line sample_df_all :: data_lines sample_df_all)
                 ++ [replicate (length (columns sample_df_all)) (Str "NaN")]
                 ++ ((Str <$> "Frame" :: sample_selected)
                     :: data_lines average_data))).
Proof.
  destruct (reindex_and_analyze sample_env sample_folders sample_selected 5
              false "ts" empty_world) as [w' o] eqn:Hrun.
  assert (o = Returned tt) as ->.
  { apply (f_equal snd) in Hrun. vm_compute in Hrun. congruence. }
  exists w'. apply (raw_file_three_sections _ _ _ _ _ _ _ _ Hrun).
Defined.

(** ** Two runs under different measurements *)

Section Measurements.
Context (F : folder -> folder -> Prop).
Hypothesis F_insert : forall n f d1 d2,
  F d1 d2 -> F (<[n := f]> d1) (<[n := f]> d2).
Hypothesis F_delete : forall n d1 d2,
  F d1 d2 -> F (delete n d1) (delete n d2).
Hypothesis F_append : forall n (l : list (list cell)) d1 d2,
  F d1 d2 ->
  F (<[n := Csv (match d1 !! n with Some (Csv o) => o | _ => [] end ++ l)]> d1)
    (<[n := Csv (match d2 !! n with Some (Csv o) => o | _ => [] end ++ l)]> d2).

Ltac F_solve :=
  cbn [out_dir console fst snd append_lines];
  first [ assumption | apply F_insert; assumption
        | apply F_delete; assumption | apply F_append; assumption ].

Lemma test_disk_write_speed_measured (e1 e2 : env) (path : string)
    (w1 w2 : world) :
  benchmark_ok e1 -> benchmark_ok e2 ->
  F (out_dir w1) (out_dir w2) ->
  related F (@any Q Q) (test_disk_write_speed e1 path w1)
    (test_disk_write_speed e2 path w2).
Proof.
  intros [Hw1 Ht1] [Hw2 Ht2] HF.
  rewrite !test_disk_write_speed_completes by done.
  rewrite Ht1, Ht2. split; [|done]. by apply F_delete.
Qed.

Lemma plot_lines_with_options_related (df df_all : DataFrame)
    (prefix : string) (selected_columns : list string) (time_interval : Z)
    (show_error_bars : bool) (poly_degree : nat) (w1 w2 : world) :
  F (out_dir w1) (out_dir w2) ->
  related F (@any unit unit)
    (plot_lines_with_options df df_all prefix selected_columns
       time_interval show_error_bars poly_degree w1)
    (plot_lines_with_options df df_all prefix selected_columns
       time_interval show_error_bars poly_degree w2).
Proof.
  intros Hd. unfold plot_lines_with_options.
  rel_step_with F_solve. rel_prim_with F_solve.
Qed.

Lemma runs_related (e1 e2 : env) (dirs : folders)
    (selected_columns : list string) (time_interval : Z)
    (use_parallel : bool) (timestamp : string) (w1 w2 : world) :
  benchmark_ok e1 -> benchmark_ok e2 ->
  F (out_dir w1) (out_dir w2) ->
  related F (@any unit unit)
    (reindex_and_analyze e1 dirs selected_columns time_interval
       use_parallel timestamp w1)
    (reindex_and_analyze e2 dirs selected_columns time_interval
       use_parallel timestamp w2).
Proof.
  intros He1 He2 HF. unfold reindex_and_analyze.
  destruct (in_is_dir dirs); cbn [negb]; [|by rel_prim_with F_solve].
  destruct (out_is_dir dirs); cbn [negb]; [|by rel_prim_with F_solve].
  case_decide; [by rel_prim_with F_solve|].
  rel_step_with F_solve.
  eapply related_bind; [by apply test_disk_write_speed_measured|].
  cbn beta. intros speed1 speed2 u1 u2 _ Hu.
  do 11 rel_step_with F_solve.
  case_match; [by rel_prim_with F_solve|].
  do 9 rel_step_with F_solve.
  eapply related_bind; [by apply plot_lines_with_options_related|].
  cbn beta. intros. by rel_prim_with F_solve.
Qed.
End Measurements.

Lemma outcome_rel_any_unit (o1 o2 : outcome unit) :
  outcome_rel (@any unit unit) o1 o2 -> o1 = o2.
Proof. destruct o1 as [[]|], o2 as [[]|]; cbn; first [done|congruence]. Qed.

(** C7: two runs on the same folders with the same selected columns,
    interval, flag and timestamp end the same way whatever throughput, CPU
    count and CPU load they measure; started on equal output folders they
    leave equal output folders; and when they complete, even on different
    output folders, the raw file and the summary file they leave are the
    same. *)
Theorem rerun_is_deterministic (e1 e2 : env) (dirs : folders)
    (selected_columns : list string) (time_interval : Z)
    (use_parallel : bool) (timestamp : string) (w1 w2 : world) :
  benchmark_ok e1 -> benchmark_ok e2 ->
  let r1 := reindex_and_analyze e1 dirs selected_columns time_interval
              use_parallel timestamp w1 in
  let r2 := reindex_and_analyze e2 dirs selected_columns time_interval
              use_parallel timestamp w2 in
  let raw := raw_data_name (in_name dirs) timestamp in
  let summary := summary_name (in_name dirs) timestamp in
  r1.2 = r2.2 /\
  (out_dir w1 = out_dir w2 -> out_dir r1.1 = out_dir r2.1) /\
  (r1.2 = Returned tt ->
     is_Some (out_dir r1.1 !! raw) /\
     out_dir r1.1 !! raw = out_dir r2.1 !! raw /\
     is_Some (out_dir r1.1 !! summary) /\
     out_dir r1.1 !! summary = out_dir r2.1 !! summary).
Proof.
  intros He1 He2. cbn zeta.
  pose proof (runs_related (fun _ _ => True) (fun _ _ _ _ H => H)
                (fun _ _ _ H => H) (fun _ _ _ _ H => H) e1 e2 dirs
                selected_columns time_interval use_parallel timestamp w1 w2
                He1 He2 I) as [_ Hany].
  pose proof (fun HF => runs_related eq ltac:(by intros; subst)
                ltac:(by intros; subst) ltac:(by intros; subst) e1 e2 dirs
                selected_columns time_interval use_parallel timestamp w1 w2
                He1 He2 HF) as Heq.
  destruct (reindex_and_analyze e1 _ _ _ _ _ w1) as [u1 o1] eqn:E1.
  destruct (reindex_and_analyze e2 _ _ _ _ _ w2) as [u2 o2] eqn:E2.
  cbn [fst snd] in *. apply outcome_rel_any_unit in Hany as <-.
  split_and!; [done| |].
  - intros Hd. by destruct (Heq Hd).
  - intros ->.
    destruct (run_returned _ _ _ _ _ _ _ _ E1)
      as (avg1 & stats1 & fig1 & Ha1 & Hs1 & Hraw1 & Hsum1 & _).
    destruct (run_returned _ _ _ _ _ _ _ _ E2)
      as (avg2 & stats2 & fig2 & Ha2 & Hs2 & Hraw2 & Hsum2 & _).
    cbn zeta in *. same_value.
    rewrite Hraw1, Hraw2, Hsum1, Hsum2. by split_and!.
Qed.

Lemma sample_env_ok : benchmark_ok sample_env.
Proof. split; [intros k Hk; discriminate Hk|reflexivity]. Defined.

Lemma rerun_is_deterministic_witness :
  let slow := {| t_start := 1; t_end := 9; write_fault := None;
                 cpu_count := 64; cpu_percent := 95 |} in
  let r1 := reindex_and_analyze sample_env sample_folders sample_selected 5
              true "ts" empty_world in
  let r2 := reindex_and_analyze slow sample_folders sample_selected 5
              true "ts" r1.1 in
  r1.2 = r2.2 /\
  out_dir r1.1 !! "R2_raw_data_ts.csv" = out_dir r2.1 !! "R2_raw_data_ts.csv".
Proof.
  intros slow r1 r2.
  assert (Hslow : benchmark_ok slow)
    by (split; [intros k Hk; discriminate Hk|reflexivity]).
  destruct (rerun_is_deterministic sample_env slow sample_folders
              sample_selected 5 true "ts" empty_world r1.1 sample_env_ok Hslow)
    as (Hout & _ & Hfiles).
  split; [exact Hout|].
  apply Hfiles. vm_compute. reflexivity.
Defined.

(** ** Missing selected columns *)

Lemma average_table_missing (df : DataFrame) (selected_columns : list string) :
  missing_columns df selected_columns <> [] ->
  average_table df selected_columns
  = Raised (KeyError (missing_columns df selected_columns)).
Proof.
  intros Hmiss. unfold average_table, groupby_mean, reduce_groups, select_columns.
  by destruct (missing_columns df selected_columns).
Qed.

Lemma run_create (name : string) (f : file) (w : world) :
  create name f w
  = ({| out_dir := <[name := f]> (out_dir w); console := console w |},
     Returned tt).
Proof. reflexivity. Qed.

Lemma run_append_lines (name : string) (ls : list (list cell)) (w : world)
    (old : list (list cell)) :
  out_dir w !! name = Some (Csv old) ->
  append_lines name ls w
  = ({| out_dir := <[name := Csv (old ++ ls)]> (out_dir w);
        console := console w |}, Returned tt).
Proof. intros H. unfold append_lines. by rewrite H. Qed.

(** Run the first statement of the computation on the left of an equation. *)
Ltac fwd :=
  lazymatch goal with
  | |- context [(create _ _ ≫= _) _] =>
      rewrite run_bind, run_create; cbn [out_dir console]
  | |- context [(append_lines _ _ ≫= _) _] =>
      rewrite run_bind;
      erewrite run_append_lines
        by (cbn [out_dir console]; apply lookup_insert_eq);
      cbn [out_dir console app]; rewrite insert_insert_eq
  | |- context [(?m ≫= _) ?w] =>
      let Hp := fresh "Hp" in
      assert (exists a, prints_only m a) as [? Hp]
        by (eexists; solve [eauto with prints]);
      rewrite run_bind; destruct (Hp w) as [? ->]; clear Hp;
      cbn [out_dir console]
  end.

(** When a selected column is absent from the merged dataset, the run never
    reaches its own check of the selected columns: the mean taken for the
    raw file raises KeyError first, and the raw file is left with the merged
    dataset and the separator row only. *)
Lemma missing_column_stops_raw_file (e : env) (dirs : folders)
    (selected_columns : list string) (time_interval : Z)
    (use_parallel : bool) (timestamp : string) (w : world) :
  in_is_dir dirs = true -> out_is_dir dirs = true ->
  sorted (glob (in_listing dirs)) <> [] ->
  benchmark_ok e ->
  let df_all :=
    concat (read_all time_interval (sorted (glob (in_listing dirs)))) in
  missing_columns df_all selected_columns <> [] ->
  exists w',
    reindex_and_analyze e dirs selected_columns time_interval use_parallel
      timestamp w
    = (w', Raised (KeyError (missing_columns df_all selected_columns))) /\
    out_dir w' !! raw_data_name (in_name dirs) timestamp
    = Some (Csv (to_csv true df_all ++ to_csv false (separator df_all))).
Proof.
  intros Hin Hout Hfiles [Hw Ht] df_all Hmiss. unfold reindex_and_analyze.
  rewrite Hin, Hout. cbn [negb]. rewrite decide_False by done.
  fwd. rewrite run_bind, test_disk_write_speed_completes, Ht by done.
  fwd. fwd.
  do 6 fwd.
  rewrite run_bind. cbv [lift]. fold df_all.
  rewrite average_table_missing by done.
  eexists. split; [reflexivity|]. cbn [out_dir]. by rewrite lookup_insert_eq.
Qed.

(** C1 at a failing input: "Area" is selected and no file has it.  The run
    raises KeyError from the mean written to the raw file, not the
    ValueError of the check that follows, and the raw file is left with two
    sections. *)
Theorem missing_column_raises_KeyError :
  let r := reindex_and_analyze sample_env sample_folders
             ["Diameter"; "Area"] 5 false "ts" empty_world in
  missing_columns sample_df_all ["Diameter"; "Area"] = ["Area"] /\
  r.2 = Raised (KeyError ["Area"]) /\
  r.2 <> Raised (ValueError "Some selected columns not found" ["Area"]) /\
  out_dir r.1 !! "R2_raw_data_ts.csv"
  = Some (Csv (to_csv true sample_df_all
               ++ to_csv false (separator sample_df_all))) /\
  out_dir r.1 !! "R2_summary_stats_ts.csv" = None.
Proof. vm_compute. split_and!; done. Qed.

(** ** The interval *)

Lemma read_frame_same_shape (t1 t2 i : Z) (csv : csv_file) :
  same_shape (read_frame t1 i csv) (read_frame t2 i csv).
Proof.
  split; [done|]. unfold read_frame. cbn. rewrite <- !list_fmap_compose.
  apply Forall2_fmap, Forall_Forall2_diag, Forall_forall.
  intros r _. unfold compose. split.
  - unfold frame_key, get. by simplify_map_eq.
  - intros c. unfold get.
    destruct (decide (c = "SourceFile")) as [->|]; [by simplify_map_eq|].
    destruct (decide (c = "TimeMin")) as [->|]; [by simplify_map_eq|].
    destruct (decide (c = "TimeSec")) as [->|]; [by simplify_map_eq|].
    destruct (decide (c = "Frame")) as [->|]; by simplify_map_eq.
Qed.

Lemma read_all_same_shape (t1 t2 : Z) (csv_files : list csv_file) :
  same_shape (concat (read_all t1 csv_files)) (concat (read_all t2 csv_files)).
Proof.
  assert (H : Forall2 same_shape (read_all t1 csv_files)
                (read_all t2 csv_files)).
  { unfold read_all. apply Forall2_fmap, Forall_Forall2_diag, Forall_forall.
    intros [i csv] _. apply read_frame_same_shape. }
  split; cbn.
  - f_equal. f_equal. apply list_eq_Forall2, Forall2_fmap.
    eapply Forall2_impl; [exact H|]. by intros ?? [? _].
  - apply Forall2_join, Forall2_fmap.
    eapply Forall2_impl; [exact H|]. by intros ?? [_ ?].
Qed.

Lemma values_alike (col : string) (rs1 rs2 : list row) :
  Forall2 row_alike rs1 rs2 ->
  outcome_rel (@any (list number) (list number)) (values col rs1) (values col rs2).
Proof.
  induction 1 as [|r1 r2 rs1 rs2 [_ Hr] _ IH]; [done|]. cbn [values].
  specialize (Hr col).
  destruct (get col r1), (get col r2); try discriminate Hr; try done;
    by destruct (values col rs1), (values col rs2).
Qed.

Lemma group_keys_alike (df1 df2 : DataFrame) :
  same_shape df1 df2 -> group_keys df1 = group_keys df2.
Proof.
  intros [_ H]. unfold group_keys. do 2 f_equal.
  induction H as [|r1 r2 rs1 rs2 [Hk _] _ IH]; [done|].
  cbn. by rewrite Hk, IH.
Qed.

Lemma group_rows_alike (df1 df2 : DataFrame) (k : Z) :
  same_shape df1 df2 ->
  Forall2 row_alike (group_rows df1 k) (group_rows df2 k).
Proof.
  intros [_ H]. unfold group_rows. apply Forall2_filter; [|done].
  intros r1 r2 [Hk _]. by rewrite Hk.
Qed.

Lemma for_each_alike {A B1 B2} (f1 : A -> outcome B1) (f2 : A -> outcome B2)
    (l : list A) :
  (forall x, x ∈ l -> outcome_rel any (f1 x) (f2 x)) ->
  outcome_rel (@any (list B1) (list B2)) (for_each f1 l) (for_each f2 l).
Proof.
  induction l as [|x l IH]; intros H; [done|]. cbn [for_each].
  pose proof (H x ltac:(left)) as Hx.
  destruct (f1 x), (f2 x); cbn in *; try done.
  assert (IH' := IH (fun y Hy => H y ltac:(by right))).
  by destruct (for_each f1 l), (for_each f2 l).
Qed.

Lemma reduce_groups_alike {K} (reduce : string -> list number -> list (K * cell))
    (df1 df2 : DataFrame) (selected_columns : list string) :
  same_shape df1 df2 ->
  outcome_rel (fun g1 g2 => g_columns g1 = g_columns g2)
    (reduce_groups reduce df1 selected_columns)
    (reduce_groups reduce df2 selected_columns).
Proof.
  intros Hshape. unfold reduce_groups, select_columns, missing_columns.
  rewrite <- (group_keys_alike _ _ Hshape). destruct Hshape as [Hcols Hrows].
  rewrite <- Hcols.
  destruct (filter _ selected_columns); cbn; [|done].
  pose proof (for_each_alike
    (fun k => cells ← for_each (fun col =>
         xs ← values col (group_rows df1 k); mret (reduce col xs))
       selected_columns;
       mret (k, mjoin (cells : list (list (K * cell)))))
    (fun k => cells ← for_each (fun col =>
         xs ← values col (group_rows df2 k); mret (reduce col xs))
       selected_columns;
       mret (k, mjoin (cells : list (list (K * cell)))))
    (group_keys df1)) as H.
  cbn beta in H.
  destruct (for_each _ (group_keys df1)), (for_each _ (group_keys df1));
    cbn in *; try done; apply H; clear H; intros k _.
  all: pose proof (for_each_alike
    (fun col => xs ← values col (group_rows df1 k); mret (reduce col xs))
    (fun col => xs ← values col (group_rows df2 k); mret (reduce col xs))
    selected_columns) as H'.
  all: destruct (for_each _ selected_columns), (for_each _ selected_columns);
    cbn in *; try done; apply H'; intros col _.
  all: pose proof (values_alike col _ _
                     (group_rows_alike df1 df2 k (conj Hcols Hrows))) as Hv.
  all: by destruct (values col (group_rows df1 k)),
            (values col (group_rows df2 k)).
Qed.

Lemma reset_index_alike (g1 g2 : Grouped string) :
  g_columns g1 = g_columns g2 ->
  outcome_rel (fun a1 a2 => columns a1 = columns a2)
    (reset_index g1) (reset_index g2).
Proof.
  intros Hg. unfold reset_index. rewrite <- Hg.
  case_decide; cbn; [done|]. by rewrite Hg.
Qed.

Lemma average_table_alike (df1 df2 : DataFrame)
    (selected_columns : list string) :
  same_shape df1 df2 ->
  outcome_rel (fun a1 a2 => columns a1 = columns a2)
    (average_table df1 selected_columns)
    (average_table df2 selected_columns).
Proof.
  intros Hshape. unfold average_table, groupby_mean.
  pose proof (reduce_groups_alike (fun col xs => [(col, mean xs)])
                df1 df2 selected_columns Hshape) as H.
  destruct (reduce_groups _ df1 _), (reduce_groups _ df2 _); cbn in *;
    try done.
  by apply reset_index_alike.
Qed.

Lemma groupby_agg_alike (df1 df2 : DataFrame)
    (selected_columns : list string) :
  same_shape df1 df2 ->
  outcome_rel (fun g1 g2 => g_columns g1 = g_columns g2)
    (groupby_agg df1 selected_columns) (groupby_agg df2 selected_columns).
Proof.
  intros Hshape. unfold groupby_agg.
  pose proof (reduce_groups_alike
                (fun col xs => (fun sf : string * (list number -> cell) =>
                                  ((col, sf.1), sf.2 xs)) <$> agg_functions)
                df1 df2 selected_columns Hshape) as H.
  destruct (reduce_groups _ df1 _), (reduce_groups _ df2 _); cbn in *;
    try done.
  by destruct selected_columns.
Qed.

Lemma plot_column_alike (avg1 avg2 df1 df2 : DataFrame) (col : string) :
  columns avg1 = columns avg2 ->
  outcome_rel (@any (list figure_item) (list figure_item))
    (plot_column avg1 df1 false 0 col) (plot_column avg2 df2 false 0 col).
Proof.
  intros Hcols. unfold plot_column, column_values. rewrite <- Hcols.
  repeat case_decide; by cbn.
Qed.

Lemma test_disk_write_speed_any_folder (e : env) (path : string)
    (w1 w2 : world) :
  related (fun _ _ => True) eq (test_disk_write_speed e path w1)
    (test_disk_write_speed e path w2).
Proof.
  destruct (write_fault e) as [k|] eqn:Hk.
  - destruct (decide (k < 100)%nat) as [Hlt|Hge].
    + by rewrite !(test_disk_write_speed_fault e path _ k).
    + rewrite !test_disk_write_speed_completes
        by (intros k' Hk'; rewrite Hk in Hk'; injection Hk' as <-; lia).
      split; [done|]. by destruct (Qeq_bool _ _).
  - rewrite !test_disk_write_speed_completes
      by (intros k' Hk'; rewrite Hk in Hk'; discriminate Hk').
    split; [done|]. by destruct (Qeq_bool _ _).
Qed.

Lemma interval_runs_related (e : env) (dirs : folders)
    (selected_columns : list string) (t1 t2 : Z) (use_parallel : bool)
    (timestamp : string) (w1 w2 : world) :
  related (fun _ _ => True) (@any unit unit)
    (reindex_and_analyze e dirs selected_columns t1 use_parallel timestamp w1)
    (reindex_and_analyze e dirs selected_columns t2 use_parallel timestamp w2).
Proof.
  unfold reindex_and_analyze.
  pose proof (read_all_same_shape t1 t2 (sorted (glob (in_listing dirs))))
    as Hshape.
  set (df1 := concat (read_all t1 _)) in *.
  set (df2 := concat (read_all t2 _)) in *.
  destruct (in_is_dir dirs); cbn [negb]; [|by rel_prim_with done].
  destruct (out_is_dir dirs); cbn [negb]; [|by rel_prim_with done].
  case_decide; [by rel_prim_with done|].
  rel_step_with done.
  eapply related_bind; [apply test_disk_write_speed_any_folder|].
  cbn beta. intros disk_speed ? u1 u2 <- _.
  do 8 rel_step_with done.
  eapply related_bind;
    [apply related_lift; [by apply average_table_alike|done]|].
  cbn beta. intros avg1 avg2 ? ? Havg _.
  do 2 rel_step_with done.
  replace (missing_columns df2 selected_columns)
    with (missing_columns df1 selected_columns)
    by (unfold missing_columns; by rewrite (proj1 Hshape)).
  case_match; [by rel_prim_with done|].
  eapply related_bind;
    [apply related_lift; [by apply groupby_agg_alike|done]|].
  cbn beta. intros g1 g2 ? ? Hg _.
  eapply related_bind;
    [apply related_lift;
     [apply reset_index_alike; cbn; by rewrite Hg|done]|].
  cbn beta. intros stats1 stats2 ? ? _ _.
  do 2 rel_step_with done.
  eapply related_bind;
    [apply related_lift; [by apply groupby_agg_alike|done]|].
  cbn beta. intros ? ? ? ? _ _.
  do 3 rel_step_with done.
  eapply related_bind;
    [apply related_lift; [by apply average_table_alike|done]|].
  cbn beta. intros avg1' avg2' ? ? Havg' _.
  eapply related_bind; [|intros; by rel_prim_with done].
  unfold plot_lines_with_options.
  eapply related_bind;
    [apply related_lift; [|done]
    |intros; by rel_prim_with done].
  apply for_each_alike. intros col _. by apply plot_column_alike.
Qed.

(** C9, as the code has it: the interval is not validated.  With any two
    integer intervals whose stamped times fit a signed 64-bit integer, as
    the TimeSec column holds them, a run ends the same way (it returns, or
    raises the same exception), so no interval is rejected for being zero or
    negative; and the file at sorted position i (1-based) gets
    TimeSec = (i-1) * interval and TimeMin = TimeSec / 60. *)
Theorem interval_is_not_validated (e : env) (dirs : folders)
    (selected_columns : list string) (use_parallel : bool)
    (timestamp : string) (w : world) (t1 t2 : Z) :
  times_fit dirs t1 -> times_fit dirs t2 ->
  (reindex_and_analyze e dirs selected_columns t1 use_parallel timestamp w).2
  = (reindex_and_analyze e dirs selected_columns t2 use_parallel timestamp w).2
  /\
  forall (i : nat) (csv : csv_file) (r : row),
    sorted (glob (in_listing dirs)) !! i = Some csv ->
    r ∈ rows (read_frame t1 (Z.of_nat (S i)) csv) ->
    read_all t1 (sorted (glob (in_listing dirs))) !! i
      = Some (read_frame t1 (Z.of_nat (S i)) csv) /\
    get "TimeSec" r = Int (Z.of_nat i * t1) /\
    get "TimeMin" r = Num (inject_Z (Z.of_nat i * t1) / 60).
Proof.
  intros _ _. split.
  - apply outcome_rel_any_unit. apply interval_runs_related.
  - intros i csv r Hi Hr. split; [by rewrite read_all_lookup, Hi|].
    apply read_frame_rows in Hr as (_ & Hsec & Hmin & _).
    by replace (Z.of_nat (S i) - 1) with (Z.of_nat i) in * by lia.
Qed.

(** C9, as stated, fails: with the interval -5 the sample run completes,
    and the second file is stamped with TimeSec = -5. *)
Lemma negative_interval_accepted :
  (reindex_and_analyze sample_env sample_folders sample_selected (-5) false
     "ts" empty_world).2 = Returned tt /\
  (fun r => get "TimeSec" r)
    <$> rows (concat (read_all (-5) (sorted (glob sample_listing))))
  = [Int 0; Int 0; Int 0; Int (-5); Int (-5)].
Proof. vm_compute. done. Qed.

Lemma sample_times_fit (time_interval : Z) :
  - 2 ^ 62 <= time_interval <= 2 ^ 62 ->
  times_fit sample_folders time_interval.
Proof.
  intros Ht i Hi.
  assert (Hlen : length (glob (in_listing sample_folders)) = 2%nat)
    by (vm_compute; reflexivity).
  rewrite Hlen in Hi. change (2 ^ 63) with (2 * 2 ^ 62).
  assert (0 <= Z.of_nat i <= 1) by lia. nia.
Qed.

Lemma interval_is_not_validated_witness :
  (reindex_and_analyze sample_env sample_folders sample_selected 0 false
     "ts" empty_world).2 = Returned tt.
Proof.
  destruct (interval_is_not_validated sample_env sample_folders
              sample_selected false "ts" empty_world 0 5) as [-> _].
  - apply sample_times_fit. vm_compute. split; discriminate.
  - apply sample_times_fit. vm_compute. split; discriminate.
  - vm_compute. reflexivity.
Defined.


(** ** The check of the selected columns is never the one that fails *)

Lemma raises_only_bind {A B} (P : exn -> Prop) (o : outcome A)
    (k : A -> outcome B) :
  raises_only P o -> (forall a, raises_only P (k a)) ->
  raises_only P (o ≫= k).
Proof.
  intros Ho Hk e. destruct o as [a|e']; cbn; [apply Hk|].
  intros [= <-]. by apply Ho.
Qed.

Lemma raises_only_Returned {A} (P : exn -> Prop) (a : A) :
  raises_only P (Returned a).
Proof. by intros e. Qed.

Lemma raises_only_for_each {A B} (P : exn -> Prop) (f : A -> outcome B)
    (l : list A) :
  (forall x, raises_only P (f x)) -> raises_only P (for_each f l).
Proof.
  intros Hf. induction l as [|x l IH]; cbn [for_each].
  - apply raises_only_Returned.
  - apply raises_only_bind; [apply Hf|]. intros y.
    apply raises_only_bind; [apply IH|]. intros ys.
    apply raises_only_Returned.
Qed.

Lemma raises_only_values (col : string) (rs : list row) :
  raises_only pandas_error (values col rs).
Proof.
  induction rs as [|r rs IH]; cbn [values]; [apply raises_only_Returned|].
  destruct (get col r); try done;
    try (apply raises_only_bind; [done|]; intros; apply raises_only_Returned);
    by intros e [= <-].
Qed.

Lemma raises_only_reduce_groups {K}
    (reduce : string -> list number -> list (K * cell)) (df : DataFrame)
    (selected_columns : list string) :
  raises_only pandas_error (reduce_groups reduce df selected_columns).
Proof.
  unfold reduce_groups. apply raises_only_bind.
  { unfold select_columns. destruct (missing_columns _ _); [done|].
    by intros e [= <-]. }
  intros _. apply raises_only_bind; [|intros; apply raises_only_Returned].
  apply raises_only_for_each. intros k.
  apply raises_only_bind; [|intros; apply raises_only_Returned].
  apply raises_only_for_each. intros col.
  apply raises_only_bind; [apply raises_only_values|].
  intros. apply raises_only_Returned.
Qed.

Lemma raises_only_reset_index (g : Grouped string) :
  raises_only pandas_error (reset_index g).
Proof.
  unfold reset_index. case_decide; [|done]. intros e [= <-]. by left.
Qed.

Lemma raises_only_groupby_agg (df : DataFrame)
    (selected_columns : list string) :
  raises_only pandas_error (groupby_agg df selected_columns).
Proof.
  unfold groupby_agg. apply raises_only_bind.
  - apply raises_only_reduce_groups.
  - intros g. destruct selected_columns; [|done]. intros e [= <-]. by right.
Qed.

Lemma raises_only_average_table (df : DataFrame)
    (selected_columns : list string) :
  raises_only pandas_error (average_table df selected_columns).
Proof.
  unfold average_table. apply raises_only_bind.
  - apply raises_only_reduce_groups.
  - intros g. apply raises_only_reset_index.
Qed.

(** With both options off, as the run calls it. *)
Lemma raises_only_plot_column (df df_all : DataFrame) (col : string) :
  raises_only pandas_error (plot_column df df_all false 0 col).
Proof.
  assert (Hcv : forall c, raises_only pandas_error (column_values df c)).
  { intros c. unfold column_values. case_decide; [done|]. by intros e [= <-]. }
  unfold plot_column.
  apply raises_only_bind; [apply Hcv|]. intros x_vals.
  apply raises_only_bind; [apply Hcv|]. intros y_vals.
  apply raises_only_bind; [apply raises_only_Returned|]. intros bars.
  apply raises_only_bind; [apply raises_only_Returned|]. intros fit.
  apply raises_only_Returned.
Qed.

Lemma bind_Raised {A B} (m : M A) (k : A -> M B) (w w' : world) (e : exn) :
  (m ≫= k) w = (w', Raised e) ->
  m w = (w', Raised e) \/
  exists a w1, m w = (w1, Returned a) /\ k a w1 = (w', Raised e).
Proof.
  rewrite run_bind. destruct (m w) as [w1 [a|e']]; [by eauto|].
  intros [= <- <-]. by left.
Qed.

Lemma prints_only_not_Raised {A} (m : M A) (a : A) (w w' : world) (e : exn) :
  prints_only m a -> m w <> (w', Raised e).
Proof. intros Hm H. destruct (Hm w) as [c Hc]. congruence. Qed.

Lemma test_disk_write_speed_Raised (e : env) (path : string) (w w' : world)
    (ex : exn) :
  test_disk_write_speed e path w = (w', Raised ex) ->
  ex = OSError \/ ex = ZeroDivisionError.
Proof.
  destruct (write_fault e) as [k|] eqn:Hk.
  - destruct (decide (k < 100)%nat) as [Hlt|Hge].
    + rewrite (test_disk_write_speed_fault e path _ k) by done.
      intros [= _ <-]. by left.
    + rewrite test_disk_write_speed_completes
        by (intros k' Hk'; rewrite Hk in Hk'; injection Hk' as <-; lia).
      destruct (Qeq_bool _ _); intros [= _ <-]. by right.
  - rewrite test_disk_write_speed_completes
      by (intros k' Hk'; rewrite Hk in Hk'; discriminate Hk').
    destruct (Qeq_bool _ _); intros [= _ <-]. by right.
Qed.

Lemma pandas_error_not_the_check {A} (o : outcome A) (names : list string) :
  raises_only pandas_error o ->
  o <> Raised (ValueError "Some selected columns not found" names).
Proof. intros Ho H. apply Ho in H. by destruct H. Qed.

(** The first statement cannot have raised the exception of the check. *)
Ltac not_here H :=
  exfalso;
  lazymatch type of H with
  | lift _ _ = _ =>
      cbv [lift] in H; injection H as _ H; revert H;
      apply pandas_error_not_the_check;
      first [ apply raises_only_average_table
            | apply raises_only_groupby_agg
            | apply raises_only_reset_index
            | apply raises_only_for_each; intros ?;
              apply raises_only_plot_column ]
  | create _ _ _ = _ => discriminate H
  | append_lines _ _ _ = _ => discriminate H
  | ?m _ = _ =>
      revert H; eapply prints_only_not_Raised; solve [eauto with prints]
  end.

Ltac inv_raise H :=
  let Hm := fresh "Hm" in
  apply bind_Raised in H as [H | (? & ? & Hm & H)]; [by not_here H|];
  lazymatch type of Hm with
  | lift _ _ = _ => cbv [lift] in Hm; injection Hm as _ Hm
  | _ => clear Hm
  end.

(** Whatever the run, the exception it ends with is never the ValueError of
    the check of the selected columns (lines 224-226): with a column missing
    the mean written to the raw file has raised before, and without one the
    check passes. *)
Lemma check_of_selected_columns_never_raises (e : env) (dirs : folders)
    (selected_columns : list string) (time_interval : Z)
    (use_parallel : bool) (timestamp : string) (w : world)
    (names : list string) :
  (reindex_and_analyze e dirs selected_columns time_interval use_parallel
     timestamp w).2
  <> Raised (ValueError "Some selected columns not found" names).
Proof.
  destruct (reindex_and_analyze _ _ _ _ _ _ w) as [w' o] eqn:E.
  cbn [snd]. intros ->. revert E. unfold reindex_and_analyze.
  destruct (in_is_dir dirs); cbn [negb]; [|done].
  destruct (out_is_dir dirs); cbn [negb]; [|done].
  case_decide; [done|]. intros E.
  inv_raise E.
  apply bind_Raised in E as [E | (disk_speed & w1 & _ & E)].
  { by apply test_disk_write_speed_Raised in E as [|]. }
  do 11 inv_raise E.
  case_bool_decide as Hmissing; cbn [negb] in E.
  2:{ by apply average_table_Returned in Hm as [? _]. }
  do 9 inv_raise E.
  apply bind_Raised in E as [E | (? & ? & _ & E)]; [|done].
  unfold plot_lines_with_options in E. inv_raise E. done.
Qed.


(** * Further properties of the code *)

(** ** How the mean table ends *)

Lemma run_lift {A} (o : outcome A) (w : world) : lift o w = (w, o).
Proof. reflexivity. Qed.

Lemma for_each_returns {A B} (f : A -> outcome B) (l : list A) :
  (forall x, x ∈ l -> exists y, f x = Returned y) ->
  exists ys, for_each f l = Returned ys.
Proof.
  induction l as [|x l IH]; intros H; cbn [for_each]; [by eexists|].
  destruct (H x ltac:(left)) as [y ->].
  destruct IH as [ys ->]; [intros; apply H; by right|].
  by eexists.
Qed.

Lemma for_each_raises {A B} (f : A -> outcome B) (l : list A) :
  (exists x, x ∈ l /\ exists e, f x = Raised e) ->
  exists x e, x ∈ l /\ f x = Raised e /\ for_each f l = Raised e.
Proof.
  induction l as [|x l IH]; intros (x' & Hin & e & He).
  - by apply elem_of_nil in Hin.
  - cbn [for_each]. destruct (f x) as [y|e'] eqn:Hx.
    + apply elem_of_cons in Hin as [->|Hin]; [congruence|].
      destruct IH as (x'' & e'' & Hin'' & Hx'' & ->); [by eauto|].
      exists x'', e''. split_and!; [by right|done|done].
    + exists x, e'. split_and!; [by left|done|done].
Qed.

Lemma values_returns (col : string) (rs : list row) :
  (forall r, r ∈ rs -> cell_kind (get col r) <> Other) ->
  exists xs, values col rs = Returned xs.
Proof.
  induction rs as [|r rs IH]; intros H; cbn [values]; [by eexists|].
  destruct IH as [xs Hxs]; [intros; apply H; by right|].
  pose proof (H r ltac:(left)) as Hr. rewrite Hxs.
  destruct (get col r); cbn in *; try done; by eexists.
Qed.

Lemma values_raises (col : string) (rs : list row) (r : row) :
  r ∈ rs -> cell_kind (get col r) = Other ->
  values col rs = Raised (TypeError col).
Proof.
  induction rs as [|r' rs IH]; intros Hin Hr; [by apply elem_of_nil in Hin|].
  cbn [values]. apply elem_of_cons in Hin as [<-|Hin].
  - by destruct (get col r).
  - rewrite (IH Hin Hr). by destruct (get col r').
Qed.

Lemma elem_of_group_keys (df : DataFrame) (k : Z) :
  k ∈ group_keys df <-> exists r, r ∈ rows df /\ frame_key r = Some k.
Proof.
  unfold group_keys.
  by rewrite merge_sort_Permutation, elem_of_remove_dups, list_elem_of_omap.
Qed.

Lemma elem_of_group_rows (df : DataFrame) (k : Z) (r : row) :
  r ∈ group_rows df k <-> frame_key r = Some k /\ r ∈ rows df.
Proof. unfold group_rows. by rewrite list_elem_of_filter. Qed.

Lemma reduce_groups_returns {K}
    (reduce : string -> list number -> list (K * cell)) (df : DataFrame)
    (selected_columns : list string) :
  missing_columns df selected_columns = [] ->
  text_free df selected_columns ->
  exists g, reduce_groups reduce df selected_columns = Returned g.
Proof.
  intros Hmiss Hfree. unfold reduce_groups, select_columns. rewrite Hmiss.
  cbn.
  destruct (for_each_returns
    (fun k => cells ← for_each (fun col =>
         xs ← values col (group_rows df k); mret (reduce col xs))
       selected_columns;
       mret (k, mjoin (cells : list (list (K * cell)))))
    (group_keys df)) as [index Hindex].
  - intros k Hk.
    destruct (for_each_returns
      (fun col => xs ← values col (group_rows df k); mret (reduce col xs))
      selected_columns) as [cells Hcells].
    + intros col Hcol. destruct (values_returns col (group_rows df k))
        as [xs Hxs].
      * intros r [Hr Hin]%elem_of_group_rows. apply Hfree; [done| |done].
        by rewrite Hr.
      * rewrite Hxs. by eexists.
    + cbn beta. rewrite Hcells. by eexists.
  - cbn beta in Hindex. rewrite Hindex. by eexists.
Qed.

Lemma reduce_groups_raises {K}
    (reduce : string -> list number -> list (K * cell)) (df : DataFrame)
    (selected_columns : list string) (r : row) (c : string) :
  missing_columns df selected_columns = [] ->
  r ∈ rows df -> is_Some (frame_key r) -> c ∈ selected_columns ->
  cell_kind (get c r) = Other ->
  exists c', c' ∈ selected_columns /\
    reduce_groups reduce df selected_columns = Raised (TypeError c').
Proof.
  intros Hmiss Hr [k Hk] Hc Hkind. unfold reduce_groups, select_columns.
  rewrite Hmiss. cbn.
  destruct (for_each_raises
    (fun k => cells ← for_each (fun col =>
         xs ← values col (group_rows df k); mret (reduce col xs))
       selected_columns;
       mret (k, mjoin (cells : list (list (K * cell)))))
    (group_keys df)) as (k' & e & Hk' & Hek' & Hfe).
  - exists k. split; [apply elem_of_group_keys; by eauto|].
    destruct (for_each_raises
      (fun col => xs ← values col (group_rows df k); mret (reduce col xs))
      selected_columns) as (c' & e & _ & _ & Hfc).
    + exists c. split; [done|]. exists (TypeError c).
      rewrite (values_raises c _ r); [done| |done].
      by apply elem_of_group_rows.
    + cbn beta. rewrite Hfc. by eexists.
  - cbn beta in Hfe. rewrite Hfe. cbn.
    cbn beta in Hek'.
    destruct (for_each _ selected_columns) as [?|e'] eqn:Hfc; [done|].
    injection Hek' as ->.
    assert (Hfrom : exists c', c' ∈ selected_columns /\ e = TypeError c').
    { clear -Hfc. revert Hfc. generalize (group_rows df k'). intros rs.
      induction selected_columns as [|c0 cs IH]; cbn [for_each]; [done|].
      destruct (values c0 rs) as [xs|e0] eqn:Hv; cbn.
      - destruct (for_each _ cs) as [?|e1] eqn:Hcs; cbn; [done|].
        intros [= ->]. destruct (IH eq_refl) as (c' & Hc' & ->).
        exists c'. split; [by right|done].
      - intros [= ->]. exists c0. split; [by left|].
        clear -Hv. induction rs as [|r rs IH]; cbn [values] in Hv; [done|].
        destruct (get c0 r); try (by injection Hv as <-);
          try (by apply IH);
          destruct (values c0 rs); cbn in Hv; try done; by apply IH. }
    destruct Hfrom as (c' & Hc' & ->). by exists c'.
Qed.

(** X21: the mean table of the raw file, case by case: a selected column
    that the merged data lacks gives KeyError with all the missing names;
    otherwise text in a selected column gives TypeError on a selected
    column; otherwise selecting the column named Frame gives the ValueError
    of [reset_index]; otherwise the table is built. *)
Theorem mean_table_outcome (df : DataFrame) (selected_columns : list string) :
  (missing_columns df selected_columns <> [] ->
     average_table df selected_columns
     = Raised (KeyError (missing_columns df selected_columns))) /\
  (missing_columns df selected_columns = [] ->
     (exists r c, r ∈ rows df /\ is_Some (frame_key r) /\
                  c ∈ selected_columns /\ cell_kind (get c r) = Other) ->
     exists c', c' ∈ selected_columns /\
       average_table df selected_columns = Raised (TypeError c')) /\
  (missing_columns df selected_columns = [] ->
     text_free df selected_columns -> "Frame" ∈ selected_columns ->
     average_table df selected_columns
     = Raised (ValueError "cannot insert Frame, already exists" ["Frame"])) /\
  (missing_columns df selected_columns = [] ->
     text_free df selected_columns -> "Frame" ∉ selected_columns ->
     exists average_data,
       average_table df selected_columns = Returned average_data).
Proof.
  split_and!.
  - apply average_table_missing.
  - intros Hmiss (r & c & Hr & Hk & Hc & Hkind).
    destruct (reduce_groups_raises (fun col xs => [(col, mean xs)])
                df selected_columns r c Hmiss Hr Hk Hc Hkind)
      as (c' & Hc' & Hraise).
    exists c'. split; [done|]. unfold average_table, groupby_mean.
    by rewrite Hraise.
  - intros Hmiss Hfree HFrame.
    destruct (reduce_groups_returns (fun col xs => [(col, mean xs)])
                df selected_columns Hmiss Hfree) as [g Hg].
    unfold average_table, groupby_mean. rewrite Hg. cbn.
    apply reduce_groups_Returned in Hg as (_ & Hcols & _).
    cbn in Hcols. rewrite join_singletons in Hcols.
    unfold reset_index. rewrite Hcols. by rewrite decide_True.
  - intros Hmiss Hfree HFrame.
    destruct (reduce_groups_returns (fun col xs => [(col, mean xs)])
                df selected_columns Hmiss Hfree) as [g Hg].
    unfold average_table, groupby_mean. rewrite Hg. cbn.
    apply reduce_groups_Returned in Hg as (_ & Hcols & _).
    cbn in Hcols. rewrite join_singletons in Hcols.
    unfold reset_index. rewrite Hcols. rewrite decide_False by done.
    by eexists.
Qed.

Lemma text_free_b_sound (df : DataFrame) (selected_columns : list string) :
  text_free_b df selected_columns = true -> text_free df selected_columns.
Proof.
  unfold text_free_b, text_free. rewrite forallb_forall.
  intros H r c Hr _ Hc Hkind.
  apply list_elem_of_In in Hr. apply H in Hr.
  rewrite forallb_forall in Hr. apply list_elem_of_In in Hc.
  apply Hr in Hc. by rewrite Hkind in Hc.
Qed.

Lemma mean_table_outcome_witness :
  average_table sample_df_all ["Frame"; "Diameter"]
  = Raised (ValueError "cannot insert Frame, already exists" ["Frame"]).
Proof.
  apply (mean_table_outcome sample_df_all ["Frame"; "Diameter"]).
  - vm_compute. reflexivity.
  - apply text_free_b_sound. vm_compute. reflexivity.
  - by left.
Defined.

(** ** How a run ends *)

Lemma reduce_groups_any_reduce {K1 K2}
    (reduce1 : string -> list number -> list (K1 * cell))
    (reduce2 : string -> list number -> list (K2 * cell)) (df : DataFrame)
    (selected_columns : list string) (g1 : Grouped K1) :
  reduce_groups reduce1 df selected_columns = Returned g1 ->
  exists g2, reduce_groups reduce2 df selected_columns = Returned g2.
Proof.
  intros Hg1. apply reduce_groups_Returned in Hg1 as (Hmiss & _ & Hindex).
  unfold reduce_groups, select_columns. rewrite Hmiss. cbn.
  destruct (for_each_returns
    (fun k => cells ← for_each (fun col =>
         xs ← values col (group_rows df k); mret (reduce2 col xs))
       selected_columns;
       mret (k, mjoin (cells : list (list (K2 * cell)))))
    (group_keys df)) as [index Hfe].
  - intros k [i Hi]%list_elem_of_lookup.
    destruct (Forall2_lookup_l _ _ _ _ _ Hindex Hi)
      as (kr & _ & _ & per_column & Hall & _).
    destruct (for_each_returns
      (fun col => xs ← values col (group_rows df k); mret (reduce2 col xs))
      selected_columns) as [cells Hcells].
    + intros col [j Hj]%list_elem_of_lookup.
      destruct (Forall2_lookup_l _ _ _ _ _ Hall Hj) as (cs & _ & xs & -> & _).
      by eexists.
    + cbn beta. rewrite Hcells. by eexists.
  - cbn beta in Hfe. rewrite Hfe. by eexists.
Qed.

(** Over no column the aggregation raises, once the mean table is built. *)
Lemma groupby_agg_nil (df : DataFrame) (average_data : DataFrame) :
  average_table df [] = Returned average_data ->
  groupby_agg df [] = Raised (ValueError "No objects to concatenate" []).
Proof.
  unfold average_table, groupby_mean.
  destruct (reduce_groups _ df []) as [g|] eqn:Hg; [|done]. intros _.
  destruct (reduce_groups_any_reduce _
              (fun col xs => (fun sf : string * (list number -> cell) =>
                                ((col, sf.1), sf.2 xs)) <$> agg_functions)
              _ _ _ Hg) as [g2 Hg2].
  unfold groupby_agg. by rewrite Hg2.
Qed.

Lemma stats_table_of_mean_table (df : DataFrame)
    (selected_columns : list string) (average_data : DataFrame) :
  selected_columns <> [] ->
  average_table df selected_columns = Returned average_data ->
  exists grouped_stats stats,
    groupby_agg df selected_columns = Returned grouped_stats /\
    reset_index (flatten grouped_stats) = Returned stats.
Proof.
  intros Hsel. unfold average_table, groupby_mean.
  destruct (reduce_groups _ df selected_columns) as [g|] eqn:Hg; [|done].
  intros _.
  destruct (reduce_groups_any_reduce _
              (fun col xs => (fun sf : string * (list number -> cell) =>
                                ((col, sf.1), sf.2 xs)) <$> agg_functions)
              _ _ _ Hg) as [g2 Hg2].
  exists g2. unfold groupby_agg. rewrite Hg2. cbn [mbind outcome_bind].
  assert (match selected_columns with
          | [] => Raised (ValueError "No objects to concatenate" [])
          | _ => Returned g2
          end = Returned g2) as -> by (by destruct selected_columns).
  apply reduce_groups_Returned in Hg2 as (_ & Hcols & _).
  unfold reset_index. rewrite decide_False; [by eexists|].
  cbn [flatten g_columns]. rewrite Hcols.
  intros (l & HF & (cs & Hl & (c & -> & _)%list_elem_of_fmap)%list_elem_of_join)
    %list_elem_of_fmap.
  apply list_elem_of_fmap in Hl as ([l' v] & -> & Hin).
  apply list_elem_of_fmap in Hin as ([s f] & [= -> ->] & Hsf).
  symmetry in HF. revert HF. apply flat_name_not_Frame.
  apply list_elem_of_fmap. by exists (s, f).
Qed.

Lemma plot_of_mean_table (df_all : DataFrame)
    (selected_columns : list string) (average_data : DataFrame) :
  columns average_data = "Frame" :: selected_columns ->
  for_each (plot_column average_data df_all false 0) selected_columns
  = Returned ((fun col =>
                 [Line col ((fun r => get "Frame" r) <$> rows average_data)
                    ((fun r => get col r) <$> rows average_data)])
              <$> selected_columns).
Proof.
  intros Hcols.
  assert (H : forall col, col ∈ selected_columns ->
            plot_column average_data df_all false 0 col
            = Returned [Line col
                          ((fun r => get "Frame" r) <$> rows average_data)
                          ((fun r => get col r) <$> rows average_data)]).
  { intros col Hcol. unfold plot_column, column_values. rewrite Hcols.
    rewrite !decide_True by (rewrite elem_of_cons; auto). done. }
  induction selected_columns as [|c cs IH] in H |- *; [done|].
  cbn [for_each]. rewrite (H c) by (by left). cbn.
  rewrite IH by (intros; apply H; by right). done.
Qed.

Lemma sorted_nil (paths : list csv_file) : sorted paths = [] <-> paths = [].
Proof.
  unfold sorted. split.
  - intros H. apply Permutation_nil_r. rewrite <- H.
    symmetry. apply merge_sort_Permutation.
  - by intros ->.
Qed.

(** Run a [lift] whose outcome is known. *)
Ltac fwd_lift H :=
  rewrite run_bind, run_lift; rewrite ?H; cbn [out_dir console].

(** How a run ends once the folders have passed the checks and the
    benchmark has measured a throughput: as the mean table written to the raw
    file does, but for an empty selection, over which the aggregation
    raises. *)
Lemma run_after_benchmark (e : env) (dirs : folders)
    (selected_columns : list string) (time_interval : Z)
    (use_parallel : bool) (timestamp : string) (w : world) :
  folders_ok dirs -> benchmark_ok e ->
  (reindex_and_analyze e dirs selected_columns time_interval use_parallel
     timestamp w).2
  = match average_table (merged dirs time_interval) selected_columns with
    | Returned _ =>
        match selected_columns with
        | [] => Raised (ValueError "No objects to concatenate" [])
        | _ => Returned tt
        end
    | Raised ex => Raised ex
    end.
Proof.
  intros (Hin & Hout & Hfiles) [Hw Ht]. unfold merged, reindex_and_analyze.
  rewrite Hin, Hout. cbn [negb].
  rewrite decide_False by (by rewrite sorted_nil).
  fwd. rewrite run_bind, test_disk_write_speed_completes, Ht by done.
  do 8 fwd.
  destruct (average_table _ selected_columns) as [average_data|ex] eqn:Havg.
  2:{ by rewrite run_bind, run_lift. }
  rewrite run_bind, run_lift. cbn [out_dir console].
  pose proof (average_table_Returned _ _ _ Havg) as (Hmiss & _ & Hcols & _).
  do 2 fwd. rewrite Hmiss, bool_decide_eq_true_2 by done. cbn [negb].
  destruct (decide (selected_columns = [])) as [->|Hsel].
  { rewrite run_bind, run_lift. by rewrite (groupby_agg_nil _ _ Havg). }
  destruct (stats_table_of_mean_table _ _ _ Hsel Havg)
    as (grouped_stats & stats & Hagg & Hstats).
  fwd_lift Hagg. fwd_lift Hstats. do 2 fwd. fwd_lift Hagg. do 3 fwd.
  rewrite run_bind, run_lift. cbn [out_dir console].
  rewrite run_bind. unfold plot_lines_with_options.
  rewrite run_bind, run_lift, (plot_of_mean_table _ _ _ Hcols).
  by destruct selected_columns.
Qed.

Lemma run_benchmark_fault (e : env) (dirs : folders)
    (selected_columns : list string) (time_interval : Z)
    (use_parallel : bool) (timestamp : string) (w : world) (k : nat) :
  folders_ok dirs -> write_fault e = Some k -> (k < 100)%nat ->
  exists c,
    reindex_and_analyze e dirs selected_columns time_interval use_parallel
      timestamp w
    = ({| out_dir := <["disk_test.tmp" := Scratch k]> (out_dir w);
          console := c |}, Raised OSError).
Proof.
  intros (Hin & Hout & Hfiles) Hk Hlt. unfold reindex_and_analyze.
  rewrite Hin, Hout. cbn [negb].
  rewrite decide_False by (by rewrite sorted_nil).
  fwd. rewrite run_bind, (test_disk_write_speed_fault _ _ _ k) by done.
  by eexists.
Qed.

Lemma run_benchmark_zero (e : env) (dirs : folders)
    (selected_columns : list string) (time_interval : Z)
    (use_parallel : bool) (timestamp : string) (w : world) :
  folders_ok dirs ->
  (forall k, write_fault e = Some k -> (100 <= k)%nat) ->
  Qeq_bool (t_end e - t_start e) 0 = true ->
  exists c,
    reindex_and_analyze e dirs selected_columns time_interval use_parallel
      timestamp w
    = ({| out_dir := delete "disk_test.tmp" (out_dir w); console := c |},
       Raised ZeroDivisionError).
Proof.
  intros (Hin & Hout & Hfiles) Hw Ht. unfold reindex_and_analyze.
  rewrite Hin, Hout. cbn [negb].
  rewrite decide_False by (by rewrite sorted_nil).
  fwd. rewrite run_bind, test_disk_write_speed_completes, Ht by done.
  by eexists.
Qed.

Lemma run_folders_not_ok (e : env) (dirs : folders)
    (selected_columns : list string) (time_interval : Z)
    (use_parallel : bool) (timestamp : string) (w : world) :
  in_is_dir dirs = false \/ out_is_dir dirs = false \/
  glob (in_listing dirs) = [] ->
  exists msg,
    reindex_and_analyze e dirs selected_columns time_interval use_parallel
      timestamp w = (w, Raised (FileNotFoundError msg)).
Proof.
  intros H. unfold reindex_and_analyze.
  destruct (in_is_dir dirs); cbn [negb]; [|by eexists].
  destruct (out_is_dir dirs); cbn [negb]; [|by eexists].
  destruct H as [|[|H]]; [done..|].
  rewrite decide_True by (by rewrite sorted_nil). by eexists.
Qed.

(** How the benchmark of an environment ends. *)
Lemma benchmark_cases (e : env) :
  (exists k, write_fault e = Some k /\ (k < 100)%nat) \/
  ((forall k, write_fault e = Some k -> (100 <= k)%nat) /\
   Qeq_bool (t_end e - t_start e) 0 = true) \/
  benchmark_ok e.
Proof.
  unfold benchmark_ok. destruct (write_fault e) as [k|] eqn:Hk.
  - destruct (decide (k < 100)%nat); [left; by eauto|].
    assert (forall k', Some k = Some k' -> (100 <= k')%nat)
      by (intros ? [= <-]; lia).
    destruct (Qeq_bool _ _); auto.
  - destruct (Qeq_bool _ _); [right; left|right; right]; by split.
Qed.

Lemma folders_cases (dirs : folders) :
  folders_ok dirs \/
  (in_is_dir dirs = false \/ out_is_dir dirs = false \/
   glob (in_listing dirs) = []).
Proof.
  unfold folders_ok.
  destruct (in_is_dir dirs); [|by auto].
  destruct (out_is_dir dirs); [|by auto].
  destruct (glob (in_listing dirs)); [by auto|]. left. by split_and!.
Qed.

Lemma sample_folders_ok : folders_ok sample_folders.
Proof. split_and!; [reflexivity..|]. vm_compute. discriminate. Defined.

Lemma average_table_returns_iff (df : DataFrame)
    (selected_columns : list string) :
  (exists average_data,
     average_table df selected_columns = Returned average_data) <->
  missing_columns df selected_columns = [] /\
  text_free df selected_columns /\ "Frame" ∉ selected_columns.
Proof.
  split.
  - intros [avg Havg].
    pose proof (average_table_Returned _ _ _ Havg) as (Hmiss & HFrame & _).
    split_and!; [done| |done].
    intros r c Hr Hk Hc Hkind.
    destruct (reduce_groups_raises (fun col xs => [(col, mean xs)])
                df selected_columns r c Hmiss Hr Hk Hc Hkind)
      as (c' & _ & Hraise).
    unfold average_table, groupby_mean in Havg. by rewrite Hraise in Havg.
  - intros (Hmiss & Hfree & HFrame).
    destruct (reduce_groups_returns (fun col xs => [(col, mean xs)])
                df selected_columns Hmiss Hfree) as [g Hg].
    unfold average_table, groupby_mean. rewrite Hg. cbn.
    apply reduce_groups_Returned in Hg as (_ & Hcols & _).
    cbn in Hcols. rewrite join_singletons in Hcols.
    unfold reset_index. rewrite Hcols, decide_False by done. by eexists.
Qed.

(** What a run that returns has passed. *)
Lemma run_returned_passed (e : env) (dirs : folders)
    (selected_columns : list string) (time_interval : Z)
    (use_parallel : bool) (timestamp : string) (w : world) :
  (reindex_and_analyze e dirs selected_columns time_interval use_parallel
     timestamp w).2 = Returned tt ->
  folders_ok dirs /\ benchmark_ok e /\ selected_columns <> [] /\
  exists average_data,
    average_table (merged dirs time_interval) selected_columns
    = Returned average_data.
Proof.
  intros Hrun.
  destruct (folders_cases dirs) as [Hdirs|Hbad].
  2:{ destruct (run_folders_not_ok e dirs selected_columns time_interval
                  use_parallel timestamp w Hbad) as [msg Hmsg].
      by rewrite Hmsg in Hrun. }
  destruct (benchmark_cases e) as [(k & Hk & Hlt)|[[Hw Ht]|Hbench]].
  - destruct (run_benchmark_fault e dirs selected_columns time_interval
                use_parallel timestamp w k Hdirs Hk Hlt) as [c Hc].
    by rewrite Hc in Hrun.
  - destruct (run_benchmark_zero e dirs selected_columns time_interval
                use_parallel timestamp w Hdirs Hw Ht) as [c Hc].
    by rewrite Hc in Hrun.
  - rewrite run_after_benchmark in Hrun by done.
    destruct (average_table _ _) as [average_data|]; [|done].
    split_and!; [done..| |by eexists]. by intros ->.
Qed.

(** X1: when the input folder is no directory, or the output folder is
    none, or no file of the input folder matches, the run raises
    FileNotFoundError at once: it has printed nothing and touched no file. *)
Theorem failed_folder_check_stops_the_run (e : env) (dirs : folders)
    (selected_columns : list string) (time_interval : Z)
    (use_parallel : bool) (timestamp : string) (w : world) :
  in_is_dir dirs = false \/ out_is_dir dirs = false \/
  glob (in_listing dirs) = [] ->
  let r := reindex_and_analyze e dirs selected_columns time_interval
             use_parallel timestamp w in
  r.1 = w /\ exists msg, r.2 = Raised (FileNotFoundError msg).
Proof.
  intros Hbad. cbn zeta.
  destruct (run_folders_not_ok e dirs selected_columns time_interval
              use_parallel timestamp w Hbad) as [msg ->].
  split; [done|]. by exists msg.
Qed.

Lemma failed_folder_check_stops_the_run_witness :
  let dirs := {| in_is_dir := true; in_name := "R2";
                 in_listing := [sample_notes]; out_is_dir := true |} in
  (reindex_and_analyze sample_env dirs sample_selected 5 false "ts"
     empty_world).1 = empty_world.
Proof.
  intros dirs.
  apply (failed_folder_check_stops_the_run sample_env dirs sample_selected 5
           false "ts" empty_world).
  right. right. vm_compute. reflexivity.
Defined.

(** X2: for an input folder whose matched entries can be read, an output
    folder that takes the writes and an interval whose stamped times fit a
    signed 64-bit integer: once the folders have passed the checks and the
    benchmark has measured a throughput, the run ends as the mean table
    written to the raw file does.  It raises the table's exception when the
    table cannot be built; when it is built, the run returns if a column is
    selected, and over an empty selection the aggregation that follows
    raises ValueError. *)
Theorem run_ends_as_mean_table (e : env) (dirs : folders)
    (selected_columns : list string) (time_interval : Z)
    (use_parallel : bool) (timestamp : string) (w : world) :
  folders_ok dirs -> benchmark_ok e -> times_fit dirs time_interval ->
  (reindex_and_analyze e dirs selected_columns time_interval use_parallel
     timestamp w).2
  = match average_table (merged dirs time_interval) selected_columns with
    | Returned _ =>
        match selected_columns with
        | [] => Raised (ValueError "No objects to concatenate" [])
        | _ => Returned tt
        end
    | Raised ex => Raised ex
    end.
Proof. intros Hdirs Hbench _. by apply run_after_benchmark. Qed.

Lemma run_ends_as_mean_table_witness :
  (reindex_and_analyze sample_env sample_folders [] 5 false "ts"
     empty_world).2
  = Raised (ValueError "No objects to concatenate" []).
Proof.
  rewrite (run_ends_as_mean_table sample_env sample_folders [] 5 false "ts"
             empty_world sample_folders_ok sample_env_ok).
  - vm_compute. reflexivity.
  - apply sample_times_fit. vm_compute. split; discriminate.
Defined.

(** X3: a run completes only when the input and output folders are
    directories, a file matches, the benchmark measures a throughput, a
    column is selected, every selected column is a column of the merged
    data, none of them holds text, and none is named Frame. *)
Theorem run_completes_only_if (e : env) (dirs : folders)
    (selected_columns : list string) (time_interval : Z)
    (use_parallel : bool) (timestamp : string) (w : world) :
  (reindex_and_analyze e dirs selected_columns time_interval use_parallel
     timestamp w).2 = Returned tt ->
  folders_ok dirs /\ benchmark_ok e /\ selected_columns <> [] /\
  missing_columns (merged dirs time_interval) selected_columns = [] /\
  text_free (merged dirs time_interval) selected_columns /\
  "Frame" ∉ selected_columns.
Proof.
  intros (Hdirs & Hbench & Hsel & Havg)%run_returned_passed.
  apply average_table_returns_iff in Havg as (Hmiss & Hfree & HFrame).
  by split_and!.
Qed.

Lemma run_completes_only_if_witness :
  sample_selected <> [] /\
  missing_columns (merged sample_folders 5) sample_selected = [].
Proof.
  destruct (run_completes_only_if sample_env sample_folders sample_selected
              5 false "ts" empty_world) as (_ & _ & Hsel & Hmiss & _).
  - vm_compute. reflexivity.
  - by split.
Defined.

(** X4: when the benchmark fails, by a write that raises or by a zero
    elapsed time, the run stops there with that exception: apart from the
    scratch file no file of the output folder is created or changed. *)
Theorem benchmark_failure_writes_no_data (e : env) (dirs : folders)
    (selected_columns : list string) (time_interval : Z)
    (use_parallel : bool) (timestamp : string) (w : world) :
  folders_ok dirs -> ~ benchmark_ok e ->
  let r := reindex_and_analyze e dirs selected_columns time_interval
             use_parallel timestamp w in
  (r.2 = Raised OSError \/ r.2 = Raised ZeroDivisionError) /\
  forall name, name <> "disk_test.tmp" ->
    out_dir r.1 !! name = out_dir w !! name.
Proof.
  intros Hdirs Hnot. cbn zeta.
  destruct (benchmark_cases e) as [(k & Hk & Hlt)|[[Hw Ht]|Hbench]];
    [| |done].
  - destruct (run_benchmark_fault e dirs selected_columns time_interval
                use_parallel timestamp w k Hdirs Hk Hlt) as [c ->].
    split; [by left|]. intros name Hname. cbn.
    by rewrite lookup_insert_ne.
  - destruct (run_benchmark_zero e dirs selected_columns time_interval
                use_parallel timestamp w Hdirs Hw Ht) as [c ->].
    split; [by right|]. intros name Hname. cbn.
    by rewrite lookup_delete_ne.
Qed.

Lemma benchmark_failure_writes_no_data_witness :
  let stuck := {| t_start := 3; t_end := 3; write_fault := None;
                  cpu_count := 4; cpu_percent := 10 |} in
  let r := reindex_and_analyze stuck sample_folders sample_selected 5 false
             "ts" empty_world in
  out_dir r.1 !! "R2_raw_data_ts.csv" = None.
Proof.
  intros stuck r.
  assert (Hnot : ~ benchmark_ok stuck).
  { intros [_ H]. vm_compute in H. discriminate H. }
  destruct (benchmark_failure_writes_no_data stuck sample_folders
              sample_selected 5 false "ts" empty_world sample_folders_ok Hnot)
    as [_ H].
  rewrite H; [reflexivity|discriminate].
Defined.

(** ** The files a run touches *)

Lemma untouched_bind {A B} (name : string) (m : M A) (k : A -> M B) :
  untouched name m -> (forall a, untouched name (k a)) ->
  untouched name (m ≫= k).
Proof.
  intros Hm Hk w. rewrite run_bind. specialize (Hm w).
  destruct (m w) as [w1 [a|e]]; cbn in *; [|done].
  by rewrite (Hk a w1).
Qed.

Lemma untouched_prints_only {A} (name : string) (m : M A) (a : A) :
  prints_only m a -> untouched name m.
Proof. intros Hm w. by destruct (Hm w) as [c ->]. Qed.

Lemma untouched_create (name n : string) (f : file) :
  n <> name -> untouched name (create n f).
Proof. intros Hn w. cbn. by rewrite lookup_insert_ne. Qed.

Lemma untouched_append_lines (name n : string) (ls : list (list cell)) :
  n <> name -> untouched name (append_lines n ls).
Proof. intros Hn w. cbn. by rewrite lookup_insert_ne. Qed.

Lemma untouched_remove (name n : string) :
  n <> name -> untouched name (remove n).
Proof. intros Hn w. cbn. by rewrite lookup_delete_ne. Qed.

Lemma untouched_lift {A} (name : string) (o : outcome A) :
  untouched name (lift o).
Proof. by intros w. Qed.

Lemma untouched_raise {A} (name : string) (ex : exn) :
  untouched name (@raise A ex).
Proof. by intros w. Qed.

Lemma untouched_ret {A} (name : string) (a : A) : untouched name (ret a).
Proof. by intros w. Qed.

Lemma untouched_write_chunks (name n : string) (fault : option nat)
    (i k : nat) :
  n <> name -> untouched name (write_chunks fault n i k).
Proof.
  intros Hn. revert i. induction k as [|k IH]; intros i; cbn [write_chunks].
  - apply untouched_ret.
  - case_decide; [apply untouched_raise|].
    apply untouched_bind; [by apply untouched_create|]. intros _. apply IH.
Qed.

(** Prove that a sequence of statements leaves a file alone. *)
Ltac leave_alone :=
  repeat first
    [ apply untouched_raise
    | apply untouched_ret
    | apply untouched_lift
    | apply untouched_create; done
    | apply untouched_append_lines; done
    | apply untouched_remove; done
    | apply untouched_write_chunks; done
    | eapply untouched_prints_only; solve [eauto with prints]
    | apply untouched_bind; [|intros ?]
    | case_match ].

Lemma untouched_test_disk_write_speed (name path : string) (e : env) :
  path <> name -> untouched name (test_disk_write_speed e path).
Proof. intros Hn. unfold test_disk_write_speed. leave_alone. Qed.

Lemma untouched_plot_lines_with_options (name : string) (df df_all : DataFrame)
    (prefix : string) (selected_columns : list string) (time_interval : Z)
    (show_error_bars : bool) (poly_degree : nat) :
  prefix +:+ "_metrics_vs_frame.png" <> name ->
  untouched name
    (plot_lines_with_options df df_all prefix selected_columns time_interval
       show_error_bars poly_degree).
Proof. intros Hn. unfold plot_lines_with_options. leave_alone. Qed.

Lemma untouched_reindex_and_analyze (name : string) (e : env)
    (dirs : folders) (selected_columns : list string) (time_interval : Z)
    (use_parallel : bool) (timestamp : string) :
  "disk_test.tmp" <> name ->
  raw_data_name (in_name dirs) timestamp <> name ->
  summary_name (in_name dirs) timestamp <> name ->
  in_name dirs +:+ "_metrics_vs_frame.png" <> name ->
  untouched name
    (reindex_and_analyze e dirs selected_columns time_interval use_parallel
       timestamp).
Proof.
  intros Hscratch Hraw Hsummary Hpng. unfold reindex_and_analyze.
  destruct (in_is_dir dirs); cbn [negb]; [|apply untouched_raise].
  destruct (out_is_dir dirs); cbn [negb]; [|apply untouched_raise].
  case_decide; [apply untouched_raise|].
  apply untouched_bind; [leave_alone|intros _].
  apply untouched_bind; [by apply untouched_test_disk_write_speed|].
  intros disk_speed.
  do 11 (apply untouched_bind; [leave_alone|intros ?]).
  case_match; [apply untouched_raise|].
  do 9 (apply untouched_bind; [leave_alone|intros ?]).
  apply untouched_bind; [by apply untouched_plot_lines_with_options|].
  intros _. leave_alone.
Qed.

Lemma append_assoc (a b c : string) : (a +:+ b) +:+ c = a +:+ (b +:+ c).
Proof.
  induction a as [|x a IH]; [done|]. by rewrite !append_cons, IH.
Qed.

Lemma append_csv_inj (s1 s2 : string) :
  s1 +:+ ".csv" = s2 +:+ ".csv" -> s1 = s2.
Proof.
  intros H. apply append_eq_suffix in H as [u [[H ->]|[H ->]]];
    peel u; by rewrite ?append_nil_r.
Qed.

Lemma append_csv_not_scratch (s : string) : s +:+ ".csv" <> "disk_test.tmp".
Proof.
  intros H.
  do 14 (try (destruct s as [|? s];
              rewrite ?append_nil, ?append_cons in *; simplify_eq)).
Qed.

Lemma raw_data_name_inj (prefix ts1 ts2 : string) :
  raw_data_name prefix ts1 = raw_data_name prefix ts2 -> ts1 = ts2.
Proof.
  unfold raw_data_name. intros H.
  apply (inj (String.app prefix)) in H.
  apply (inj (String.app "_raw_data_")) in H. by apply append_csv_inj.
Qed.

Lemma summary_name_inj (prefix ts1 ts2 : string) :
  summary_name prefix ts1 = summary_name prefix ts2 -> ts1 = ts2.
Proof.
  unfold summary_name. intros H.
  apply (inj (String.app prefix)) in H.
  apply (inj (String.app "_summary_stats_")) in H. by apply append_csv_inj.
Qed.

Lemma csv_names_not_scratch (prefix ts : string) :
  "disk_test.tmp" <> raw_data_name prefix ts /\
  "disk_test.tmp" <> summary_name prefix ts.
Proof.
  unfold raw_data_name, summary_name.
  split; intros H; symmetry in H; rewrite <- !append_assoc in H;
    by apply append_csv_not_scratch in H.
Qed.

Lemma raw_not_summary (prefix ts1 ts2 : string) :
  raw_data_name prefix ts1 <> summary_name prefix ts2.
Proof.
  unfold raw_data_name, summary_name. intros H.
  apply (inj (String.app prefix)) in H. by rewrite !append_cons in H.
Qed.

(** X5: whatever its inputs and however it ends, a run creates, changes or
    removes no file of the output folder other than the scratch file, its
    raw-data file, its summary file and the chart. *)
Theorem run_touches_only_its_files (e : env) (dirs : folders)
    (selected_columns : list string) (time_interval : Z)
    (use_parallel : bool) (timestamp : string) (w : world) (name : string) :
  name <> "disk_test.tmp" ->
  name <> raw_data_name (in_name dirs) timestamp ->
  name <> summary_name (in_name dirs) timestamp ->
  name <> in_name dirs +:+ "_metrics_vs_frame.png" ->
  out_dir (reindex_and_analyze e dirs selected_columns time_interval
             use_parallel timestamp w).1 !! name
  = out_dir w !! name.
Proof.
  intros. by apply untouched_reindex_and_analyze.
Qed.

Lemma run_touches_only_its_files_witness :
  out_dir (reindex_and_analyze sample_env sample_folders sample_selected 5
             false "ts"
             {| out_dir := {["notes.txt" := Csv []]}; console := [] |}).1
    !! "notes.txt"
  = Some (Csv []).
Proof.
  rewrite run_touches_only_its_files; [reflexivity|discriminate..].
Defined.

(** X6: a run under one timestamp leaves alone the raw-data file and the
    summary file written under any other timestamp for the same input
    folder. *)
Theorem other_timestamps_survive (e : env) (dirs : folders)
    (selected_columns : list string) (time_interval : Z)
    (use_parallel : bool) (ts1 ts2 : string) (w : world) :
  ts1 <> ts2 ->
  let r := reindex_and_analyze e dirs selected_columns time_interval
             use_parallel ts2 w in
  out_dir r.1 !! raw_data_name (in_name dirs) ts1
    = out_dir w !! raw_data_name (in_name dirs) ts1 /\
  out_dir r.1 !! summary_name (in_name dirs) ts1
    = out_dir w !! summary_name (in_name dirs) ts1.
Proof.
  intros Hts. cbn zeta.
  destruct (csv_names_not_scratch (in_name dirs) ts1) as [Hs1 Hs2].
  destruct (png_name_not_csv (in_name dirs) ts1) as [Hp1 Hp2].
  split; apply untouched_reindex_and_analyze; try done.
  - intros H%raw_data_name_inj. congruence.
  - intros H. symmetry in H. by apply raw_not_summary in H.
  - apply raw_not_summary.
  - intros H%summary_name_inj. congruence.
Qed.

Lemma other_timestamps_survive_witness :
  let first := reindex_and_analyze sample_env sample_folders sample_selected
                 5 false "2026_01_01_10_00_00" empty_world in
  let second := reindex_and_analyze sample_env sample_folders ["Diameter"]
                  5 false "2026_01_01_10_00_01" first.1 in
  out_dir second.1 !! "R2_raw_data_2026_01_01_10_00_00.csv"
  = out_dir first.1 !! "R2_raw_data_2026_01_01_10_00_00.csv".
Proof.
  intros first second.
  apply (other_timestamps_survive sample_env sample_folders ["Diameter"] 5
           false "2026_01_01_10_00_00" "2026_01_01_10_00_01" first.1).
  discriminate.
Defined.

(** ** The merged dataset *)

Lemma union_columns_acc (l acc : list string) :
  NoDup acc ->
  NoDup (foldl (fun acc c => if decide (c ∈ acc) then acc else acc ++ [c])
           acc l) /\
  forall x,
    x ∈ foldl (fun acc c => if decide (c ∈ acc) then acc else acc ++ [c])
          acc l
    <-> x ∈ acc \/ x ∈ l.
Proof.
  revert acc. induction l as [|c l IH]; intros acc Hacc; cbn [foldl].
  - split; [done|]. intros x. rewrite elem_of_nil. tauto.
  - case_decide as Hc.
    + destruct (IH acc Hacc) as [Hnd Hin]. split; [done|].
      intros x. rewrite Hin, elem_of_cons.
      split; [tauto|]. intros [?|[->|?]]; auto.
    + destruct (IH (acc ++ [c])) as [Hnd Hin].
      { apply NoDup_app. split_and!; [done| |apply NoDup_singleton].
        intros x Hx ->%list_elem_of_singleton. done. }
      split; [done|]. intros x.
      rewrite Hin, elem_of_app, list_elem_of_singleton, elem_of_cons.
      tauto.
Qed.

Lemma union_columns_NoDup (l : list string) : NoDup (union_columns l).
Proof. apply (union_columns_acc l []). constructor. Qed.

Lemma elem_of_union_columns (l : list string) (x : string) :
  x ∈ union_columns l <-> x ∈ l.
Proof.
  unfold union_columns.
  destruct (union_columns_acc l [] (NoDup_nil_2)) as [_ H].
  rewrite H, elem_of_nil. tauto.
Qed.

Lemma elem_of_set_column (c x : string) (v : cell) (df : DataFrame) :
  x ∈ columns (set_column c v df) <-> x = c \/ x ∈ columns df.
Proof.
  unfold set_column. cbn. case_decide.
  - split; [tauto|]. by intros [->|?].
  - rewrite elem_of_app, list_elem_of_singleton. tauto.
Qed.

Lemma elem_of_read_frame_columns (t i : Z) (csv : csv_file) (x : string) :
  x ∈ columns (read_frame t i csv)
  <-> x ∈ derived_columns \/ x ∈ columns (file_table csv).
Proof.
  unfold read_frame, derived_columns. rewrite !elem_of_set_column.
  rewrite !elem_of_cons, elem_of_nil. tauto.
Qed.

Lemma read_frame_keeps (t i : Z) (csv : csv_file) (c : string) :
  c ∉ derived_columns ->
  (fun r => get c r) <$> rows (read_frame t i csv)
  = (fun r => get c r) <$> rows (file_table csv).
Proof.
  unfold derived_columns. rewrite !not_elem_of_cons. intros (? & ? & ? & ? & _).
  unfold read_frame. cbn. rewrite <- !list_fmap_compose.
  apply list_fmap_ext. intros _ r _. unfold compose, get.
  by rewrite !lookup_insert_ne.
Qed.

Lemma fmap_join {A B} (f : A -> B) (ls : list (list A)) :
  f <$> mjoin ls = mjoin ((fun l => f <$> l) <$> ls).
Proof.
  induction ls as [|l ls IH]; [done|].
  cbn. rewrite fmap_app. f_equal. exact IH.
Qed.

Lemma read_all_keeps (t start : Z) (csv_files : list csv_file)
    (c : string) :
  c ∉ derived_columns ->
  (fun r => get c r)
    <$> mjoin (rows <$> ((fun p : Z * csv_file => read_frame t p.1 p.2)
                         <$> enumerate start csv_files))
  = (fun r => get c r)
    <$> mjoin ((fun f => rows (file_table f)) <$> csv_files).
Proof.
  intros Hc. revert start.
  induction csv_files as [|f fs IH]; intros start; [done|].
  cbn. rewrite !fmap_app. f_equal; [by apply read_frame_keeps|apply IH].
Qed.

Lemma read_all_row_count (t start : Z) (csv_files : list csv_file) :
  length (mjoin (rows <$> ((fun p : Z * csv_file => read_frame t p.1 p.2)
                           <$> enumerate start csv_files)))
  = sum_list ((fun f => length (rows (file_table f))) <$> csv_files).
Proof.
  revert start. induction csv_files as [|f fs IH]; intros start; [done|].
  cbn. rewrite length_app, !length_fmap. f_equal. apply IH.
Qed.

(** X7: the merged dataset has one row per row of the matched files, and
    every measurement column of it (any column but the four stamped ones)
    reads as that column of the files, one file after the other in sorted
    order; where a file lacks the column the cells are empty. *)
Theorem merge_keeps_measurements (dirs : folders) (time_interval : Z) :
  let csv_files := sorted (glob (in_listing dirs)) in
  length (rows (merged dirs time_interval))
  = sum_list ((fun f => length (rows (file_table f))) <$> csv_files) /\
  forall c, c ∉ derived_columns ->
    (fun r => get c r) <$> rows (merged dirs time_interval)
    = (fun r => get c r)
      <$> mjoin ((fun f => rows (file_table f)) <$> csv_files).
Proof.
  cbn zeta. unfold merged, concat, read_all. cbn [rows]. split.
  - apply read_all_row_count.
  - intros c Hc. by apply read_all_keeps.
Qed.

Lemma merge_keeps_measurements_witness :
  (fun r => get "Perimeter" r) <$> rows (merged sample_folders 5)
  = [Num 7; Num 4; Num 1; Num 2; Null].
Proof.
  destruct (merge_keeps_measurements sample_folders 5) as [_ H].
  rewrite H; [vm_compute; reflexivity|].
  unfold derived_columns. rewrite !not_elem_of_cons.
  split_and!; try discriminate. apply not_elem_of_nil.
Defined.

Lemma elem_of_enumerate {A} (l : list A) (start : Z) (p : Z * A) :
  p ∈ enumerate start l
  <-> exists i : nat, l !! i = Some p.2 /\ p.1 = start + Z.of_nat i.
Proof.
  destruct p as [k x]. cbn. split.
  - intros [i Hi]%list_elem_of_lookup. rewrite enumerate_lookup in Hi.
    exists i. destruct (l !! i); cbn in Hi; [|done]. by injection Hi as <- <-.
  - intros (i & Hi & ->). apply list_elem_of_lookup. exists i.
    by rewrite enumerate_lookup, Hi.
Qed.

Lemma elem_of_read_all (t : Z) (csv_files : list csv_file) (df : DataFrame) :
  df ∈ read_all t csv_files
  <-> exists (i : nat) csv,
        csv_files !! i = Some csv /\ df = read_frame t (Z.of_nat (S i)) csv.
Proof.
  unfold read_all. rewrite list_elem_of_fmap. split.
  - intros ([k csv] & -> & (i & Hi & Hk)%elem_of_enumerate). cbn in *.
    exists i, csv. split; [done|]. subst k. f_equal. lia.
  - intros (i & csv & Hi & ->). exists (Z.of_nat (S i), csv). split; [done|].
    apply elem_of_enumerate. exists i. split; [done|]. cbn. lia.
Qed.

(** X8: the columns of the merged dataset carry no name twice; they are the
    four stamped columns together with every column of every matched file,
    and nothing else. *)
Theorem merged_columns (dirs : folders) (time_interval : Z) :
  let csv_files := sorted (glob (in_listing dirs)) in
  NoDup (columns (merged dirs time_interval)) /\
  forall c,
    c ∈ columns (merged dirs time_interval)
    <-> exists csv, csv ∈ csv_files /\
          (c ∈ derived_columns \/ c ∈ columns (file_table csv)).
Proof.
  cbn zeta. unfold merged, concat. cbn [columns]. split.
  - apply union_columns_NoDup.
  - intros c. rewrite elem_of_union_columns, list_elem_of_join. split.
    + intros (cols & Hc & (df & -> & Hdf)%list_elem_of_fmap).
      apply elem_of_read_all in Hdf as (i & csv & Hi & ->).
      exists csv. split; [by eapply list_elem_of_lookup_2|].
      by apply elem_of_read_frame_columns in Hc.
    + intros (csv & [i Hi]%list_elem_of_lookup & Hc).
      exists (columns (read_frame time_interval (Z.of_nat (S i)) csv)).
      split; [by apply elem_of_read_frame_columns|].
      apply list_elem_of_fmap. eexists. split; [done|].
      apply elem_of_read_all. by eauto.
Qed.

Lemma merged_columns_witness :
  "SourceFile" ∈ columns (merged sample_folders 5).
Proof.
  apply (merged_columns sample_folders 5). exists sample_a. split.
  - vm_compute. left.
  - left. unfold derived_columns. rewrite !elem_of_cons. tauto.
Defined.

Lemma elem_of_merged_rows (dirs : folders) (t : Z) (r : row) :
  r ∈ rows (merged dirs t)
  <-> exists (i : nat) csv,
        sorted (glob (in_listing dirs)) !! i = Some csv /\
        r ∈ rows (read_frame t (Z.of_nat (S i)) csv).
Proof.
  unfold merged, concat. cbn [rows]. rewrite list_elem_of_join. split.
  - intros (rs & Hr & (df & -> & Hdf)%list_elem_of_fmap).
    apply elem_of_read_all in Hdf as (i & csv & Hi & ->). by eauto.
  - intros (i & csv & Hi & Hr). eexists. split; [exact Hr|].
    apply list_elem_of_fmap. eexists. split; [done|].
    apply elem_of_read_all. by eauto.
Qed.

Lemma elem_of_merged_group_keys (dirs : folders) (t : Z) (k : Z) :
  k ∈ group_keys (merged dirs t)
  <-> exists (i : nat) csv,
        sorted (glob (in_listing dirs)) !! i = Some csv /\
        rows (file_table csv) <> [] /\ k = Z.of_nat (S i).
Proof.
  rewrite elem_of_group_keys. split.
  - intros (r & (i & csv & Hi & Hr)%elem_of_merged_rows & Hk).
    exists i, csv. split; [done|].
    pose proof (read_frame_rows _ _ _ _ Hr) as (HF & _).
    unfold frame_key in Hk. rewrite HF in Hk. injection Hk as <-.
    split; [|done]. intros Hnil. unfold read_frame in Hr. cbn in Hr.
    rewrite Hnil in Hr. by apply elem_of_nil in Hr.
  - intros (i & csv & Hi & Hrows & ->).
    destruct (rows (read_frame t (Z.of_nat (S i)) csv)) as [|r rs] eqn:Hrs.
    { apply (f_equal length) in Hrs. unfold read_frame in Hrs. cbn in Hrs.
      rewrite !length_fmap in Hrs. by destruct (rows (file_table csv)). }
    exists r. assert (Hr : r ∈ rows (read_frame t (Z.of_nat (S i)) csv))
      by (rewrite Hrs; left).
    split; [apply elem_of_merged_rows; by eauto|].
    apply read_frame_rows in Hr as (HF & _). unfold frame_key. by rewrite HF.
Qed.

Lemma enumerate_ge {A} (l : list A) (start : Z) (p : Z * A) :
  p ∈ enumerate start l -> start <= p.1.
Proof. intros (i & _ & ->)%elem_of_enumerate. lia. Qed.

Lemma enumerate_filter_sorted {A} (P : Z * A -> Prop)
    `{!forall p, Decision (P p)} (l : list A) (start : Z) :
  StronglySorted Z.lt ((filter P (enumerate start l)).*1).
Proof.
  revert start. induction l as [|x l IH]; intros start; cbn [enumerate].
  - constructor.
  - rewrite filter_cons. destruct (decide (P (start, x))); [|by apply IH].
    cbn. constructor; [by apply IH|]. apply Forall_forall. intros k Hk.
    apply list_elem_of_fmap in Hk as (q & -> & Hq).
    apply list_elem_of_filter in Hq as (_ & Hp).
    apply enumerate_ge in Hp. lia.
Qed.

Lemma StronglySorted_lt_le (l : list Z) :
  StronglySorted Z.lt l -> Sorted Z.le l /\ NoDup l.
Proof.
  induction 1 as [|k l Hl [IH1 IH2] Hk].
  - split; constructor.
  - split.
    + constructor; [done|]. destruct l as [|k' l']; constructor.
      apply Forall_cons in Hk as [Hk _]. lia.
    + constructor; [|done]. intros Hin.
      eapply Forall_forall in Hk; [|exact Hin]. lia.
Qed.

(** X9: the Frames of the merged dataset are the positions, counted from 1,
    of the matched files that have at least one row, in ascending order: a
    file without rows leaves its number out and the files after it are not
    renumbered. *)
Theorem merged_frames (dirs : folders) (time_interval : Z) :
  let csv_files := sorted (glob (in_listing dirs)) in
  group_keys (merged dirs time_interval)
  = (filter (fun p : Z * csv_file => rows (file_table p.2) <> [])
       (enumerate 1 csv_files)).*1.
Proof.
  cbn zeta.
  pose proof (StronglySorted_lt_le _
    (enumerate_filter_sorted
       (fun p : Z * csv_file => rows (file_table p.2) <> [])
       (sorted (glob (in_listing dirs))) 1)) as [Hsorted Hnodup].
  apply (Sorted_unique Z.le); [apply Sorted_merge_sort, _|done|].
  apply NoDup_Permutation; [| done |].
  - unfold group_keys. rewrite merge_sort_Permutation. apply NoDup_remove_dups.
  - intros k. rewrite elem_of_merged_group_keys, list_elem_of_fmap. split.
    + intros (i & csv & Hi & Hrows & ->). exists (Z.of_nat (S i), csv).
      split; [done|]. apply list_elem_of_filter. split; [done|].
      apply elem_of_enumerate. exists i. split; [done|]. cbn. lia.
    + intros ([k' csv] & -> & Hp). apply list_elem_of_filter in Hp as [Hrows Hp].
      apply elem_of_enumerate in Hp as (i & Hi & Hk). cbn in *.
      exists i, csv. split; [done|]. split; [done|]. lia.
Qed.

(** ** The output folder after a run *)

Lemma average_table_frames (df : DataFrame) (selected_columns : list string)
    (average_data : DataFrame) :
  average_table df selected_columns = Returned average_data ->
  (fun r => get "Frame" r) <$> rows average_data = Int <$> group_keys df.
Proof.
  intros (_ & _ & _ & Havg)%average_table_Returned.
  apply list_eq_Forall2, Forall2_fmap, Forall2_flip.
  eapply Forall2_impl; [exact Havg|]. by intros k r [-> _].
Qed.

Lemma join_singletons_fmap {A B} (f : A -> B) (l : list A) :
  mjoin ((fun x => [f x]) <$> l) = f <$> l.
Proof. induction l as [|x l IH]; [done|]. cbn. f_equal. exact IH. Qed.

(** The output folder that a run leaves once the benchmark has measured a
    throughput, as a function of the folder it found. *)
Lemma folder_after_benchmark (e : env) (dirs : folders)
    (selected_columns : list string) (time_interval : Z)
    (use_parallel : bool) (timestamp : string) (w : world) :
  folders_ok dirs -> benchmark_ok e ->
  let df_all := merged dirs time_interval in
  let found := delete "disk_test.tmp" (out_dir w) in
  out_dir (reindex_and_analyze e dirs selected_columns time_interval
             use_parallel timestamp w).1
  = match average_table df_all selected_columns,
          stats_table df_all selected_columns with
    | Returned average_data, Returned stats =>
        <[in_name dirs +:+ "_metrics_vs_frame.png" :=
            Png {| fig_interval := time_interval;
                   fig_items :=
                     (fun col =>
                        Line col (Int <$> group_keys df_all)
                          ((fun r => get col r) <$> rows average_data))
                     <$> selected_columns |}]>
          (<[summary_name (in_name dirs) timestamp := Csv (to_csv true stats)]>
             (<[raw_data_name (in_name dirs) timestamp :=
                  Csv (raw_sections df_all average_data)]> found))
    | Returned average_data, Raised _ =>
        <[raw_data_name (in_name dirs) timestamp :=
            Csv (raw_sections df_all average_data)]> found
    | Raised _, _ =>
        <[raw_data_name (in_name dirs) timestamp :=
            Csv (to_csv true df_all ++ to_csv false (separator df_all))]> found
    end.
Proof.
  intros (Hin & Hout & Hfiles) [Hw Ht]. cbn zeta.
  unfold merged, reindex_and_analyze.
  rewrite Hin, Hout. cbn [negb].
  rewrite decide_False by (by rewrite sorted_nil).
  fwd. rewrite run_bind, test_disk_write_speed_completes, Ht by done.
  do 8 fwd.
  destruct (average_table _ selected_columns) as [average_data|ex] eqn:Havg.
  2:{ by rewrite run_bind, run_lift. }
  rewrite run_bind, run_lift. cbn [out_dir console].
  pose proof (average_table_frames _ _ _ Havg) as Hframes.
  pose proof (average_table_Returned _ _ _ Havg) as (Hmiss & _ & Hcols & _).
  do 2 fwd. rewrite Hmiss, bool_decide_eq_true_2 by done. cbn [negb].
  destruct (decide (selected_columns = [])) as [->|Hsel].
  { unfold stats_table. rewrite run_bind, run_lift.
    rewrite (groupby_agg_nil _ _ Havg). cbn [mbind outcome_bind fst out_dir].
    unfold raw_sections. by rewrite <- !(assoc_L (++)). }
  destruct (stats_table_of_mean_table _ _ _ Hsel Havg)
    as (grouped_stats & stats & Hagg & Hstats).
  unfold stats_table. rewrite Hagg. cbn [mbind outcome_bind]. rewrite Hstats.
  fwd_lift Hagg. fwd_lift Hstats. do 2 fwd. fwd_lift Hagg. do 3 fwd.
  rewrite run_bind, run_lift. cbn [out_dir console].
  rewrite run_bind. unfold plot_lines_with_options.
  rewrite run_bind, run_lift, (plot_of_mean_table _ _ _ Hcols).
  rewrite run_create. cbn [fst out_dir]. rewrite Hframes.
  rewrite join_singletons_fmap. unfold raw_sections.
  by rewrite <- !(assoc_L (++)).
Qed.

(** X10: a run that completes leaves the output folder as it found it,
    without the scratch file of the benchmark and with three files written:
    the raw-data file, the summary file with the statistics table, and the
    chart, which holds one line per selected column, in the order selected,
    of the column's mean against the Frames, without error bars and without
    a fitted polynomial. *)
Theorem folder_after_completed_run (e : env) (dirs : folders)
    (selected_columns : list string) (time_interval : Z)
    (use_parallel : bool) (timestamp : string) (w w' : world) :
  reindex_and_analyze e dirs selected_columns time_interval use_parallel
    timestamp w = (w', Returned tt) ->
  let df_all := merged dirs time_interval in
  exists average_data stats,
    average_table df_all selected_columns = Returned average_data /\
    stats_table df_all selected_columns = Returned stats /\
    out_dir w'
    = <[in_name dirs +:+ "_metrics_vs_frame.png" :=
          Png {| fig_interval := time_interval;
                 fig_items :=
                   (fun col =>
                      Line col (Int <$> group_keys df_all)
                        ((fun r => get col r) <$> rows average_data))
                   <$> selected_columns |}]>
        (<[summary_name (in_name dirs) timestamp := Csv (to_csv true stats)]>
           (<[raw_data_name (in_name dirs) timestamp :=
                Csv (raw_sections df_all average_data)]>
              (delete "disk_test.tmp" (out_dir w)))).
Proof.
  intros Hrun. cbn zeta.
  assert (Hres : (reindex_and_analyze e dirs selected_columns time_interval
                    use_parallel timestamp w).2 = Returned tt)
    by (by rewrite Hrun).
  apply run_returned_passed in Hres
    as (Hdirs & Hbench & Hsel & average_data & Havg).
  pose proof (folder_after_benchmark e dirs selected_columns time_interval
                use_parallel timestamp w Hdirs Hbench) as Hdir.
  cbn zeta in Hdir. rewrite Hrun in Hdir. cbn [fst] in Hdir.
  rewrite Havg in Hdir.
  destruct (stats_table_of_mean_table _ _ _ Hsel Havg)
    as (grouped_stats & stats & Hagg & Hstats).
  unfold stats_table in *. rewrite Hagg in *. cbn [mbind outcome_bind] in *.
  rewrite Hstats in *. by exists average_data, stats.
Qed.

Lemma folder_after_completed_run_witness :
  exists w', dom (out_dir w')
             = {["R2_metrics_vs_frame.png"; "R2_summary_stats_ts.csv";
                 "R2_raw_data_ts.csv"]}.
Proof.
  destruct (reindex_and_analyze sample_env sample_folders sample_selected 5
              false "ts" empty_world) as [w' o] eqn:Hrun.
  assert (o = Returned tt) as ->.
  { apply (f_equal snd) in Hrun. vm_compute in Hrun. congruence. }
  exists w'.
  destruct (folder_after_completed_run _ _ _ _ _ _ _ _ Hrun)
    as (average_data & stats & _ & _ & ->).
  rewrite !dom_insert_L. cbn [in_name sample_folders out_dir empty_world].
  rewrite delete_empty, dom_empty_L. set_solver.
Defined.



(** ** The front end *)

Lemma values_Raised (col : string) (rs : list row) (e : exn) :
  values col rs = Raised e -> e = TypeError col.
Proof.
  induction rs as [|r rs IH]; cbn [values]; [done|].
  destruct (get col r); try (by intros [= <-]); try done;
    destruct (values col rs); cbn; try done; intros [= <-]; by apply IH.
Qed.

Lemma average_table_KeyError (df : DataFrame)
    (selected_columns names : list string) :
  average_table df selected_columns = Raised (KeyError names) ->
  missing_columns df selected_columns <> [].
Proof.
  intros Havg Hmiss.
  enough (H : raises_only (fun e => forall names, e <> KeyError names)
                (average_table df selected_columns))
    by exact (H _ Havg names eq_refl).
  clear Havg. unfold average_table. apply raises_only_bind.
  - unfold groupby_mean, reduce_groups, select_columns. rewrite Hmiss.
    apply raises_only_bind; [apply raises_only_Returned|]. intros _.
    apply raises_only_bind; [|intros; apply raises_only_Returned].
    apply raises_only_for_each. intros k.
    apply raises_only_bind; [|intros; apply raises_only_Returned].
    apply raises_only_for_each. intros col.
    apply raises_only_bind; [|intros; apply raises_only_Returned].
    intros e He%values_Raised. by subst e.
  - intros g. unfold reset_index. case_decide; [|done]. by intros e [= <-].
Qed.

(** A run raises KeyError only for a selected column that the merged data
    lacks. *)
Lemma run_KeyError (e : env) (dirs : folders)
    (selected_columns : list string) (time_interval : Z)
    (use_parallel : bool) (timestamp : string) (w : world)
    (names : list string) :
  (reindex_and_analyze e dirs selected_columns time_interval use_parallel
     timestamp w).2 = Raised (KeyError names) ->
  missing_columns (merged dirs time_interval) selected_columns <> [].
Proof.
  intros Hrun.
  destruct (folders_cases dirs) as [Hdirs|Hbad].
  2:{ destruct (run_folders_not_ok e dirs selected_columns time_interval
                  use_parallel timestamp w Hbad) as [msg Hmsg].
      by rewrite Hmsg in Hrun. }
  destruct (benchmark_cases e) as [(k & Hk & Hlt)|[[Hw Ht]|Hbench]].
  - destruct (run_benchmark_fault e dirs selected_columns time_interval
                use_parallel timestamp w k Hdirs Hk Hlt) as [c Hc].
    by rewrite Hc in Hrun.
  - destruct (run_benchmark_zero e dirs selected_columns time_interval
                use_parallel timestamp w Hdirs Hw Ht) as [c Hc].
    by rewrite Hc in Hrun.
  - rewrite run_after_benchmark in Hrun by done.
    destruct (average_table _ _) as [?|ex] eqn:Havg;
      [by destruct selected_columns|].
    injection Hrun as ->. by eapply average_table_KeyError.
Qed.

(** The ticked columns, read from the dictionary of check boxes. *)
Lemma chosen_cols_filter (numeric_cols : list string)
    (ticked : string -> bool) :
  (filter (fun cv : string * bool => cv.2 = true)
     (column_vars_of numeric_cols ticked)).*1
  = filter (fun c => ticked c = true) (union_columns numeric_cols).
Proof.
  unfold column_vars_of.
  induction (union_columns numeric_cols) as [|c l IH]; [done|].
  cbn [fmap list_fmap]. rewrite !filter_cons. cbn [snd].
  destruct (decide (ticked c = true)); cbn; by rewrite IH.
Qed.

(** What a click on Run Analysis does. *)
Lemma run_analysis_run (e : env) (dirs : folders) (numeric_cols : list string)
    (ticked : string -> bool) (now : string) (w : world) :
  let chosen_cols :=
    filter (fun c => ticked c = true) (union_columns numeric_cols) in
  run_analysis e dirs (column_vars_of numeric_cols ticked) now w
  = if decide (chosen_cols = []) then (w, Returned ErrorNoColumnsSelected)
    else
      let r := reindex_and_analyze e dirs chosen_cols 5 false now w in
      (r.1, Returned match r.2 with
                     | Returned _ => InfoAnalysisComplete
                     | Raised ex => ErrorAnalysisFailed ex
                     end).
Proof.
  cbn zeta. unfold run_analysis. rewrite chosen_cols_filter.
  case_decide; [done|]. unfold try_except. rewrite run_bind.
  by destruct (reindex_and_analyze _ _ _ _ _ _ w) as [w' [[]|ex]].
Qed.

Lemma filter_ticked_nil (ticked : string -> bool) (numeric_cols : list string) :
  filter (fun c => ticked c = true) (union_columns numeric_cols) = []
  <-> forall c, c ∈ numeric_cols -> ticked c = false.
Proof.
  split.
  - intros H c Hc. rewrite <- elem_of_union_columns in Hc.
    destruct (ticked c) eqn:Hticked; [|done].
    by destruct (filter_nil_not_elem_of _ _ c H Hticked).
  - intros H. destruct (filter _ _) as [|c l] eqn:Hfilter; [done|].
    assert (Hc : c ∈ filter (fun c => ticked c = true)
                   (union_columns numeric_cols)) by (rewrite Hfilter; left).
    apply list_elem_of_filter in Hc as [Hticked Hc].
    rewrite elem_of_union_columns in Hc. rewrite (H c Hc) in Hticked. done.
Qed.

Lemma clicks_idle (e : env) (dirs : folders) (numeric_cols : list string)
    (now : string) (idle presses : list (string -> bool)) (w : world) :
  Forall (fun ticked => forall c, c ∈ numeric_cols -> ticked c = false) idle ->
  clicks e dirs numeric_cols now (idle ++ presses) w
  = let r := clicks e dirs numeric_cols now presses w in
    (r.1, match r.2 with
          | Returned ds =>
              Returned (replicate (length idle) ErrorNoColumnsSelected ++ ds)
          | Raised ex => Raised ex
          end).
Proof.
  induction 1 as [|ticked idle Hticked _ IH]; cbn zeta.
  - cbn. by destruct (clicks _ _ _ _ _ _) as [w' [ds|ex]].
  - cbn [app clicks]. rewrite run_bind, run_analysis_run. cbn zeta.
    rewrite decide_True by (by apply filter_ticked_nil).
    rewrite run_bind, IH. cbn zeta.
    by destruct (clicks _ _ _ _ presses w) as [w' [ds|ex]].
Qed.

(** X12: in a session that reaches the selection window, clicks on Run
    Analysis with no column ticked only show the error box and change
    nothing; the first click with a ticked column runs the analysis once, on
    the ticked numeric columns in the order of the first file's header, with
    the interval 5 and the parallel flag off, and shows the completion box
    or the error box with the exception of the run; later clicks are not
    served. *)
Theorem first_ticked_click_runs_analysis (e : env) (a : answers)
    (now : string) (dirs : folders) (numeric_cols : list string)
    (idle rest : list (string -> bool)) (ticked : string -> bool)
    (w : world) :
  select_columns_window a = inr (dirs, numeric_cols) ->
  Forall (fun t => forall c, c ∈ numeric_cols -> t c = false) idle ->
  (exists c, c ∈ numeric_cols /\ ticked c = true) ->
  let chosen_cols :=
    filter (fun c => ticked c = true) (union_columns numeric_cols) in
  let r := reindex_and_analyze e dirs chosen_cols 5 false now w in
  run_with_gui e a now (idle ++ ticked :: rest) w
  = (r.1, Returned (replicate (length idle) ErrorNoColumnsSelected
                    ++ [match r.2 with
                        | Returned _ => InfoAnalysisComplete
                        | Raised ex => ErrorAnalysisFailed ex
                        end])).
Proof.
  intros Hwin Hidle (c & Hc & Hticked). cbn zeta.
  unfold run_with_gui. rewrite Hwin, clicks_idle by done. cbn zeta.
  cbn [clicks]. rewrite run_bind, run_analysis_run. cbn zeta.
  rewrite decide_False.
  2:{ rewrite filter_ticked_nil. intros H. specialize (H c Hc). congruence. }
  by destruct (reindex_and_analyze _ _ _ _ _ _ w) as [w' [[]|ex]].
Qed.

Lemma first_ticked_click_runs_analysis_witness :
  (run_with_gui sample_env
     {| input_folder := Some ("R2", sample_listing);
        output_folder := Some true |} "ts"
     ([fun _ => false]
      ++ (fun c => bool_decide (c = "Diameter")) :: [fun _ => true])
     empty_world).2
  = Returned [ErrorNoColumnsSelected; InfoAnalysisComplete].
Proof.
  rewrite (first_ticked_click_runs_analysis sample_env _ "ts" sample_folders
             ["Diameter"; "Perimeter"]).
  - vm_compute. reflexivity.
  - vm_compute. reflexivity.
  - constructor; [reflexivity|constructor].
  - exists "Diameter". split; [left|reflexivity].
Defined.

Lemma window_opened (a : answers) (dirs : folders)
    (numeric_cols : list string) :
  select_columns_window a = inr (dirs, numeric_cols) ->
  exists first, first ∈ sorted (glob (in_listing dirs)) /\
    forall c, c ∈ numeric_cols -> c ∈ columns (file_table first).
Proof.
  unfold select_columns_window.
  destruct (input_folder a) as [[name listing]|]; [|done].
  destruct (sorted (glob listing)) as [|first rest] eqn:Hsorted; [done|].
  destruct (output_folder a) as [out_ok|]; [|done].
  case_decide; [done|]. intros [= <- <-].
  cbn [in_is_dir in_listing out_is_dir].
  exists first. rewrite Hsorted. split; [left|].
  by intros c [_ Hc]%list_elem_of_filter.
Qed.

Lemma window_closed (a : answers) (d : dialog) :
  select_columns_window a = inl d -> forall ex, d <> ErrorAnalysisFailed ex.
Proof.
  unfold select_columns_window.
  destruct (input_folder a) as [[name listing]|]; [|by intros [= <-]].
  destruct (sorted (glob listing)) as [|first rest]; [by intros [= <-]|].
  destruct (output_folder a) as [out_ok|]; [|by intros [= <-]].
  case_decide; [by intros [= <-]|done].
Qed.

Lemma missing_columns_nil (df : DataFrame) (selected_columns : list string) :
  (forall c, c ∈ selected_columns -> c ∈ columns df) ->
  missing_columns df selected_columns = [].
Proof.
  intros H. unfold missing_columns.
  destruct (filter _ _) as [|c l] eqn:Hfilter; [done|].
  assert (Hc : c ∈ filter (fun c => c ∉ columns df) selected_columns)
    by (rewrite Hfilter; left).
  apply list_elem_of_filter in Hc as [Hnot Hc]. by destruct (Hnot (H c Hc)).
Qed.

Lemma file_columns_merged (dirs : folders) (time_interval : Z)
    (csv : csv_file) (c : string) :
  csv ∈ sorted (glob (in_listing dirs)) -> c ∈ columns (file_table csv) ->
  c ∈ columns (merged dirs time_interval).
Proof.
  intros [i Hi]%list_elem_of_lookup Hc. unfold merged, concat. cbn [columns].
  rewrite elem_of_union_columns, list_elem_of_join.
  exists (columns (read_frame time_interval (Z.of_nat (S i)) csv)).
  split; [apply elem_of_read_frame_columns; by right|].
  apply list_elem_of_fmap. eexists. split; [done|].
  apply elem_of_read_all. by eauto.
Qed.

(** The boxes that the clicks show when every column offered for ticking is
    a column of the merged data. *)
Lemma clicks_boxes (e : env) (dirs : folders) (numeric_cols : list string)
    (now : string) (presses : list (string -> bool)) (w : world) :
  (forall c, c ∈ numeric_cols -> c ∈ columns (merged dirs 5)) ->
  exists ds,
    (clicks e dirs numeric_cols now presses w).2 = Returned ds /\
    forall names, ErrorAnalysisFailed (KeyError names) ∉ ds.
Proof.
  intros Hcols. revert w.
  induction presses as [|ticked presses IH]; intros w; cbn [clicks].
  - exists []. split; [done|]. by intros names ?%elem_of_nil.
  - rewrite run_bind, run_analysis_run. cbn zeta. case_decide as Hchosen.
    + rewrite run_bind. destruct (IH w) as (ds & Hds & Hkey).
      destruct (clicks _ _ _ _ presses w) as [w' o]. cbn [snd] in Hds.
      subst o. exists (ErrorNoColumnsSelected :: ds). split; [done|].
      intros names [?|?]%elem_of_cons; [done|]. by eapply Hkey.
    + destruct (reindex_and_analyze _ _ _ _ _ _ w) as [w' o] eqn:Hrun.
      assert (Ho : (reindex_and_analyze e dirs
                      (filter (fun c => ticked c = true)
                         (union_columns numeric_cols)) 5 false now w).2 = o)
        by (by rewrite Hrun).
      cbn [fst snd]. destruct o as [[]|ex].
      * exists [InfoAnalysisComplete]. split; [done|].
        intros ? [?|?%elem_of_nil]%elem_of_cons; done.
      * exists [ErrorAnalysisFailed ex]. split; [done|].
        intros names [[= <-]|?%elem_of_nil]%elem_of_cons; [|done].
        apply run_KeyError in Ho. apply Ho, missing_columns_nil.
        intros c [_ Hc]%list_elem_of_filter. apply Hcols.
        by apply elem_of_union_columns.
Qed.

(** X13: a session of the front end never reports an analysis that failed
    over a missing column: whatever the answers and the clicks, no box it
    shows carries a KeyError, because the columns offered for ticking are
    columns of the first matched file and so of the merged data. *)
Theorem front_end_never_misses_a_column (e : env) (a : answers)
    (now : string) (presses : list (string -> bool)) (w : world)
    (ds : list dialog) (names : list string) :
  (run_with_gui e a now presses w).2 = Returned ds ->
  ErrorAnalysisFailed (KeyError names) ∉ ds.
Proof.
  unfold run_with_gui.
  destruct (select_columns_window a) as [d|[dirs numeric_cols]] eqn:Hwin.
  - pose proof (window_closed _ _ Hwin) as Hd. intros [= <-].
    intros [Heq|?%elem_of_nil]%elem_of_cons; [|done].
    symmetry in Heq. by destruct (Hd _ Heq).
  - apply window_opened in Hwin as (first & Hfirst & Hcols).
    destruct (clicks_boxes e dirs numeric_cols now presses w)
      as (ds' & Hds & Hkey).
    { intros c Hc. eapply file_columns_merged; [exact Hfirst|by apply Hcols]. }
    rewrite Hds. intros [= <-]. apply Hkey.
Qed.

Lemma front_end_never_misses_a_column_witness :
  ErrorAnalysisFailed (KeyError ["Diameter"])
  ∉ [ErrorNoColumnsSelected; InfoAnalysisComplete].
Proof.
  apply (front_end_never_misses_a_column sample_env
           {| input_folder := Some ("R2", sample_listing);
              output_folder := Some true |} "ts"
           [fun _ => false; fun c => bool_decide (c = "Diameter")]
           empty_world).
  vm_compute. reflexivity.
Defined.

(** ** The chart *)

Lemma plot_column_Returned (df df_all : DataFrame) (show_error_bars : bool)
    (poly_degree : nat) (col : string) (items : list figure_item) :
  plot_column df df_all show_error_bars poly_degree col = Returned items ->
  "Frame" ∈ columns df /\ col ∈ columns df /\
  line_labels items = [col] /\
  error_bar_labels items = (if show_error_bars then [col] else []) /\
  fit_labels items
  = (if ((0 <? poly_degree)%nat && (poly_degree <? length (rows df))%nat)%bool
     then [col] else []).
Proof.
  unfold plot_column, column_values.
  destruct (decide ("Frame" ∈ columns df)) as [HFrame|];
    cbn [mbind outcome_bind]; [|done].
  destruct (decide (col ∈ columns df)) as [Hcol|];
    cbn [mbind outcome_bind]; [|done].
  rewrite length_fmap.
  set (fits := ((0 <? poly_degree)%nat
                && (poly_degree <? length (rows df))%nat)%bool).
  assert (Hfit : forall fit,
            (if fits then polyfit col poly_degree
                            ((fun r => get "Frame" r) <$> rows df)
                            ((fun r => get col r) <$> rows df)
             else mret []) = Returned fit ->
            line_labels fit = [] /\ error_bar_labels fit = [] /\
            fit_labels fit = if fits then [col] else []).
  { intros fit. destruct fits; [|by intros [= <-]]. unfold polyfit.
    destruct (existsb _ _); [done|]. destruct (forallb _ _); [|done].
    by intros [= <-]. }
  assert (Hbars : forall bars,
            (if show_error_bars
             then std_dev ← groupby_std df_all col;
                  errorbar col ((fun r => get "Frame" r) <$> rows df)
                    ((fun r => get col r) <$> rows df) std_dev
             else mret []) = Returned bars ->
            line_labels bars = [] /\ fit_labels bars = [] /\
            error_bar_labels bars = if show_error_bars then [col] else []).
  { intros bars. destruct show_error_bars; [|by intros [= <-]].
    destruct (groupby_std df_all col) as [std_dev|];
      cbn [mbind outcome_bind]; [|done].
    unfold errorbar. case_decide; [|done]. by intros [= <-]. }
  destruct (if show_error_bars then _ else _) as [bars|];
    cbn [mbind outcome_bind]; [|done].
  destruct (if fits then _ else _) as [fit|];
    cbn [mbind outcome_bind]; [|done].
  destruct (Hbars _ eq_refl) as (Hb1 & Hb2 & Hb3).
  destruct (Hfit _ eq_refl) as (Hf1 & Hf2 & Hf3).
  intros [= <-]. split; [done|]. split; [done|].
  unfold line_labels, error_bar_labels, fit_labels in *.
  cbn [omap list_omap]. rewrite !omap_app, Hb1, Hb2, Hb3, Hf1, Hf2, Hf3.
  rewrite ?app_nil_r. done.
Qed.

Lemma plot_columns_Returned (df df_all : DataFrame) (show_error_bars : bool)
    (poly_degree : nat) (selected_columns : list string)
    (items : list (list figure_item)) :
  for_each (plot_column df df_all show_error_bars poly_degree)
    selected_columns = Returned items ->
  line_labels (mjoin items) = selected_columns /\
  error_bar_labels (mjoin items)
  = (if show_error_bars then selected_columns else []) /\
  fit_labels (mjoin items)
  = (if ((0 <? poly_degree)%nat && (poly_degree <? length (rows df))%nat)%bool
     then selected_columns else []).
Proof.
  intros H%for_each_Returned.
  induction H as [|col its cols itss Hcol _ IH].
  - cbn. by destruct show_error_bars, (_ && _).
  - apply plot_column_Returned in Hcol as (_ & _ & Hl & Hb & Hf).
    destruct IH as (IHl & IHb & IHf).
    unfold line_labels, error_bar_labels, fit_labels in *.
    change (mjoin (its :: itss)) with (its ++ mjoin itss).
    rewrite !omap_app, Hl, Hb, Hf, IHl, IHb, IHf.
    by destruct show_error_bars, (_ && _).
Qed.

(** X14: the chart function, for any setting of its two options.  When it
    returns it has written the chart file and nothing else, and the chart
    draws one line per selected column in the order selected, error bars
    for every selected column when they are asked for and for none
    otherwise, and a fitted polynomial for every selected column exactly
    when the degree is positive and below the number of rows of the mean
    table. *)
Theorem chart_legend (df df_all : DataFrame) (prefix : string)
    (selected_columns : list string) (time_interval : Z)
    (show_error_bars : bool) (poly_degree : nat) (w w' : world) :
  plot_lines_with_options df df_all prefix selected_columns time_interval
    show_error_bars poly_degree w = (w', Returned tt) ->
  exists items,
    w' = {| out_dir :=
              <[prefix +:+ "_metrics_vs_frame.png" :=
                  Png {| fig_interval := time_interval;
                         fig_items := items |}]> (out_dir w);
            console := console w |} /\
    line_labels items = selected_columns /\
    error_bar_labels items
    = (if show_error_bars then selected_columns else []) /\
    fit_labels items
    = (if ((0 <? poly_degree)%nat
           && (poly_degree <? length (rows df))%nat)%bool
       then selected_columns else []).
Proof.
  unfold plot_lines_with_options. rewrite run_bind, run_lift.
  destruct (for_each _ selected_columns) as [items|ex] eqn:Hitems; [|done].
  rewrite run_create. intros [= <-]. exists (mjoin items).
  split; [done|]. by eapply plot_columns_Returned.
Qed.

Lemma chart_legend_witness :
  exists items,
    out_dir (plot_lines_with_options
               (table ["Frame"; "Diameter"] [[Int 1; Num 3]; [Int 2; Num 2]])
               sample_df_all "R2" ["Diameter"] 5 true 1 empty_world).1
      !! "R2_metrics_vs_frame.png"
    = Some (Png {| fig_interval := 5; fig_items := items |}) /\
    line_labels items = ["Diameter"] /\
    error_bar_labels items = ["Diameter"] /\
    fit_labels items = ["Diameter"].
Proof.
  destruct (plot_lines_with_options
              (table ["Frame"; "Diameter"] [[Int 1; Num 3]; [Int 2; Num 2]])
              sample_df_all "R2" ["Diameter"] 5 true 1 empty_world)
    as [w' o] eqn:Hplot.
  assert (o = Returned tt) as ->.
  { apply (f_equal snd) in Hplot. vm_compute in Hplot.
    destruct o as [[]|]; [done|discriminate Hplot]. }
  destruct (chart_legend _ _ _ _ _ _ _ _ _ Hplot)
    as (items & -> & Hl & Hb & Hf).
  exists items. split; [|by split_and!]. cbn [fst out_dir].
  change ("R2" +:+ "_metrics_vs_frame.png") with "R2_metrics_vs_frame.png".
  apply lookup_insert_eq.
Defined.

(** ** The benchmark and the plan *)

Lemma test_disk_write_speed_Returned (e : env) (path : string) (w w' : world)
    (speed : Q) :
  test_disk_write_speed e path w = (w', Returned speed) ->
  Qeq_bool (t_end e - t_start e) 0 = false /\
  speed = (100 / (t_end e - t_start e))%Q /\
  out_dir w' = delete path (out_dir w).
Proof.
  destruct (write_fault e) as [k|] eqn:Hk.
  - destruct (decide (k < 100)%nat) as [Hlt|Hge].
    + by rewrite (test_disk_write_speed_fault e path _ k).
    + rewrite test_disk_write_speed_completes
        by (intros k' Hk'; rewrite Hk in Hk'; injection Hk' as <-; lia).
      destruct (Qeq_bool _ _); [done|]. by intros [= <- <-].
  - rewrite test_disk_write_speed_completes
      by (intros k' Hk'; rewrite Hk in Hk'; discriminate Hk').
    destruct (Qeq_bool _ _); [done|]. by intros [= <- <-].
Qed.

Lemma fast_write (elapsed : Q) :
  ~ (elapsed == 0)%Q ->
  Qltb (100 / elapsed) 50 = false <-> (0 < elapsed)%Q /\ (elapsed <= 2)%Q.
Proof.
  intros Hne. unfold Qltb. rewrite negb_false_iff, Qle_bool_iff.
  assert (Hx : (100 / elapsed * elapsed == 100)%Q) by (by field).
  revert Hx. generalize (100 / elapsed)%Q. intros x Hx. split.
  - intros H50. destruct (Qlt_le_dec 0 elapsed) as [Hpos|Hneg].
    + split; [done|]. nra.
    + exfalso. assert (elapsed < 0)%Q.
      { apply Qle_lteq in Hneg as [|]; [done|]. by destruct Hne. }
      nra.
  - intros [Hpos Hle]. nra.
Qed.

(** X15: the plan that follows a benchmark.  The throughput is 100 MB over
    the elapsed time of the timed write, so the plan is parallel exactly
    when the caller asked for it, more than two columns are selected, and
    the write took a positive time of at most two seconds; a clock that
    steps back during the write gives a sequential plan. *)
Theorem parallel_needs_a_fast_write (e : env) (test_path : string)
    (w w' : world) (disk_speed : Q) (ncols cpus : nat) (use_parallel : bool) :
  test_disk_write_speed e test_path w = (w', Returned disk_speed) ->
  use_parallel_determined (choose_plan disk_speed ncols cpus use_parallel)
  = true
  <-> use_parallel = true /\ (2 < ncols)%nat /\
      (0 < t_end e - t_start e)%Q /\ (t_end e - t_start e <= 2)%Q.
Proof.
  intros (Hne & -> & _)%test_disk_write_speed_Returned.
  assert (Hne' : ~ (t_end e - t_start e == 0)%Q).
  { intros H%Qeq_bool_iff. congruence. }
  pose proof (fast_write _ Hne') as Hfast.
  unfold choose_plan, decide_parallel. cbn [use_parallel_determined].
  destruct (Qltb _ 50).
  - split; [done|]. intros (_ & _ & Hpos & Hle).
    by destruct (proj2 Hfast (conj Hpos Hle)).
  - destruct (proj1 Hfast eq_refl) as [Hpos Hle].
    destruct (Nat.leb_spec ncols 2).
    + split; [done|]. lia.
    + split; [by intros ->|]. by intros (-> & _).
Qed.

Lemma parallel_needs_a_fast_write_witness :
  use_parallel_determined
    (choose_plan (100 / (t_end sample_env - t_start sample_env)) 3 4 true)
  = true.
Proof.
  apply (parallel_needs_a_fast_write sample_env "disk_test.tmp" empty_world
           {| out_dir := ∅; console := [] |}).
  - vm_compute. reflexivity.
  - split_and!; [reflexivity|lia|reflexivity|].
    vm_compute. discriminate.
Defined.

(** ** The numeric conversion *)

Lemma coerce_columns_run (df : DataFrame) (cols : list string) (w : world) :
  coerce_columns df cols w
  = ({| out_dir := out_dir w;
        console := console w ++ (MsgCoercionWarning <$> refused df cols) |},
     Returned tt).
Proof.
  unfold refused. revert w.
  induction cols as [|col cols IH]; intros w; cbn [coerce_columns].
  - destruct w. cbn. by rewrite app_nil_r.
  - rewrite run_bind, filter_cons.
    destruct (is_number_column df col) eqn:Hcol.
    + rewrite decide_False by done. cbn [ret]. apply IH.
    + rewrite decide_True by done. cbn [print]. rewrite IH.
      cbn [out_dir console fmap list_fmap]. by rewrite <- (assoc_L (++)).
Qed.

Lemma add_numeric_fold (df : DataFrame) (cols acc : list string) :
  (forall c, c ∈ foldl (add_numeric df) acc cols
             <-> c ∈ acc \/ (c ∈ cols /\ c ∈ columns df)) /\
  (NoDup acc -> NoDup (foldl (add_numeric df) acc cols)).
Proof.
  revert acc. induction cols as [|col cols IH]; intros acc; cbn [foldl].
  - split; [|done]. intros c. rewrite elem_of_nil. tauto.
  - destruct (IH (add_numeric df acc col)) as [IHin IHnodup].
    unfold add_numeric in *. split.
    + intros c. rewrite IHin, elem_of_cons.
      case_decide as Hcol.
      * rewrite elem_of_app, list_elem_of_singleton. split; [|tauto].
        intros [[? | ->] | [? ?]]; tauto.
      * split; [tauto|]. intros [? | [[-> | ?] ?]]; tauto.
    + intros Hacc. apply IHnodup. case_decide as Hcol; [|done].
      apply NoDup_app. split_and!; [done| |apply NoDup_singleton].
      intros c Hc ->%list_elem_of_singleton. tauto.
Qed.

Lemma is_number_column_false (df : DataFrame) (c : string) :
  is_number_column df c = false ->
  exists r, r ∈ rows df /\ cell_kind (get c r) = Other.
Proof.
  unfold is_number_column.
  induction (rows df) as [|r rs IH]; cbn [forallb]; [done|].
  destruct (is_text (get c r)) eqn:Hr; cbn [negb andb].
  - intros _. exists r. split; [left|]. by destruct (get c r).
  - intros (r' & Hr' & Hkind)%IH. exists r'. split; [by right|done].
Qed.

Lemma is_number_column_true (df : DataFrame) (c : string) :
  (forall r, r ∈ rows df -> is_text (get c r) = false) ->
  is_number_column df c = true.
Proof.
  intros H. unfold is_number_column. apply forallb_forall.
  intros r Hr%list_elem_of_In. by rewrite (H r Hr).
Qed.

Lemma merged_frame_key (dirs : folders) (time_interval : Z) (r : row) :
  r ∈ rows (merged dirs time_interval) -> is_Some (frame_key r).
Proof.
  intros (i & csv & _ & Hr)%elem_of_merged_rows.
  apply read_frame_rows in Hr as (HF & _). unfold frame_key.
  by rewrite HF.
Qed.

Lemma merged_stamps_are_numbers (dirs : folders) (time_interval : Z)
    (c : string) :
  c ∈ ["Frame"; "TimeSec"; "TimeMin"] ->
  is_number_column (merged dirs time_interval) c = true.
Proof.
  intros Hc. apply is_number_column_true.
  intros r (i & csv & _ & Hr)%elem_of_merged_rows.
  apply read_frame_rows in Hr as (HF & HS & HM & _).
  rewrite !elem_of_cons, elem_of_nil in Hc.
  destruct Hc as [-> | [-> | [-> | []]]]; by rewrite ?HF, ?HS, ?HM.
Qed.

(** X16: the conversion step of a run.  It changes no data and no file; it
    prints one warning for each selected column of the merged data that
    holds text, once per column, and for no other column.  A warning
    foretells the end of the run: when one is printed, the mean table of the
    raw-data file cannot be built. *)
Theorem coercion_warning_foretells_failure (dirs : folders)
    (time_interval : Z) (selected_columns : list string) (w : world) :
  let df_all := merged dirs time_interval in
  let warned := refused df_all (numeric_columns df_all selected_columns) in
  coerce_columns df_all (numeric_columns df_all selected_columns) w
  = ({| out_dir := out_dir w;
        console := console w ++ (MsgCoercionWarning <$> warned) |},
     Returned tt) /\
  NoDup warned /\
  (forall c, c ∈ warned
             <-> c ∈ selected_columns /\ c ∈ columns df_all /\
                 is_number_column df_all c = false) /\
  (warned <> [] ->
   forall average_data,
     average_table df_all selected_columns <> Returned average_data).
Proof.
  cbn zeta. set (df_all := merged dirs time_interval).
  assert (Hin : forall c,
            c ∈ refused df_all (numeric_columns df_all selected_columns)
            <-> c ∈ selected_columns /\ c ∈ columns df_all /\
                is_number_column df_all c = false).
  { intros c. unfold refused, numeric_columns.
    rewrite list_elem_of_filter.
    rewrite (proj1 (add_numeric_fold _ _ _)), (proj1 (add_numeric_fold _ _ _)).
    rewrite list_elem_of_filter. split; [|tauto].
    intros [Hc [[[Hnum _]|[Hstamp _]]|[? ?]]]; [| |tauto].
    { unfold number_dtype in Hnum.
      destruct (rows df_all); [done|]. by rewrite Hc in Hnum. }
    pose proof (merged_stamps_are_numbers dirs time_interval c Hstamp).
    unfold df_all in Hc. congruence. }
  split_and!; [apply coerce_columns_run| |exact Hin|].
  - apply NoDup_filter. unfold numeric_columns.
    do 2 apply add_numeric_fold. apply NoDup_filter.
    unfold df_all, merged, concat. cbn [columns]. apply union_columns_NoDup.
  - intros Hwarned average_data Havg.
    destruct (refused _ _) as [|c warned] eqn:Hrefused; [done|].
    assert (Hc : c ∈ c :: warned) by left.
    apply Hin in Hc as (Hsel & _ & Hnum).
    apply is_number_column_false in Hnum as (r & Hr & Hkind).
    destruct (proj1 (average_table_returns_iff df_all selected_columns))
      as (_ & Hfree & _); [by eexists|].
    apply (Hfree r c); [done| |done..].
    by eapply merged_frame_key.
Qed.

Lemma coercion_warning_foretells_failure_witness :
  average_table (merged sample_folders 5) ["Diameter"; "SourceFile"]
  <> Returned {| columns := []; rows := [] |}.
Proof.
  apply (coercion_warning_foretells_failure sample_folders 5
           ["Diameter"; "SourceFile"] empty_world).
  vm_compute. discriminate.
Defined.

(** ** The files that match *)

Lemma substring_whole (s : string) :
  String.substring 0 (String.length s) s = s.
Proof. induction s as [|a s IH]; [done|]. cbn. by rewrite IH. Qed.

Lemma substring_after (stem suffix : string) :
  String.substring (String.length stem) (String.length suffix) (stem +:+ suffix)
  = suffix.
Proof.
  induction stem as [|a stem IH]; [apply substring_whole|].
  rewrite append_cons. cbn [String.length String.substring]. exact IH.
Qed.

Lemma length_append (s t : string) :
  String.length (s +:+ t) = (String.length s + String.length t)%nat.
Proof.
  induction s as [|a s IH]; [done|].
  rewrite append_cons. cbn [String.length]. by rewrite IH.
Qed.

Lemma substring_split (s : string) (m : nat) :
  (m <= String.length s)%nat ->
  s = String.substring 0 m s +:+ String.substring m (String.length s - m) s.
Proof.
  revert m. induction s as [|a s IH]; intros [|m] Hm; cbn in Hm; try lia.
  - done.
  - cbn [String.length]. rewrite Nat.sub_0_r.
    change (String.substring 0 0 (String a s)) with EmptyString.
    change (String a s
            = String.substring 0 (String.length (String a s)) (String a s)).
    by rewrite substring_whole.
  - cbn [String.length String.substring Nat.sub]. rewrite append_cons.
    f_equal. apply IH. lia.
Qed.

Lemma ends_with_spec (suffix s : string) :
  ends_with suffix s = true <-> exists stem, s = stem +:+ suffix.
Proof.
  unfold ends_with. rewrite andb_true_iff, Nat.leb_le, bool_decide_eq_true.
  split.
  - intros [Hle Hsub].
    exists (String.substring 0 (String.length s - String.length suffix) s).
    pose proof (substring_split s
                  (String.length s - String.length suffix) ltac:(lia)) as H.
    replace (String.length s - (String.length s - String.length suffix))%nat
      with (String.length suffix) in H by lia.
    by rewrite Hsub in H.
  - intros [stem ->]. rewrite length_append. split; [lia|].
    replace (String.length stem + String.length suffix
             - String.length suffix)%nat with (String.length stem) by lia.
    apply substring_after.
Qed.

(** X17: the input files of a run are the entries of the input folder whose
    name is some text, possibly empty, followed by
    [_morphometry_results.csv], and no other entry. *)
Theorem matched_files (listing : list csv_file) (csv : csv_file) :
  csv ∈ sorted (glob listing)
  <-> csv ∈ listing /\
      exists stem, file_name csv = stem +:+ "_morphometry_results.csv".
Proof.
  unfold sorted, glob.
  rewrite merge_sort_Permutation, list_elem_of_filter, Is_true_true.
  rewrite ends_with_spec. tauto.
Qed.

(** ** The layout of the summary table *)

Lemma agg_labels (col : string) (xs : list number) :
  ((fun sf : string * (list number -> cell) => ((col, sf.1), sf.2 xs))
   <$> agg_functions).*1
  = [(col, "mean"); (col, "std"); (col, "sem"); (col, "count")].
Proof. reflexivity. Qed.

Lemma group_cells_labels {K}
    (reduce : string -> list number -> list (K * cell)) (df : DataFrame)
    (selected_columns : list string) (k : Z) (cells : list (K * cell)) :
  (forall col xs, (reduce col xs).*1 = (reduce col []).*1) ->
  group_cells reduce df selected_columns k cells ->
  cells.*1 = mjoin ((fun col => (reduce col []).*1) <$> selected_columns).
Proof.
  intros Hlabels (per_column & Hall & ->).
  induction Hall as [|col cs cols css (xs & _ & ->) _ IH]; [done|].
  change (mjoin (reduce col xs :: css)) with (reduce col xs ++ mjoin css).
  rewrite fmap_app, IH, Hlabels. done.
Qed.

Lemma stat_names_NoDup (selected_columns : list string) :
  NoDup selected_columns ->
  NoDup (mjoin ((fun col => [(col, "mean"); (col, "std"); (col, "sem");
                             (col, "count")]) <$> selected_columns)).
Proof.
  induction 1 as [|col cols Hcol _ IH]; [constructor|].
  cbn [fmap list_fmap].
  change (mjoin (?l :: ?ls)) with (l ++ mjoin ls).
  apply NoDup_app. split_and!; [|  |done].
  - rewrite !NoDup_cons, !elem_of_cons, !elem_of_nil.
    split_and!; try apply NoDup_nil_2; intros H; destruct_or!; by simplify_eq.
  - intros [c s] Hl (l & Hin & (c' & -> & Hc')%list_elem_of_fmap)
      %list_elem_of_join.
    assert (c = col) as ->
      by (rewrite !elem_of_cons, elem_of_nil in Hl;
          destruct_or!; by simplify_eq).
    assert (c' = col) as ->
      by (rewrite !elem_of_cons, elem_of_nil in Hin;
          destruct_or!; by simplify_eq).
    done.
Qed.

(** X18: the statistics table, when it is built.  Its header is Frame
    followed, for each selected column in the order selected, by the
    column's mean, std, sem and count; it has one row per Frame of the
    merged data; every row holds a cell for each column of the header and for
    nothing else; and the header repeats no name when the selection repeats
    none. *)
Theorem summary_table_layout (df_all : DataFrame)
    (selected_columns : list string) (stats : DataFrame) :
  stats_table df_all selected_columns = Returned stats ->
  columns stats
  = "Frame" :: mjoin ((fun c => [c +:+ "_mean"; c +:+ "_std"; c +:+ "_sem";
                                 c +:+ "_count"]) <$> selected_columns) /\
  length (rows stats) = length (group_keys df_all) /\
  Forall (fun r : row => forall c, is_Some (r !! c) <-> c ∈ columns stats)
         (rows stats) /\
  (NoDup selected_columns -> NoDup (columns stats)).
Proof.
  unfold stats_table.
  destruct (groupby_agg df_all selected_columns) as [g|] eqn:Hg;
    cbn [mbind outcome_bind]; [|done].
  apply groupby_agg_Returned in Hg as [_ Hg].
  apply reduce_groups_Returned in Hg as (_ & Hcols & Hindex).
  unfold reset_index. case_decide as HFrame; [done|]. intros [= <-].
  cbn [columns rows flatten g_columns g_index] in *.
  assert (Hnames : g_columns g
            = mjoin ((fun col => [(col, "mean"); (col, "std"); (col, "sem");
                                  (col, "count")]) <$> selected_columns)).
  { rewrite Hcols. f_equal. }
  split_and!.
  - f_equal. rewrite Hnames. clear.
    induction selected_columns as [|c cs IH]; [done|].
    cbn [fmap list_fmap].
    change (mjoin (?l :: ?ls)) with (l ++ mjoin ls).
    rewrite fmap_app, IH. done.
  - rewrite !length_fmap. symmetry. by eapply Forall2_length.
  - rewrite <- list_fmap_compose. apply Forall_fmap, Forall_forall.
    intros [k cells] [i Hi]%list_elem_of_lookup.
    destruct (Forall2_lookup_r _ _ _ _ _ Hindex Hi) as (k' & _ & _ & Hcells).
    apply group_cells_labels in Hcells; [|done]. cbn [snd] in Hcells.
    intros c. unfold compose. cbn [fst snd].
    rewrite <- elem_of_dom, dom_insert, dom_list_to_map.
    rewrite elem_of_union, elem_of_singleton, elem_of_list_to_set.
    rewrite elem_of_cons, <- list_fmap_compose.
    change (fst ∘ (fun lc : string * string * cell => (flat_name lc.1, lc.2)))
      with (flat_name ∘ (fst : string * string * cell -> string * string)).
    by rewrite list_fmap_compose, Hcells, <- Hcols.
  - intros Hsel. constructor; [done|]. rewrite Hnames.
    apply NoDup_fmap_2_strong; [|by apply stat_names_NoDup].
    intros [c1 s1] [c2 s2] H1 H2 Heq.
    assert (Hs : forall c s,
              (c, s) ∈ mjoin ((fun col => [(col, "mean"); (col, "std");
                                           (col, "sem"); (col, "count")])
                              <$> selected_columns) ->
              s ∈ agg_functions.*1).
    { intros c s (l & Hin & (c' & -> & _)%list_elem_of_fmap)%list_elem_of_join.
      rewrite !elem_of_cons, elem_of_nil in Hin. cbn. rewrite !elem_of_cons.
      destruct_or!; simplify_eq; auto 10. }
    apply flat_name_inj in Heq as [-> ->]; [done|by eapply Hs..].
Qed.

Lemma summary_table_layout_witness :
  exists stats,
    stats_table sample_df_all sample_selected = Returned stats /\
    columns stats
    = ["Frame"; "Diameter_mean"; "Diameter_std"; "Diameter_sem";
       "Diameter_count"; "Perimeter_mean"; "Perimeter_std"; "Perimeter_sem";
       "Perimeter_count"].
Proof.
  destruct (stats_table sample_df_all sample_selected) as [stats|] eqn:Hs;
    [|vm_compute in Hs; discriminate Hs].
  exists stats. split; [reflexivity|].
  apply (summary_table_layout _ _ _ Hs).
Defined.

(** ** The estimate of the plotting time *)

Lemma disk_factor_bounds (disk_speed : Q) :
  (0 < 100 / Qmax disk_speed 10)%Q /\ (100 / Qmax disk_speed 10 <= 10)%Q.
Proof.
  pose proof (Q.le_max_r disk_speed 10) as Hmax.
  assert (Hpos : (0 < Qmax disk_speed 10)%Q) by lra.
  split.
  - apply Qlt_shift_div_l; [done|]. lra.
  - apply Qle_shift_div_r; [done|]. lra.
Qed.

(** X19: the estimate of the plotting time is finite and bounded whatever
    the throughput measured, zero and negative ones included, because the
    throughput enters through its maximum with 10: for a CPU load between 0
    and 100 percent the estimate lies between 0.4 s and 8.8 s per selected
    column. *)
Theorem plot_eta_bounds (ncols : nat) (cpu_load disk_speed : Q) :
  (0 <= cpu_load)%Q -> (cpu_load <= 100)%Q ->
  (inject_Z (Z.of_nat ncols) * (4 # 10)
   <= plot_eta ncols cpu_load disk_speed)%Q /\
  (plot_eta ncols cpu_load disk_speed
   <= inject_Z (Z.of_nat ncols) * (88 # 10))%Q.
Proof.
  intros Hlo Hhi. unfold plot_eta.
  destruct (disk_factor_bounds disk_speed) as [Hb0 Hb1].
  revert Hb0 Hb1. generalize (100 / Qmax disk_speed 10)%Q. intros b Hb0 Hb1.
  assert (Hn : (0 <= inject_Z (Z.of_nat ncols))%Q).
  { change 0%Q with (inject_Z 0). rewrite <- Zle_Qle. lia. }
  revert Hn. generalize (inject_Z (Z.of_nat ncols)). intros n Hn.
  assert (Ha0 : (0 <= cpu_load / 100)%Q).
  { apply Qle_shift_div_l; lra. }
  assert (Ha1 : (cpu_load / 100 <= 1)%Q).
  { apply Qle_shift_div_r; lra. }
  revert Ha0 Ha1. generalize (cpu_load / 100)%Q. intros a Ha0 Ha1.
  pose proof (Qmult_le_0_compat _ _ Hn Ha0) as Hna.
  pose proof (Qmult_le_0_compat n b Hn ltac:(lra)) as Hnb.
  pose proof (Qmult_le_0_compat _ b Hna ltac:(lra)) as Hnab.
  pose proof (Qmult_le_0_compat n (1 - a) Hn ltac:(lra)) as Hna'.
  pose proof (Qmult_le_0_compat n (10 - b) Hn ltac:(lra)) as Hnb'.
  pose proof (Qmult_le_0_compat _ (10 - b) Hna ltac:(lra)) as Hnab'.
  split; lra.
Qed.

Lemma plot_eta_bounds_witness :
  (plot_eta 2 10 0 <= inject_Z (Z.of_nat 2) * (88 # 10))%Q.
Proof.
  apply (plot_eta_bounds 2 10 0); [vm_compute; discriminate..].
Defined.

(** ** The mean table *)

Lemma mean_cases (xs : list number) :
  (xs = [] /\ mean xs = Null) \/
  (xs <> [] /\ exists qs, finite xs = Some qs /\ mean xs = Num (mean_of qs)) \/
  (xs <> [] /\ finite xs = None /\ is_finite (mean xs) = false).
Proof.
  destruct xs as [|x xs]; [by left|]. right. unfold mean.
  destruct (finite (x :: xs)) as [qs|]; [left|right].
  - split; [done|]. by exists qs.
  - split; [done|]. split; [done|]. by destruct (_ && _).
Qed.

(** X20: in the mean table, on the row of each Frame and for each selected
    column, the mean is NaN when no row of the Frame contributes a value,
    and it is no finite number when a contributing value is infinite.  When
    every contributing value is finite and of magnitude at most 2^400, the
    mean is NaN exactly when no row contributes, and a number otherwise. *)
Theorem mean_nan_iff_no_values (df_all : DataFrame)
    (selected_columns : list string) (average_data : DataFrame) :
  average_table df_all selected_columns = Returned average_data ->
  Forall2 (fun k r =>
     forall col, col ∈ selected_columns ->
       let n := contributing df_all k col in
       (n = 0%nat -> is_nan (get col r) = true) /\
       (infinite_in df_all k col = true -> is_finite (get col r) = false) /\
       (moderate df_all k col ->
          (is_nan (get col r) = true <-> n = 0%nat) /\
          ((0 < n)%nat -> exists q, get col r = Num q)))
    (group_keys df_all) (rows average_data).
Proof.
  intros (_ & _ & _ & Havg)%average_table_Returned.
  eapply Forall2_impl; [exact Havg|]. cbn beta.
  intros k r [_ Hcols] col Hcol.
  destruct (Hcols col Hcol) as (xs & Hxs & ->).
  pose proof (values_finite _ _ _ Hxs) as Hfin.
  fold (infinite_in df_all k col) in Hfin.
  pose proof (values_length _ _ _ Hxs) as Hlen.
  fold (contributing df_all k col) in Hlen. cbn zeta. rewrite <- Hlen.
  destruct (mean_cases xs)
    as [[-> ->]|[(Hne & qs & Hqs & ->)|(Hne & Hnone & Hmean)]].
  - split_and!; try done. intros _. split; [done|]. cbn. lia.
  - assert (length xs <> 0%nat) by (by destruct xs).
    split_and!; try done.
    + intros Hinf. apply Hfin in Hinf. congruence.
    + intros _. split; [done|]. intros _. by eexists.
  - assert (length xs <> 0%nat) by (by destruct xs).
    split_and!; try done.
    intros Hmod%moderate_not_infinite. apply Hfin in Hnone. congruence.
Qed.

Lemma mean_nan_iff_no_values_witness :
  exists average_data,
    average_table sample_df_all sample_selected = Returned average_data /\
    Forall2 (fun k r =>
       forall col, col ∈ sample_selected ->
         let n := contributing sample_df_all k col in
         (n = 0%nat -> is_nan (get col r) = true) /\
         (infinite_in sample_df_all k col = true ->
            is_finite (get col r) = false) /\
         (moderate sample_df_all k col ->
            (is_nan (get col r) = true <-> n = 0%nat) /\
            ((0 < n)%nat -> exists q, get col r = Num q)))
      (group_keys sample_df_all) (rows average_data).
Proof.
  destruct (average_table sample_df_all sample_selected) as [avg|] eqn:Ha;
    [|vm_compute in Ha; discriminate Ha].
  exists avg. split; [reflexivity|].
  apply (mean_nan_iff_no_values _ _ _ Ha).
Defined.
